(** * Receipt validators: a shallow embedding

    The repository ships two command-line validators for shopping receipts,
    [json_receipt/json_validator.py] (class [JSONReceiptValidator]) and
    [xml_receipt/xml_validator.py] (class [XMLReceiptValidator]).  Both walk a
    parsed document, append messages to the two lists [self.errors] and
    [self.warnings] of the validator object and finally build a report whose
    [overall_valid] entry is [len(self.errors) == 0].

    The embedding follows the Python text statement by statement:
    - Python values are the type [pyval]; floats are IEEE binary64 numbers
      (Rocq's primitive floats), integers are unbounded ([Z]);
    - strings are modelled over the 8-bit alphabet: a character is a code
      point below 256;
    - a method of a validator is a function in a state-and-exception monad
      over the validator object; an exception leaves the object as it was
      when the exception was raised;
    - an f-string is kept as the list of its pieces ([message]): literal text
      and the interpolated values, in order;
    - the outside world (file contents, the schema libraries, the clock, the
      parsers behind [float(str)], [int(str)] and [datetime]) enters through
      the records [builtins] and the [world] of each validator. *)

From Stdlib Require Import ZArith List String Ascii Bool Lia Floats.
Import ListNotations.

#[local] Set Warnings "-inexact-float,-register-all".
#[local] Open Scope string_scope.
#[local] Open Scope Z_scope.

(** ** Python values and the built-in operations the validators use *)

Module Py.

(** The exception classes that the modelled operations raise. *)
Inductive exn : Set :=
| TypeError
| ValueError
| AttributeError
| OverflowError
| KeyError.

Inductive result (A : Type) : Type :=
| Ok (a : A)
| Raise (e : exn).

Arguments Ok {A} a.
Arguments Raise {A} e.

Definition rbind {A B : Type} (r : result A) (k : A -> result B) : result B :=
  match r with
  | Ok a => k a
  | Raise e => Raise e
  end.

Notation "'let?' x ':=' r 'in' k" := (rbind r (fun x => k))
  (at level 10, x name, r at level 100, k at level 200).

(** What [json.load] returns, and what [xml_to_dict] builds: [None], [bool],
    [int], [float], [str], [list] and [dict] (insertion ordered, one entry
    per key). *)
Inductive pyval : Type :=
| PNone
| PBool (b : bool)
| PInt (z : Z)
| PFloat (f : float)
| PStr (s : string)
| PList (l : list pyval)
| PDict (d : list (string * pyval)).

Definition dict : Type := list (string * pyval).

Fixpoint dict_get (k : string) (d : dict) : option pyval :=
  match d with
  | [] => None
  | (k', v) :: d' => if String.eqb k k' then Some v else dict_get k d'
  end.

Definition dict_mem (k : string) (d : dict) : bool :=
  match dict_get k d with
  | Some _ => true
  | None => false
  end.

(** [d[k] = v]: an existing key keeps its position, a new key goes last. *)
Fixpoint dict_set (k : string) (v : pyval) (d : dict) : dict :=
  match d with
  | [] => [(k, v)]
  | (k', v') :: d' =>
      if String.eqb k k' then (k', v) :: d' else (k', v') :: dict_set k v d'
  end.

(** [bool(v)]. *)
Definition truthy (v : pyval) : bool :=
  match v with
  | PNone => false
  | PBool b => b
  | PInt z => negb (z =? 0)
  | PFloat f => negb (PrimFloat.eqb f 0%float)
  | PStr s => negb (String.eqb s "")
  | PList l => match l with [] => false | _ => true end
  | PDict d => match d with [] => false | _ => true end
  end.

(** [o.get(k, default)]: only a dict has the method. *)
Definition py_get (o : pyval) (k : string) (default : pyval) : result pyval :=
  match o with
  | PDict d =>
      match dict_get k d with
      | Some v => Ok v
      | None => Ok default
      end
  | _ => Raise AttributeError
  end.

(** [len(o)]. *)
Definition py_len (o : pyval) : result Z :=
  match o with
  | PStr s => Ok (Z.of_nat (String.length s))
  | PList l => Ok (Z.of_nat (List.length l))
  | PDict d => Ok (Z.of_nat (List.length d))
  | _ => Raise TypeError
  end.

Fixpoint chars (s : string) : list pyval :=
  match s with
  | EmptyString => []
  | String c s' => PStr (String c EmptyString) :: chars s'
  end.

(** The sequence a [for] loop walks: the elements of a list, the keys of a
    dict, the characters of a string. *)
Definition py_iter (o : pyval) : result (list pyval) :=
  match o with
  | PList l => Ok l
  | PDict d => Ok (map (fun kv => PStr (fst kv)) d)
  | PStr s => Ok (chars s)
  | _ => Raise TypeError
  end.

(** *** Strings *)

Fixpoint is_substring (k s : string) : bool :=
  if String.prefix k s then true
  else match s with
       | EmptyString => false
       | String _ s' => is_substring k s'
       end.

(** [s.replace(c, by)] for a one-character pattern. *)
Fixpoint str_replace (c : ascii) (by_ : string) (s : string) : string :=
  match s with
  | EmptyString => EmptyString
  | String a s' =>
      if Ascii.eqb a c then by_ ++ str_replace c by_ s'
      else String a (str_replace c by_ s')
  end.

(** Characters below 256 that [str.isdigit] accepts: 0-9 and the superscripts
    two, three and one. *)
Definition isdigit_char (c : ascii) : bool :=
  let n := Z.of_nat (nat_of_ascii c) in
  ((48 <=? n) && (n <=? 57)) || (n =? 178) || (n =? 179) || (n =? 185).

Fixpoint all_chars (p : ascii -> bool) (s : string) : bool :=
  match s with
  | EmptyString => true
  | String c s' => p c && all_chars p s'
  end.

(** [s.isdigit()]: false on the empty string. *)
Definition str_isdigit (s : string) : bool :=
  negb (String.eqb s "") && all_chars isdigit_char s.

(** Characters below 256 that [str.strip] removes. *)
Definition isspace_char (c : ascii) : bool :=
  let n := Z.of_nat (nat_of_ascii c) in
  ((9 <=? n) && (n <=? 13)) || ((28 <=? n) && (n <=? 32)) || (n =? 133) || (n =? 160).

Fixpoint lstrip (s : string) : string :=
  match s with
  | EmptyString => EmptyString
  | String c s' => if isspace_char c then lstrip s' else s
  end.

Fixpoint rstrip (s : string) : string :=
  match s with
  | EmptyString => EmptyString
  | String c s' =>
      match rstrip s' with
      | EmptyString => if isspace_char c then EmptyString else String c EmptyString
      | r => String c r
      end
  end.

Definition str_strip (s : string) : string := rstrip (lstrip s).

(** [k in o] for a string [k]: key of a dict, substring of a string, element
    of a list. *)
Definition py_contains (k : string) (o : pyval) : result bool :=
  match o with
  | PDict d => Ok (dict_mem k d)
  | PStr s => Ok (is_substring k s)
  | PList l =>
      Ok (existsb (fun v => match v with PStr s => String.eqb s k | _ => false end) l)
  | _ => Raise TypeError
  end.

(** [o[k]] for a string [k]. *)
Definition py_getitem (o : pyval) (k : string) : result pyval :=
  match o with
  | PDict d =>
      match dict_get k d with
      | Some v => Ok v
      | None => Raise KeyError
      end
  | _ => Raise TypeError
  end.

(** [o.isdigit()]: a method of [str] only. *)
Definition py_isdigit (o : pyval) : result bool :=
  match o with
  | PStr s => Ok (str_isdigit s)
  | _ => Raise AttributeError
  end.

(** [o.replace(c, by)]: a method of [str] only (the validators never call it
    on bytes). *)
Definition py_replace (o : pyval) (c : ascii) (by_ : string) : result string :=
  match o with
  | PStr s => Ok (str_replace c by_ s)
  | _ => Raise AttributeError
  end.

(** *** Numbers *)

Definition is_int (v : pyval) : bool :=
  match v with
  | PBool _ | PInt _ => true
  | _ => false
  end.

Definition is_number (v : pyval) : bool :=
  match v with
  | PBool _ | PInt _ | PFloat _ => true
  | _ => false
  end.

Definition is_str (v : pyval) : bool :=
  match v with
  | PStr _ => true
  | _ => false
  end.

Inductive num : Type :=
| NInt (z : Z)
| NFloat (f : float).

(** [bool] is a subclass of [int]. *)
Definition as_num (v : pyval) : option num :=
  match v with
  | PBool b => Some (NInt (Z.b2z b))
  | PInt z => Some (NInt z)
  | PFloat f => Some (NFloat f)
  | _ => None
  end.

(** The binary64 number nearest to an integer, ties to even. *)
Definition Z2float (z : Z) : float :=
  SF2Prim (binary_normalize prec emax z 0 false).

(** [float(z)] of an [int]: [OverflowError] beyond the binary64 range. *)
Definition float_of_int (z : Z) : result float :=
  let f := Z2float z in
  if is_infinity f then Raise OverflowError else Ok f.

(** [int(f)] of a [float]: truncation towards zero. *)
Definition int_of_float (f : float) : result Z :=
  match Prim2SF f with
  | S754_nan => Raise ValueError
  | S754_infinity _ => Raise OverflowError
  | S754_zero _ => Ok 0
  | S754_finite s m e =>
      let a := Z.shiftl (Z.pos m) e in
      Ok (if s then - a else a)
  end.

(** Exact comparison of an [int] with a [float]; [None] on NaN. *)
Definition compare_int_float (z : Z) (f : float) : option comparison :=
  match Prim2SF f with
  | S754_nan => None
  | S754_infinity s => Some (if s then Gt else Lt)
  | S754_zero _ => Some (z ?= 0)
  | S754_finite s m e =>
      let v := if s then Z.neg m else Z.pos m in
      Some (if 0 <=? e then z ?= v * 2 ^ e else z * 2 ^ (- e) ?= v)
  end.

Definition num_ltb (a b : num) : bool :=
  match a, b with
  | NInt x, NInt y => x <? y
  | NFloat x, NFloat y => PrimFloat.ltb x y
  | NInt x, NFloat y =>
      match compare_int_float x y with Some Lt => true | _ => false end
  | NFloat x, NInt y =>
      match compare_int_float y x with Some Gt => true | _ => false end
  end.

Definition num_leb (a b : num) : bool :=
  match a, b with
  | NInt x, NInt y => x <=? y
  | NFloat x, NFloat y => PrimFloat.leb x y
  | NInt x, NFloat y =>
      match compare_int_float x y with Some Lt | Some Eq => true | _ => false end
  | NFloat x, NInt y =>
      match compare_int_float y x with Some Gt | Some Eq => true | _ => false end
  end.

(** [v < c], [v <= c] and [v > c] against a numeric literal [c]: every
    comparison of the validators has this shape. *)
Definition py_lt (v : pyval) (c : num) : result bool :=
  match as_num v with
  | Some a => Ok (num_ltb a c)
  | None => Raise TypeError
  end.

Definition py_le (v : pyval) (c : num) : result bool :=
  match as_num v with
  | Some a => Ok (num_leb a c)
  | None => Raise TypeError
  end.

Definition py_gt (v : pyval) (c : num) : result bool :=
  match as_num v with
  | Some a => Ok (num_ltb c a)
  | None => Raise TypeError
  end.

Definition num_arith (fi : Z -> Z -> Z) (ff : float -> float -> float)
  (a b : num) : result pyval :=
  match a, b with
  | NInt x, NInt y => Ok (PInt (fi x y))
  | NInt x, NFloat y => let? x' := float_of_int x in Ok (PFloat (ff x' y))
  | NFloat x, NInt y => let? y' := float_of_int y in Ok (PFloat (ff x y'))
  | NFloat x, NFloat y => Ok (PFloat (ff x y))
  end.

(** [a - b]: defined on numbers only. *)
Definition py_sub (a b : pyval) : result pyval :=
  match as_num a, as_num b with
  | Some x, Some y => num_arith Z.sub PrimFloat.sub x y
  | _, _ => Raise TypeError
  end.

(** [a + b] with a number on the left (the accumulator of [sum]). *)
Definition py_add (a b : pyval) : result pyval :=
  match as_num a, as_num b with
  | Some x, Some y => num_arith Z.add PrimFloat.add x y
  | _, _ => Raise TypeError
  end.

Fixpoint str_repeat (n : nat) (s : string) : string :=
  match n with
  | O => EmptyString
  | S n' => s ++ str_repeat n' s
  end.

Fixpoint list_repeat (n : nat) (l : list pyval) : list pyval :=
  match n with
  | O => []
  | S n' => l ++ list_repeat n' l
  end.

(** [a * b]: numbers, or an [int] with a string or a list (repetition). *)
Definition py_mul (a b : pyval) : result pyval :=
  match as_num a, as_num b with
  | Some x, Some y => num_arith Z.mul PrimFloat.mul x y
  | Some (NInt n), None =>
      match b with
      | PStr s => Ok (PStr (str_repeat (Z.to_nat n) s))
      | PList l => Ok (PList (list_repeat (Z.to_nat n) l))
      | _ => Raise TypeError
      end
  | None, Some (NInt n) =>
      match a with
      | PStr s => Ok (PStr (str_repeat (Z.to_nat n) s))
      | PList l => Ok (PList (list_repeat (Z.to_nat n) l))
      | _ => Raise TypeError
      end
  | _, _ => Raise TypeError
  end.

(** [abs(v)]. *)
Definition py_abs (v : pyval) : result pyval :=
  match as_num v with
  | Some (NInt z) => Ok (PInt (Z.abs z))
  | Some (NFloat f) => Ok (PFloat (PrimFloat.abs f))
  | None => Raise TypeError
  end.

(** *** Parsers and the clock

    [float(str)], [int(str)], [datetime.fromisoformat] and
    [datetime.strptime(_, '%Y-%m-%d')] belong to the Python runtime, not to
    the repository; they are parameters of the development.  [None] stands
    for [ValueError].  A [datetime] is represented by an integer that orders
    its wall-clock fields: the validators compare a parsed date only with
    [datetime.now()] carrying the same [tzinfo], which compares those
    fields. *)
Record builtins : Type := {
  float_of_str : string -> option float;
  int_of_str : string -> option Z;
  fromisoformat : string -> option Z;
  strptime_ymd : string -> option Z
}.

Definition to_option {A : Type} (r : result A) : option A :=
  match r with
  | Ok a => Some a
  | Raise _ => None
  end.

Definition of_option {A : Type} (e : exn) (o : option A) : result A :=
  match o with
  | Some a => Ok a
  | None => Raise e
  end.

(** [float(v)]. *)
Definition py_float (B : builtins) (v : pyval) : result float :=
  match v with
  | PFloat f => Ok f
  | PInt z => float_of_int z
  | PBool b => float_of_int (Z.b2z b)
  | PStr s => of_option ValueError (float_of_str B s)
  | _ => Raise TypeError
  end.

(** [int(v)]. *)
Definition py_int (B : builtins) (v : pyval) : result Z :=
  match v with
  | PInt z => Ok z
  | PBool b => Ok (Z.b2z b)
  | PFloat f => int_of_float f
  | PStr s => of_option ValueError (int_of_str B s)
  | _ => Raise TypeError
  end.

(** *** Messages

    An f-string, piece by piece: [Lit] is literal text, [Fmt v] the text of
    [str(v)], [FmtExn e] the text of an exception, [FmtType v] the text of
    [type(v).__name__], [FmtJoin sep vs] the text of
    [sep.join(str(p) for p in vs)]. *)
Inductive frag : Type :=
| Lit (s : string)
| Fmt (v : pyval)
| FmtExn (e : exn)
| FmtType (v : pyval)
| FmtJoin (sep : string) (vs : list pyval).

Definition message : Type := list frag.

(** *** Methods: state and exceptions

    A method body runs on the validator object [S]; when it raises, the
    object keeps what was written to it so far. *)
Definition M (S A : Type) : Type := S -> result A * S.

Definition ret {S A : Type} (a : A) : M S A := fun s => (Ok a, s).

Definition bind {S A B : Type} (m : M S A) (k : A -> M S B) : M S B :=
  fun s =>
    match m s with
    | (Ok a, s') => k a s'
    | (Raise e, s') => (Raise e, s')
    end.

Definition lift {S A : Type} (r : result A) : M S A := fun s => (r, s).

(** [try: body except E: handler] with [catches] saying which classes [E]
    covers. *)
Definition try_except {S A : Type} (body : M S A) (catches : exn -> bool)
  (handler : exn -> M S A) : M S A :=
  fun s =>
    match body s with
    | (Ok a, s') => (Ok a, s')
    | (Raise e, s') => if catches e then handler e s' else (Raise e, s')
    end.

End Py.

Import Py.

Notation "x <- m ;; k" := (bind m (fun x => k))
  (at level 61, m at next level, right associativity).
Notation "m ;;; k" := (bind m (fun _ => k))
  (at level 61, right associativity).


(** ** [json_receipt/json_validator.py] *)

Module JSONReceiptValidator.

(** What [open] and [json.load] produce for [self.json_file]: the parsed
    document, a [json.JSONDecodeError] or another exception, each with the
    text of [str(e)]. *)
Inductive loaded : Type :=
| Loaded (data : pyval)
| JSONDecodeError (text : string)
| LoadError (text : string).

(** What the [try] block of [validate_schema] does: [validate] returns, or
    raises [ValidationError] (with [e.message] and [e.path]), or anything
    else in the block raises (with [str(e)]). *)
Inductive schema_outcome : Type :=
| SchemaValid
| SchemaValidationError (emessage : string) (epath : list pyval)
| SchemaException (text : string).

(** The surroundings of one call of [generate_report]: whether [jsonschema]
    could be imported, what the file holds, how the schema check of a
    document ends, and the two readings of [datetime.now()], by rule 2 and
    for the timestamp of the report. *)
Record world : Type := {
  JSONSCHEMA_AVAILABLE : bool;
  file_content : loaded;
  schema_check : pyval -> schema_outcome;
  now_rules : Z;
  now_report : Z
}.

(** The validator object. *)
Record validator : Type := {
  json_file : string;
  schema_file : option string;
  errors : list message;
  warnings : list message;
  json_data : pyval
}.

Definition __init__ (json_file : string) (schema_file : option string) : validator :=
  {| json_file := json_file;
     schema_file := schema_file;
     errors := [];
     warnings := [];
     json_data := PNone |}.

(** [self.errors.append(m)]. *)
Definition errors_append (m : message) : M validator unit :=
  fun self =>
    (Ok tt,
     {| json_file := json_file self;
        schema_file := schema_file self;
        errors := errors self ++ [m];
        warnings := warnings self;
        json_data := json_data self |}).

(** [self.warnings.append(m)]. *)
Definition warnings_append (m : message) : M validator unit :=
  fun self =>
    (Ok tt,
     {| json_file := json_file self;
        schema_file := schema_file self;
        errors := errors self;
        warnings := warnings self ++ [m];
        json_data := json_data self |}).

Definition set_json_data (data : pyval) : M validator unit :=
  fun self =>
    (Ok tt,
     {| json_file := json_file self;
        schema_file := schema_file self;
        errors := errors self;
        warnings := warnings self;
        json_data := data |}).

Definition get_json_data : M validator pyval :=
  fun self => (Ok (json_data self), self).

Section Methods.

Variable B : builtins.
Variable W : world.

Definition load_json : M validator bool :=
  match file_content W with
  | Loaded data => set_json_data data ;;; ret true
  | JSONDecodeError text =>
      errors_append [Lit "JSON parsing error: "; Fmt (PStr text)] ;;; ret false
  | LoadError text =>
      errors_append [Lit "Error loading JSON file: "; Fmt (PStr text)] ;;; ret false
  end.

Definition validate_schema : M validator bool :=
  if negb (JSONSCHEMA_AVAILABLE W) then
    errors_append [Lit "JSON Schema validation requires jsonschema library"] ;;;
    ret false
  else
    data <- get_json_data ;;
    if negb (truthy data) then
      errors_append [Lit "No JSON data loaded for schema validation"] ;;;
      ret false
    else
      match schema_check W data with
      | SchemaValid => ret true
      | SchemaValidationError emessage epath =>
          errors_append [Lit "Schema validation error: "; Fmt (PStr emessage)] ;;;
          (match epath with
           | [] => ret tt
           | _ => errors_append [Lit "  At path: "; FmtJoin " -> " epath]
           end) ;;;
          ret false
      | SchemaException text =>
          errors_append [Lit "Schema validation failed: "; Fmt (PStr text)] ;;;
          ret false
      end.

(** Rule 1: minimum 5 items required. The block also binds [items]. *)
Definition rule_item_count (data : pyval) : M validator (pyval * bool) :=
  items <- lift (py_get data "items" (PList [])) ;;
  items_count <- lift (py_len items) ;;
  if items_count <? 5 then
    errors_append [Lit "Receipt must contain at least 5 items. Found: ";
                   Fmt (PInt items_count)] ;;;
    ret (items, false)
  else
    warnings_append [Lit "Item count validation passed: ";
                     Fmt (PInt items_count); Lit " items"] ;;;
    ret (items, true).

Definition is_ValueError (e : exn) : bool :=
  match e with
  | ValueError => true
  | _ => false
  end.

(** Rule 2: the purchase date should not be in the future. *)
Definition rule_purchase_date (data : pyval) : M validator bool :=
  purchase_date <- lift (py_get data "purchase_date" PNone) ;;
  if truthy purchase_date then
    try_except
      (s <- lift (py_replace purchase_date "Z"%char "+00:00") ;;
       purchase_dt <- lift (of_option ValueError (fromisoformat B s)) ;;
       if now_rules W <? purchase_dt then
         errors_append [Lit "Purchase date cannot be in the future"] ;;;
         ret false
       else ret true)
      is_ValueError
      (fun e =>
         errors_append [Lit "Invalid date format: "; FmtExn e] ;;;
         ret false)
  else ret true.

(** Rule 3: total amount validation. *)
Definition rule_total_amount (data : pyval) : M validator bool :=
  t <- lift (py_get data "total_amount" (PInt 0)) ;;
  total_amount <- lift (py_float B t) ;;
  pricing <- lift (py_get data "pricing" (PDict [])) ;;
  has_grand_total <- lift (py_contains "grand_total" pricing) ;;
  if has_grand_total then
    g <- lift (py_getitem pricing "grand_total") ;;
    calculated_total <- lift (py_float B g) ;;
    if PrimFloat.ltb 0.01%float (PrimFloat.abs (total_amount - calculated_total)%float) then
      errors_append [Lit "Total amount mismatch. Header: "; Fmt (PFloat total_amount);
                     Lit ", Pricing: "; Fmt (PFloat calculated_total)] ;;;
      ret false
    else ret true
  else ret true.

(** Rule 4, first check: the quantity is a positive integer. *)
Definition check_quantity (i : Z) (quantity : pyval) : M validator bool :=
  bad <- lift (if negb (is_int quantity) then Ok true else py_le quantity (NInt 0)) ;;
  if (bad : bool) then
    errors_append [Lit "Item "; Fmt (PInt (i + 1));
                   Lit ": Quantity must be positive integer. Found: "; Fmt quantity] ;;;
    ret false
  else ret true.

(** Rule 4, second check: the unit price is non-negative. *)
Definition check_unit_price (i : Z) (unit_price : pyval) : M validator bool :=
  bad <- lift (if negb (is_number unit_price) then Ok true
               else py_lt unit_price (NInt 0)) ;;
  if (bad : bool) then
    errors_append [Lit "Item "; Fmt (PInt (i + 1));
                   Lit ": Unit price cannot be negative. Found: "; Fmt unit_price] ;;;
    ret false
  else ret true.

(** Rule 4, third check: the subtotal calculation. *)
Definition check_subtotal (i : Z) (quantity unit_price subtotal : pyval)
  : M validator bool :=
  expected_subtotal <- lift (py_mul quantity unit_price) ;;
  difference <- lift (py_sub subtotal expected_subtotal) ;;
  magnitude <- lift (py_abs difference) ;;
  bad <- lift (py_gt magnitude (NFloat 0.01%float)) ;;
  if (bad : bool) then
    errors_append [Lit "Item "; Fmt (PInt (i + 1));
                   Lit ": Subtotal calculation error. Expected: "; Fmt expected_subtotal;
                   Lit ", Found: "; Fmt subtotal] ;;;
    ret false
  else ret true.

(** The body of the loop of rule 4. *)
Definition check_item (i : Z) (item : pyval) : M validator bool :=
  quantity <- lift (py_get item "quantity" (PInt 0)) ;;
  unit_price <- lift (py_get item "unit_price" (PInt 0)) ;;
  subtotal <- lift (py_get item "subtotal" (PInt 0)) ;;
  ok1 <- check_quantity i quantity ;;
  ok2 <- check_unit_price i unit_price ;;
  ok3 <- check_subtotal i quantity unit_price subtotal ;;
  ret (ok1 && ok2 && ok3).

(** [for i, item in enumerate(items)], counting from [i]. *)
Fixpoint check_items (i : Z) (items : list pyval) : M validator bool :=
  match items with
  | [] => ret true
  | item :: rest =>
      ok <- check_item i item ;;
      ok' <- check_items (i + 1) rest ;;
      ret (ok && ok')
  end.

Definition rule_items (items : pyval) : M validator bool :=
  elements <- lift (py_iter items) ;;
  check_items 0 elements.

(** Rule 5: customer validation. The block also binds [customer]. *)
Definition rule_loyalty (data : pyval) : M validator pyval :=
  customer <- lift (py_get data "customer" (PDict [])) ;;
  loyalty_member <- lift (py_get customer "loyalty_member" PNone) ;;
  (if truthy loyalty_member then
     member_since <- lift (py_get customer "member_since" PNone) ;;
     if negb (truthy member_since) then
       warnings_append [Lit "Loyalty member should have member_since date"]
     else ret tt
   else ret tt) ;;;
  ret customer.

(** Rule 6: email format validation. *)
Definition rule_email (customer : pyval) : M validator bool :=
  email <- lift (py_get customer "email" (PStr "")) ;;
  bad <- lift (if truthy email then
                 let? found := py_contains "@" email in Ok (negb found)
               else Ok false) ;;
  if (bad : bool) then
    errors_append [Lit "Invalid email format: "; Fmt email] ;;;
    ret false
  else ret true.

(** [v == 'Credit Card']. *)
Definition is_credit_card (v : pyval) : bool :=
  match v with
  | PStr s => String.eqb s "Credit Card"
  | _ => false
  end.

(** Rule 7, first check: [card_type] and [card_number_last_four] are there. *)
Definition check_card_fields (payment : pyval) : M validator bool :=
  card_type <- lift (py_get payment "card_type" PNone) ;;
  missing <- lift (if negb (truthy card_type) then Ok true
                   else let? last_four := py_get payment "card_number_last_four" PNone in
                        Ok (negb (truthy last_four))) ;;
  if (missing : bool) then
    errors_append [Lit "Credit Card payment requires card_type and card_number_last_four"] ;;;
    ret false
  else ret true.

(** Rule 7, second check, with the condition grouped as Python parses it:
    [(card_number and not card_number.isdigit()) or len(card_number) != 4]. *)
Definition check_card_number (payment : pyval) : M validator bool :=
  card_number <- lift (py_get payment "card_number_last_four" (PStr "")) ;;
  bad <- lift (let? left :=
                 (if truthy card_number then
                    let? digits := py_isdigit card_number in Ok (negb digits)
                  else Ok false) in
               if (left : bool) then Ok true
               else let? n := py_len card_number in Ok (negb (n =? 4))) ;;
  if (bad : bool) then
    errors_append [Lit "Card number last four must be 4 digits. Found: "; Fmt card_number] ;;;
    ret false
  else ret true.

(** Rule 7: payment method validation. *)
Definition rule_payment (data : pyval) : M validator bool :=
  payment_method <- lift (py_get data "payment_method" PNone) ;;
  payment <- lift (py_get data "payment" (PDict [])) ;;
  if is_credit_card payment_method then
    ok1 <- check_card_fields payment ;;
    ok2 <- check_card_number payment ;;
    ret (ok1 && ok2)
  else ret true.

(** Rule 8: digital signature validation. *)
Definition rule_signature (data : pyval) : M validator bool :=
  digital_sig <- lift (py_get data "digital_signature" (PDict [])) ;;
  algorithm <- lift (py_get digital_sig "algorithm" PNone) ;;
  missing <- lift (if negb (truthy algorithm) then Ok true
                   else let? signature := py_get digital_sig "signature" PNone in
                        Ok (negb (truthy signature))) ;;
  if (missing : bool) then
    errors_append [Lit "Digital signature must include algorithm and signature"] ;;;
    ret false
  else ret true.

(** Rule 9, first loop: [prices.extend([unit_price, subtotal])] per item. *)
Fixpoint item_prices (items : list pyval) : result (list pyval) :=
  match items with
  | [] => Ok []
  | item :: rest =>
      let? unit_price := py_get item "unit_price" (PInt 0) in
      let? subtotal := py_get item "subtotal" (PInt 0) in
      let? more := item_prices rest in
      Ok (unit_price :: subtotal :: more)
  end.

(** Rule 9: [if k in pricing_section: prices.append(pricing_section[k])]. *)
Definition pricing_price (pricing_section : pyval) (k : string) : result (list pyval) :=
  let? present := py_contains k pricing_section in
  if (present : bool) then
    let? v := py_getitem pricing_section k in Ok [v]
  else Ok [].

(** Rule 9, second loop: the range check of every collected price. *)
Fixpoint check_prices (prices : list pyval) : M validator bool :=
  match prices with
  | [] => ret true
  | price :: rest =>
      negative <- lift (py_lt price (NInt 0)) ;;
      ok <- (if (negative : bool) then
               errors_append [Lit "Price cannot be negative: "; Fmt price] ;;;
               ret false
             else
               high <- lift (py_gt price (NInt 100000)) ;;
               if (high : bool) then
                 warnings_append [Lit "Unusually high price: "; Fmt price] ;;;
                 ret true
               else ret true) ;;
      ok' <- check_prices rest ;;
      ret (ok && ok')
  end.

(** Rule 9: currency consistency. *)
Definition rule_prices (data items : pyval) : M validator bool :=
  elements <- lift (py_iter items) ;;
  prices <- lift (item_prices elements) ;;
  pricing_section <- lift (py_get data "pricing" (PDict [])) ;;
  p1 <- lift (pricing_price pricing_section "subtotal") ;;
  p2 <- lift (pricing_price pricing_section "grand_total") ;;
  check_prices (prices ++ p1 ++ p2).

Definition required_fields : list string :=
  ["receipt_id"; "purchase_date"; "store_name"; "customer"; "store";
   "items"; "payment"; "transaction"; "footer"].

(** Rule 10: required fields presence. *)
Fixpoint rule_required (data : pyval) (fields : list string) : M validator bool :=
  match fields with
  | [] => ret true
  | field :: rest =>
      present <- lift (py_contains field data) ;;
      ok <- (if (present : bool) then ret true
             else errors_append [Lit "Required field missing: "; Fmt (PStr field)] ;;;
                  ret false) ;;
      ok' <- rule_required data rest ;;
      ret (ok && ok')
  end.

Definition validate_business_rules : M validator bool :=
  data <- get_json_data ;;
  if negb (truthy data) then
    errors_append [Lit "No JSON data loaded for business rule validation"] ;;;
    ret false
  else
    r1 <- rule_item_count data ;;
    let items := fst r1 in
    ok2 <- rule_purchase_date data ;;
    ok3 <- rule_total_amount data ;;
    ok4 <- rule_items items ;;
    customer <- rule_loyalty data ;;
    ok6 <- rule_email customer ;;
    ok7 <- rule_payment data ;;
    ok8 <- rule_signature data ;;
    ok9 <- rule_prices data items ;;
    ok10 <- rule_required data required_fields ;;
    ret (snd r1 && ok2 && ok3 && ok4 && ok6 && ok7 && ok8 && ok9 && ok10).

Definition validate_data_types : M validator bool :=
  data <- get_json_data ;;
  if negb (truthy data) then
    errors_append [Lit "No JSON data loaded for data type validation"] ;;;
    ret false
  else
    receipt_id <- lift (py_get data "receipt_id" (PStr "")) ;;
    (match receipt_id with
     | PStr s =>
         if String.prefix "RCPT_" s then ret tt
         else warnings_append [Lit "Receipt ID format may be incorrect: "; Fmt receipt_id]
     | _ => warnings_append [Lit "Receipt ID format may be incorrect: "; Fmt receipt_id]
     end) ;;;
    total <- lift (py_get data "total_amount" PNone) ;;
    ok1 <- (match total with
            | PNone => ret true
            | _ =>
                if is_number total then ret true
                else errors_append [Lit "Field 'total_amount' must be numeric. Found: ";
                                    FmtType total] ;;;
                     ret false
            end) ;;
    date <- lift (py_get data "purchase_date" PNone) ;;
    ok2 <- (match date with
            | PNone => ret true
            | _ =>
                try_except
                  (s <- lift (py_replace date "Z"%char "+00:00") ;;
                   lift (of_option ValueError (fromisoformat B s)) ;;;
                   ret true)
                  is_ValueError
                  (fun _ =>
                     errors_append [Lit "Field 'purchase_date' must be valid ISO date. Found: ";
                                    Fmt date] ;;;
                     ret false)
            end) ;;
    ret (ok1 && ok2).

(** [sum(item.get('subtotal', 0) for item in items if ...)]: the generator
    is consumed item by item, the sum starts from 0. *)
Fixpoint sum_subtotals (taxable_only : bool) (acc : pyval) (items : list pyval)
  : result pyval :=
  match items with
  | [] => Ok acc
  | item :: rest =>
      let? keep := (if taxable_only then
                      let? tax_applied := py_get item "tax_applied" (PBool false) in
                      Ok (truthy tax_applied)
                    else Ok true) in
      if (keep : bool) then
        let? subtotal := py_get item "subtotal" (PInt 0) in
        let? acc' := py_add acc subtotal in
        sum_subtotals taxable_only acc' rest
      else sum_subtotals taxable_only acc rest
  end.

Record totals : Type := {
  calculated_subtotal : pyval;
  taxable_subtotal : pyval;
  item_count : Z
}.

Definition calculate_totals : M validator totals :=
  data <- get_json_data ;;
  items <- lift (py_get data "items" (PList [])) ;;
  elements <- lift (py_iter items) ;;
  subtotal <- lift (sum_subtotals false (PInt 0) elements) ;;
  taxable_subtotal <- lift (sum_subtotals true (PInt 0) elements) ;;
  count <- lift (py_len items) ;;
  ret {| calculated_subtotal := subtotal;
         taxable_subtotal := taxable_subtotal;
         item_count := count |}.

(** The ['schema_validation'] entry of a report. *)
Record schema_entry : Type := {
  available : bool;
  entry_schema_file : option string;
  valid : option bool
}.

(** The dict [generate_report] returns: the short form when the file did not
    load, the full form otherwise.  The ['errors'] and ['warnings'] entries
    are the list objects [self.errors] and [self.warnings] themselves; the
    fields below record what they hold when the report is returned. *)
Inductive report : Type :=
| ShortReport (file : string) (timestamp : Z)
    (report_errors report_warnings : list message) (overall_valid : bool)
| FullReport (file : string) (timestamp : Z) (schema_validation : schema_entry)
    (business_rules_valid data_types_valid : bool) (calculated_totals : totals)
    (report_errors report_warnings : list message) (overall_valid : bool).

Definition report_errors (r : report) : list message :=
  match r with
  | ShortReport _ _ es _ _ => es
  | FullReport _ _ _ _ _ _ es _ _ => es
  end.

Definition report_warnings (r : report) : list message :=
  match r with
  | ShortReport _ _ _ ws _ => ws
  | FullReport _ _ _ _ _ _ _ ws _ => ws
  end.

Definition overall_valid (r : report) : bool :=
  match r with
  | ShortReport _ _ _ _ v => v
  | FullReport _ _ _ _ _ _ _ _ v => v
  end.

(** What an earlier report shows once the validator object has moved on to
    [self]: its two list entries are shared with the object. *)
Definition reread (self : validator) (r : report) : report :=
  match r with
  | ShortReport f t _ _ v => ShortReport f t (errors self) (warnings self) v
  | FullReport f t sv b d c _ _ v =>
      FullReport f t sv b d c (errors self) (warnings self) v
  end.

Definition get_self : M validator validator :=
  fun self => (Ok self, self).

(** The truth value of an optional string argument ([None] and the empty
    string are false). *)
Definition given (o : option string) : bool :=
  match o with
  | Some s => negb (String.eqb s "")
  | None => false
  end.

Definition generate_report : M validator report :=
  loaded_ok <- load_json ;;
  if negb loaded_ok then
    self <- get_self ;;
    ret (ShortReport (json_file self) (now_report W) (errors self) (warnings self) false)
  else
    self0 <- get_self ;;
    schema_valid <- (if given (schema_file self0) then
                       v <- validate_schema ;; ret (Some v)
                     else ret None) ;;
    content_valid <- validate_business_rules ;;
    types_valid <- validate_data_types ;;
    totals <- calculate_totals ;;
    self <- get_self ;;
    ret (FullReport (json_file self) (now_report W)
           {| available := JSONSCHEMA_AVAILABLE W;
              entry_schema_file := schema_file self;
              valid := schema_valid |}
           content_valid types_valid totals
           (errors self) (warnings self)
           (Nat.eqb (List.length (errors self)) 0)).

(** [print_report] reads ['schema_validation'] and the other entries of the
    full form ([KeyError] on the short form) and returns ['overall_valid']. *)
Definition print_report : M validator bool :=
  report <- generate_report ;;
  match report with
  | ShortReport _ _ _ _ _ => lift (Raise KeyError)
  | FullReport _ _ _ _ _ _ _ _ v => ret v
  end.

End Methods.

(** [main]: one validator object; [print_report] runs [generate_report] on
    it, and [--json-report] runs [generate_report] on it again and saves that
    second report.  The result is the exit status and the saved report. *)
Definition main (B : builtins) (W1 W2 : world) (json_file schema : string)
  (json_report : option string) : result (bool * option report) :=
  let validator := __init__ json_file (Some schema) in
  match print_report B W1 validator with
  | (Raise e, _) => Raise e
  | (Ok is_valid, validator') =>
      if given json_report then
        match generate_report B W2 validator' with
        | (Raise e, _) => Raise e
        | (Ok report, _) => Ok (is_valid, Some report)
        end
      else Ok (is_valid, None)
  end.

End JSONReceiptValidator.

(** ** [xml_receipt/xml_validator.py] *)

Module XMLReceiptValidator.

(** An element of the parsed tree: [tag], [attrib], [text] and the child
    elements in document order (a tree of elements only: no comments or
    processing instructions). *)
Inductive element : Type :=
| Element (tag : string) (attrib : list (string * string)) (text : option string)
    (children : list element).

Definition tag (e : element) : string :=
  match e with
  | Element t _ _ _ => t
  end.

(** What parsing [self.xml_file] gives: the root element, a parse error of
    the parser in use, or another exception (each with [str(e)]). *)
Inductive parsed : Type :=
| Parsed (root : element)
| ParseError (text : string)
| OtherError (text : string).

(** What the [try] block of [validate_schema] does: the document validates,
    or it does not and [schema.error_log] holds the given entries, or
    something in the block raises. *)
Inductive xsd_outcome : Type :=
| XsdValid
| XsdInvalid (error_log : list string)
| XsdException (text : string).

(** The surroundings of one call of [generate_report], as for the JSON
    validator. *)
Record world : Type := {
  LXML_AVAILABLE : bool;
  parse_file : parsed;
  xsd_check : xsd_outcome;
  now_rules : Z;
  now_report : Z
}.

Record validator : Type := {
  xml_file : string;
  xsd_file : string;
  errors : list message;
  warnings : list message
}.

Definition __init__ (xml_file xsd_file : string) : validator :=
  {| xml_file := xml_file; xsd_file := xsd_file; errors := []; warnings := [] |}.

Definition errors_append (m : message) : M validator unit :=
  fun self =>
    (Ok tt,
     {| xml_file := xml_file self;
        xsd_file := xsd_file self;
        errors := errors self ++ [m];
        warnings := warnings self |}).

Definition warnings_append (m : message) : M validator unit :=
  fun self =>
    (Ok tt,
     {| xml_file := xml_file self;
        xsd_file := xsd_file self;
        errors := errors self;
        warnings := warnings self ++ [m] |}).

(** The loop body of [xml_to_dict] for one child. *)
Definition add_child (result : dict) (child_tag : string) (child_data : pyval) : dict :=
  match dict_get child_tag result with
  | Some (PList l) => dict_set child_tag (PList (l ++ [child_data])) result
  | Some existing => dict_set child_tag (PList [existing; child_data]) result
  | None => dict_set child_tag child_data result
  end.

Definition add_attributes (attrib : list (string * string)) : dict :=
  fold_left (fun result kv => dict_set ("@" ++ fst kv) (PStr (snd kv)) result) attrib [].

(** [element.text.strip()] when [element.text and element.text.strip()]
    holds. *)
Definition stripped_text (text : option string) : option string :=
  match text with
  | Some t => if String.eqb (str_strip t) "" then None else Some (str_strip t)
  | None => None
  end.

(** [xml_to_dict], and [lxml_to_dict], which has the same body. *)
Fixpoint xml_to_dict (e : element) : pyval :=
  match e with
  | Element _ attrib text children =>
      let result := add_attributes attrib in
      let add_children :=
        fold_left (fun r child => add_child r (tag child) (xml_to_dict child)) children in
      match stripped_text text with
      | Some t =>
          match children with
          | [] => PStr t
          | _ => PDict (add_children (dict_set "#text" (PStr t) result))
          end
      | None => PDict (add_children result)
      end
  end.

(** [for error in schema.error_log: self.errors.append(...)]. *)
Fixpoint report_error_log (error_log : list string) : M validator unit :=
  match error_log with
  | [] => ret tt
  | error :: rest =>
      errors_append [Lit "Schema validation error: "; Fmt (PStr error)] ;;;
      report_error_log rest
  end.

Section Methods.

Variable B : builtins.
Variable W : world.

Definition validate_schema : M validator bool :=
  if negb (LXML_AVAILABLE W) then
    errors_append [Lit "XSD validation requires lxml library"] ;;;
    ret false
  else
    match xsd_check W with
    | XsdValid => ret true
    | XsdInvalid error_log =>
        report_error_log error_log ;;;
        ret false
    | XsdException text =>
        errors_append [Lit "Schema validation failed: "; Fmt (PStr text)] ;;;
        ret false
    end.

(** [xml_data.get('items', {}).get('item', [])]. *)
Definition get_items (xml_data : pyval) : result pyval :=
  let? items := py_get xml_data "items" (PDict []) in
  py_get items "item" (PList []).

(** Rule 1: minimum 5 items required. *)
Definition rule_item_count (xml_data : pyval) : M validator bool :=
  item <- lift (get_items xml_data) ;;
  items_count <- lift (py_len item) ;;
  if items_count <? 5 then
    errors_append [Lit "Receipt must contain at least 5 items. Found: ";
                   Fmt (PInt items_count)] ;;;
    ret false
  else
    warnings_append [Lit "Item count validation passed: ";
                     Fmt (PInt items_count); Lit " items"] ;;;
    ret true.

(** [datetime.strptime(v, '%Y-%m-%d')]: the argument must be a [str]. *)
Definition py_strptime (v : pyval) : result Z :=
  match v with
  | PStr s => of_option ValueError (strptime_ymd B s)
  | _ => Raise TypeError
  end.

Definition is_ValueError (e : exn) : bool :=
  match e with
  | ValueError => true
  | _ => false
  end.

(** Rule 2: the purchase date should not be in the future. *)
Definition rule_purchase_date (xml_data : pyval) : M validator bool :=
  purchase_date <- lift (py_get xml_data "purchase_date" PNone) ;;
  if truthy purchase_date then
    try_except
      (purchase_dt <- lift (py_strptime purchase_date) ;;
       if now_rules W <? purchase_dt then
         errors_append [Lit "Purchase date cannot be in the future"] ;;;
         ret false
       else ret true)
      is_ValueError
      (fun _ =>
         errors_append [Lit "Invalid date format. Expected YYYY-MM-DD"] ;;;
         ret false)
  else ret true.

(** Rule 3: total amount validation. *)
Definition rule_total_amount (xml_data : pyval) : M validator bool :=
  t <- lift (py_get xml_data "total_amount" (PInt 0)) ;;
  total_amount <- lift (py_float B t) ;;
  items_pricing <- lift (py_get xml_data "pricing" (PDict [])) ;;
  has_grand_total <- lift (py_contains "grand_total" items_pricing) ;;
  if has_grand_total then
    g <- lift (py_getitem items_pricing "grand_total") ;;
    calculated_total <- lift (py_float B g) ;;
    if PrimFloat.ltb 0.01%float (PrimFloat.abs (total_amount - calculated_total)%float) then
      errors_append [Lit "Total amount mismatch. Header: "; Fmt (PFloat total_amount);
                     Lit ", Pricing: "; Fmt (PFloat calculated_total)] ;;;
      ret false
    else ret true
  else ret true.

(** Rule 4, first check. *)
Definition check_quantity (i : Z) (quantity : Z) : M validator bool :=
  if quantity <=? 0 then
    errors_append [Lit "Item "; Fmt (PInt (i + 1));
                   Lit ": Quantity must be positive. Found: "; Fmt (PInt quantity)] ;;;
    ret false
  else ret true.

(** Rule 4, second check. *)
Definition check_unit_price (i : Z) (unit_price : float) : M validator bool :=
  if PrimFloat.ltb unit_price 0%float then
    errors_append [Lit "Item "; Fmt (PInt (i + 1));
                   Lit ": Unit price cannot be negative. Found: "; Fmt (PFloat unit_price)] ;;;
    ret false
  else ret true.

(** Rule 4, third check: the subtotal calculation. *)
Definition check_subtotal (i : Z) (quantity : Z) (unit_price subtotal : float)
  : M validator bool :=
  expected_subtotal <- lift (py_mul (PInt quantity) (PFloat unit_price)) ;;
  difference <- lift (py_sub (PFloat subtotal) expected_subtotal) ;;
  magnitude <- lift (py_abs difference) ;;
  bad <- lift (py_gt magnitude (NFloat 0.01%float)) ;;
  if (bad : bool) then
    errors_append [Lit "Item "; Fmt (PInt (i + 1));
                   Lit ": Subtotal calculation error. Expected: "; Fmt expected_subtotal;
                   Lit ", Found: "; Fmt (PFloat subtotal)] ;;;
    ret false
  else ret true.

(** The body of the loop of rule 4. *)
Definition check_item (i : Z) (item : pyval) : M validator bool :=
  q <- lift (py_get item "quantity" (PInt 0)) ;;
  quantity <- lift (py_int B q) ;;
  u <- lift (py_get item "unit_price" (PInt 0)) ;;
  unit_price <- lift (py_float B u) ;;
  s <- lift (py_get item "subtotal" (PInt 0)) ;;
  subtotal <- lift (py_float B s) ;;
  ok1 <- check_quantity i quantity ;;
  ok2 <- check_unit_price i unit_price ;;
  ok3 <- check_subtotal i quantity unit_price subtotal ;;
  ret (ok1 && ok2 && ok3).

(** [for i, item in enumerate(items)], counting from [i]. *)
Fixpoint check_items (i : Z) (items : list pyval) : M validator bool :=
  match items with
  | [] => ret true
  | item :: rest =>
      ok <- check_item i item ;;
      ok' <- check_items (i + 1) rest ;;
      ret (ok && ok')
  end.

Definition rule_items (xml_data : pyval) : M validator bool :=
  items <- lift (get_items xml_data) ;;
  elements <- lift (py_iter items) ;;
  check_items 0 elements.

(** Rule 5: customer information validation. *)
Definition rule_loyalty (xml_data : pyval) : M validator unit :=
  customer <- lift (py_get xml_data "customer" (PDict [])) ;;
  loyalty_member <- lift (py_get customer "loyalty_member" PNone) ;;
  if truthy loyalty_member then
    member_since <- lift (py_get customer "member_since" PNone) ;;
    if negb (truthy member_since) then
      warnings_append [Lit "Loyalty member should have member_since date"]
    else ret tt
  else ret tt.

Definition is_credit_card (v : pyval) : bool :=
  match v with
  | PStr s => String.eqb s "Credit Card"
  | _ => false
  end.

(** Rule 6: payment method validation. *)
Definition rule_payment (xml_data : pyval) : M validator bool :=
  payment_method <- lift (py_get xml_data "payment_method" PNone) ;;
  payment <- lift (py_get xml_data "payment" (PDict [])) ;;
  if is_credit_card payment_method then
    card_type <- lift (py_get payment "card_type" PNone) ;;
    missing <- lift (if negb (truthy card_type) then Ok true
                     else let? last_four := py_get payment "card_number_last_four" PNone in
                          Ok (negb (truthy last_four))) ;;
    if (missing : bool) then
      errors_append [Lit "Credit Card payment requires card_type and card_number_last_four"] ;;;
      ret false
    else ret true
  else ret true.

(** Rule 7: digital signature validation. *)
Definition rule_signature (xml_data : pyval) : M validator bool :=
  digital_sig <- lift (py_get xml_data "digital_signature" (PDict [])) ;;
  algorithm <- lift (py_get digital_sig "algorithm" PNone) ;;
  missing <- lift (if negb (truthy algorithm) then Ok true
                   else let? signature := py_get digital_sig "signature" PNone in
                        Ok (negb (truthy signature))) ;;
  if (missing : bool) then
    errors_append [Lit "Digital signature must include algorithm and signature"] ;;;
    ret false
  else ret true.

Definition validate_business_rules (xml_data : pyval) : M validator bool :=
  ok1 <- rule_item_count xml_data ;;
  ok2 <- rule_purchase_date xml_data ;;
  ok3 <- rule_total_amount xml_data ;;
  ok4 <- rule_items xml_data ;;
  rule_loyalty xml_data ;;;
  ok6 <- rule_payment xml_data ;;
  ok7 <- rule_signature xml_data ;;
  ret (ok1 && ok2 && ok3 && ok4 && ok6 && ok7).

(** [validate_xml_content]: parse with the parser at hand, convert, run the
    rules; the outer [except Exception] turns whatever was raised into one
    more error. *)
Definition validate_xml_content : M validator bool :=
  match parse_file W with
  | Parsed root =>
      try_except
        (validate_business_rules (xml_to_dict root))
        (fun _ => true)
        (fun e =>
           errors_append [Lit "XML content validation failed: "; FmtExn e] ;;;
           ret false)
  | ParseError text =>
      if LXML_AVAILABLE W then
        errors_append [Lit "XML content validation failed: "; Fmt (PStr text)] ;;;
        ret false
      else
        errors_append [Lit "XML parsing error: "; Fmt (PStr text)] ;;;
        ret false
  | OtherError text =>
      errors_append [Lit "XML content validation failed: "; Fmt (PStr text)] ;;;
      ret false
  end.

(** The dict [generate_report] returns; ['errors'] and ['warnings'] are the
    list objects of the validator, recorded here as they are on return. *)
Record report : Type := {
  file : string;
  timestamp : Z;
  schema_valid : option bool;
  content_valid : bool;
  report_errors : list message;
  report_warnings : list message;
  overall_valid : bool
}.

Definition get_self : M validator validator :=
  fun self => (Ok self, self).

Definition generate_report : M validator report :=
  schema_valid <- (if LXML_AVAILABLE W then v <- validate_schema ;; ret (Some v)
                   else ret None) ;;
  content_valid <- validate_xml_content ;;
  self <- get_self ;;
  ret {| file := xml_file self;
         timestamp := now_report W;
         schema_valid := schema_valid;
         content_valid := content_valid;
         report_errors := errors self;
         report_warnings := warnings self;
         overall_valid := Nat.eqb (List.length (errors self)) 0 |}.

(** [print_report] prints the entries of the report and returns
    ['overall_valid']. *)
Definition print_report : M validator bool :=
  report <- generate_report ;;
  ret (overall_valid report).

End Methods.

(** The truth value of an optional string argument. *)
Definition given (o : option string) : bool :=
  match o with
  | Some s => negb (String.eqb s "")
  | None => false
  end.

(** [main]: one validator object; [print_report] runs [generate_report] on
    it, and [--json-report] runs [generate_report] on it again and saves that
    second report.  The result is the exit status and the saved report. *)
Definition main (B : builtins) (W1 W2 : world) (xml_file xsd : string)
  (json_report : option string) : result (bool * option report) :=
  let validator := __init__ xml_file xsd in
  match print_report B W1 validator with
  | (Raise e, _) => Raise e
  | (Ok is_valid, validator') =>
      if given json_report then
        match generate_report B W2 validator' with
        | (Raise e, _) => Raise e
        | (Ok report, _) => Ok (is_valid, Some report)
        end
      else Ok (is_valid, None)
  end.

End XMLReceiptValidator.

(** ** A concrete runtime and concrete receipts, for the examples

    The parsers below cover a plain subset of what CPython accepts: decimal
    literals [[+-]digits[.digits]] for [float] (correctly rounded, ties to
    even), [[+-]digits] for [int], [YYYY-MM-DD] for [strptime], and
    [YYYY-MM-DD[THH:MM:SS[+HH:MM]]] for [fromisoformat]; surrounding
    whitespace is ignored by [float] and [int] only.  They are used at
    inputs of that shape. *)

Module Sample.

Definition digit (c : ascii) : option Z :=
  let n := Z.of_nat (nat_of_ascii c) in
  if (48 <=? n) && (n <=? 57) then Some (n - 48) else None.

Fixpoint digits_value (acc : Z) (s : string) : option Z :=
  match s with
  | EmptyString => Some acc
  | String c s' =>
      match digit c with
      | Some d => digits_value (10 * acc + d) s'
      | None => None
      end
  end.

Definition number (s : string) : option Z :=
  if String.eqb s "" then None else digits_value 0 s.

(** Sign and remainder of a literal. *)
Definition split_sign (s : string) : bool * string :=
  match s with
  | String "-"%char s' => (true, s')
  | String "+"%char s' => (false, s')
  | _ => (false, s)
  end.

Definition simple_int (s : string) : option Z :=
  let (negative, body) := split_sign (str_strip s) in
  match number body with
  | Some n => Some (if negative then - n else n)
  | None => None
  end.

(** The binary64 number nearest to [p / q] for [0 <= p] and [0 < q]: the
    quotient is taken with at least 55 bits and a sticky bit, then rounded
    once. *)
Definition round_ratio (negative : bool) (p q : Z) : float :=
  if p =? 0 then (if negative then (-0)%float else 0%float)
  else
    let s := Z.max 0 (56 + Z.log2 q - Z.log2 p) in
    let (n, r) := Z.div_eucl (p * 2 ^ s) q in
    let m := 2 * n + (if r =? 0 then 0 else 1) in
    SF2Prim (binary_normalize prec emax (if negative then - m else m) (- (s + 1)) false).

Fixpoint split_at_dot (s : string) : string * option string :=
  match s with
  | EmptyString => (EmptyString, None)
  | String c s' =>
      if Ascii.eqb c "."%char then (EmptyString, Some s')
      else let (a, b) := split_at_dot s' in (String c a, b)
  end.

Definition simple_float (s : string) : option float :=
  let (negative, body) := split_sign (str_strip s) in
  let (whole, fraction) := split_at_dot body in
  let fraction := match fraction with Some f => f | None => EmptyString end in
  match number (whole ++ fraction) with
  | Some m => Some (round_ratio negative m (10 ^ Z.of_nat (String.length fraction)))
  | None => None
  end.

Definition is_leap (y : Z) : bool :=
  ((y mod 4 =? 0) && negb (y mod 100 =? 0)) || (y mod 400 =? 0).

Definition days_in_month (y m : Z) : Z :=
  if m =? 2 then (if is_leap y then 29 else 28)
  else if (m =? 4) || (m =? 6) || (m =? 9) || (m =? 11) then 30 else 31.

(** Days since 1970-01-01 in the proleptic Gregorian calendar. *)
Definition days_from_civil (y m d : Z) : Z :=
  let y' := if m <=? 2 then y - 1 else y in
  let era := y' / 400 in
  let yoe := y' - era * 400 in
  let doy := (153 * (if 2 <? m then m - 3 else m + 9) + 2) / 5 + d - 1 in
  let doe := yoe * 365 + yoe / 4 - yoe / 100 + doy in
  era * 146097 + doe - 719468.

Definition field (s : string) (start len : nat) : option Z :=
  number (String.substring start len s).

Definition char_at (s : string) (n : nat) : string := String.substring n 1 s.

Definition simple_date (s : string) : option Z :=
  match field s 0 4, field s 5 2, field s 8 2 with
  | Some y, Some m, Some d =>
      if String.eqb (char_at s 4) "-" && String.eqb (char_at s 7) "-"
         && (1 <=? y) && (1 <=? m) && (m <=? 12) && (1 <=? d) && (d <=? days_in_month y m)
      then Some (days_from_civil y m d * 86400)
      else None
  | _, _, _ => None
  end.

Definition simple_time (s : string) : option Z :=
  match field s 0 2, field s 3 2, field s 6 2 with
  | Some h, Some mi, Some se =>
      if String.eqb (char_at s 2) ":" && String.eqb (char_at s 5) ":"
         && (h <=? 23) && (mi <=? 59) && (se <=? 59)
      then Some (h * 3600 + mi * 60 + se)
      else None
  | _, _, _ => None
  end.

Definition simple_offset (s : string) : bool :=
  match field s 1 2, field s 4 2 with
  | Some h, Some mi =>
      (String.eqb (char_at s 0) "+" || String.eqb (char_at s 0) "-")
      && String.eqb (char_at s 3) ":" && (h <=? 23) && (mi <=? 59)
      && (String.length s =? 6)%nat
  | _, _ => false
  end.

Definition simple_strptime (s : string) : option Z :=
  if (String.length s =? 10)%nat then simple_date s else None.

Definition simple_fromisoformat (s : string) : option Z :=
  let n := String.length s in
  if (n =? 10)%nat then simple_date s
  else if ((n =? 19) || (n =? 25))%nat && String.eqb (char_at s 10) "T" then
    match simple_date (String.substring 0 10 s), simple_time (String.substring 11 8 s) with
    | Some d, Some t =>
        if (n =? 19)%nat || simple_offset (String.substring 19 6 s) then Some (d + t)
        else None
    | _, _ => None
    end
  else None.

Definition runtime : builtins :=
  {| float_of_str := simple_float;
     int_of_str := simple_int;
     fromisoformat := simple_fromisoformat;
     strptime_ymd := simple_strptime |}.

(** A receipt that passes every check of the JSON validator. *)
Definition item (name : string) (quantity : Z) (unit_price subtotal : float)
  (tax_applied : bool) : pyval :=
  PDict [("name", PStr name); ("quantity", PInt quantity);
         ("unit_price", PFloat unit_price); ("subtotal", PFloat subtotal);
         ("tax_applied", PBool tax_applied)].

Definition five_items : list pyval :=
  [item "Milk" 2 1.5 3 true; item "Bread" 1 2.25 2.25 false;
   item "Eggs" 1 3 3 false; item "Tea" 3 2 6 true; item "Rice" 1 4.75 4.75 false].

Definition receipt : pyval :=
  PDict [("receipt_id", PStr "RCPT_0001");
         ("purchase_date", PStr "2024-01-15");
         ("store_name", PStr "Corner Shop");
         ("customer", PDict [("name", PStr "Amina"); ("email", PStr "amina@example.com");
                             ("loyalty_member", PBool true);
                             ("member_since", PStr "2020-05-01")]);
         ("store", PDict [("city", PStr "Nairobi")]);
         ("items", PList five_items);
         ("payment", PDict [("card_type", PStr "Visa");
                            ("card_number_last_four", PStr "1234")]);
         ("payment_method", PStr "Credit Card");
         ("transaction", PDict [("id", PStr "T-1")]);
         ("footer", PDict [("note", PStr "Thank you")]);
         ("total_amount", PFloat 19);
         ("pricing", PDict [("subtotal", PFloat 19); ("grand_total", PFloat 19)]);
         ("digital_signature", PDict [("algorithm", PStr "SHA256");
                                      ("signature", PStr "abc123")])].

(** [doc] with the entry [k] set to [v]. *)
Definition with_field (k : string) (v : pyval) (doc : pyval) : pyval :=
  match doc with
  | PDict d => PDict (dict_set k v d)
  | _ => doc
  end.

(** 2026-11-03, midnight. *)
Definition today : Z := days_from_civil 2026 11 3 * 86400.

(** A run that loads [doc]; the schema library is there or not, and the
    schema check ends as [outcome]. *)
Definition json_world (jsonschema : bool) (outcome : JSONReceiptValidator.schema_outcome)
  (doc : pyval) : JSONReceiptValidator.world :=
  {| JSONReceiptValidator.JSONSCHEMA_AVAILABLE := jsonschema;
     JSONReceiptValidator.file_content := JSONReceiptValidator.Loaded doc;
     JSONReceiptValidator.schema_check := fun _ => outcome;
     JSONReceiptValidator.now_rules := today;
     JSONReceiptValidator.now_report := today |}.

(** The same receipt as a tree. *)
Definition leaf (tag text : string) : XMLReceiptValidator.element :=
  XMLReceiptValidator.Element tag [] (Some text) [].

Definition node (tag : string) (children : list XMLReceiptValidator.element)
  : XMLReceiptValidator.element :=
  XMLReceiptValidator.Element tag [] None children.

Definition xml_item (name quantity unit_price subtotal tax_applied : string)
  : XMLReceiptValidator.element :=
  node "item" [leaf "name" name; leaf "quantity" quantity;
               leaf "unit_price" unit_price; leaf "subtotal" subtotal;
               leaf "tax_applied" tax_applied].

Definition five_xml_items : list XMLReceiptValidator.element :=
  [xml_item "Milk" "2" "1.50" "3.00" "true"; xml_item "Bread" "1" "2.25" "2.25" "false";
   xml_item "Eggs" "1" "3.00" "3.00" "false"; xml_item "Tea" "3" "2.00" "6.00" "true";
   xml_item "Rice" "1" "4.75" "4.75" "false"].

(** The children of the root before and after the [items] node. *)
Definition xml_header (email : string) : list XMLReceiptValidator.element :=
  [leaf "receipt_id" "RCPT_0001";
   leaf "purchase_date" "2024-01-15";
   leaf "store_name" "Corner Shop";
   node "customer" [leaf "name" "Amina"; leaf "email" email;
                    leaf "loyalty_member" "true"; leaf "member_since" "2020-05-01"];
   node "store" [leaf "city" "Nairobi"]].

Definition xml_footer (payment : list XMLReceiptValidator.element)
  (total grand_total : string) : list XMLReceiptValidator.element :=
  [node "payment" payment;
   leaf "payment_method" "Credit Card";
   node "transaction" [leaf "id" "T-1"];
   node "footer" [leaf "note" "Thank you"];
   leaf "total_amount" total;
   node "pricing" [leaf "subtotal" "19.00"; leaf "grand_total" grand_total];
   node "digital_signature" [leaf "algorithm" "SHA256"; leaf "signature" "abc123"]].

Definition xml_receipt_of (email : string) (items : list XMLReceiptValidator.element)
  (payment : list XMLReceiptValidator.element) (total grand_total : string)
  : XMLReceiptValidator.element :=
  XMLReceiptValidator.Element "receipt" [] (Some "  ")
    (xml_header email ++ node "items" items :: xml_footer payment total grand_total).

Definition xml_receipt := xml_receipt_of "amina@example.com".

Definition card : list XMLReceiptValidator.element :=
  [leaf "card_type" "Visa"; leaf "card_number_last_four" "1234"].

(** A run on the tree [root] without [lxml] (the schema check is skipped). *)
Definition xml_world (root : XMLReceiptValidator.element) : XMLReceiptValidator.world :=
  {| XMLReceiptValidator.LXML_AVAILABLE := false;
     XMLReceiptValidator.parse_file := XMLReceiptValidator.Parsed root;
     XMLReceiptValidator.xsd_check := XMLReceiptValidator.XsdValid;
     XMLReceiptValidator.now_rules := today;
     XMLReceiptValidator.now_report := today |}.

End Sample.


(** ** The vocabulary of the statements *)

Module J := JSONReceiptValidator.
Module X := XMLReceiptValidator.

#[local] Open Scope list_scope.

(** Every run of the method [m] relates the object before to the object
    after by [R]. *)
Definition keeps {S A : Type} (R : S -> S -> Prop) (m : M S A) : Prop :=
  forall s r s', m s = (r, s') -> R s s'.

(** The lists of [s'] extend those of [s]; the loaded document and the
    arguments of the constructor are the same. *)
Definition J_grows (s s' : J.validator) : Prop :=
  (exists es, J.errors s' = J.errors s ++ es) /\
  (exists ws, J.warnings s' = J.warnings s ++ ws) /\
  J.json_data s' = J.json_data s /\
  J.json_file s' = J.json_file s /\
  J.schema_file s' = J.schema_file s.

(** The same for the XML validator object. *)
Definition X_grows (s s' : X.validator) : Prop :=
  (exists es, X.errors s' = X.errors s ++ es) /\
  (exists ws, X.warnings s' = X.warnings s ++ ws) /\
  X.xml_file s' = X.xml_file s /\
  X.xsd_file s' = X.xsd_file s.

(** The message of the rule. *)
Definition total_mismatch (total_amount calculated_total : float) : message :=
  [Lit "Total amount mismatch. Header: "; Fmt (PFloat total_amount);
   Lit ", Pricing: "; Fmt (PFloat calculated_total)].

(** [abs(total_amount - calculated_total) > 0.01] on binary64 numbers. *)
Definition exceeds_tolerance (total_amount calculated_total : float) : bool :=
  PrimFloat.ltb 0.01%float (PrimFloat.abs (total_amount - calculated_total)%float).

(** The message of the subtotal check for the item numbered [n] (from 1). *)
Definition subtotal_error (n : Z) (expected_subtotal subtotal : pyval) : message :=
  [Lit "Item "; Fmt (PInt n); Lit ": Subtotal calculation error. Expected: ";
   Fmt expected_subtotal; Lit ", Found: "; Fmt subtotal].

(** Recognises the subtotal message of item [n]. *)
Definition is_subtotal_error (n : Z) (m : message) : bool :=
  match m with
  | [Lit a; Fmt (PInt k); Lit b; Fmt _; Lit c; Fmt _] =>
      String.eqb a "Item " && (k =? n)
      && String.eqb b ": Subtotal calculation error. Expected: "
      && String.eqb c ", Found: "
  | _ => false
  end.

(** The item number a message of rule 4 starts with. *)
Definition item_number (m : message) : option Z :=
  match m with
  | Lit _ :: Fmt (PInt k) :: _ => Some k
  | _ => None
  end.

(** [abs(subtotal - expected_subtotal)]. *)
Definition gap (subtotal expected_subtotal : pyval) : result pyval :=
  let? difference := py_sub subtotal expected_subtotal in py_abs difference.

(** What is known of the messages the JSON loop body appends for [item],
    the [i]-th of the loop (from 0). *)
Definition J_item_outcome (i : Z) (item : pyval) (new : list message) : Prop :=
  exists quantity unit_price subtotal expected magnitude b,
    py_get item "quantity" (PInt 0) = Ok quantity /\
    py_get item "unit_price" (PInt 0) = Ok unit_price /\
    py_get item "subtotal" (PInt 0) = Ok subtotal /\
    py_mul quantity unit_price = Ok expected /\
    gap subtotal expected = Ok magnitude /\
    py_gt magnitude (NFloat 0.01%float) = Ok b /\
    filter (is_subtotal_error (i + 1)) new
    = if b then [subtotal_error (i + 1) expected subtotal] else [].

(** The same for the XML loop body, which converts the three fields first. *)
Definition X_item_outcome (B : builtins) (i : Z) (item : pyval) (new : list message)
  : Prop :=
  exists q u s quantity unit_price subtotal expected magnitude b,
    py_get item "quantity" (PInt 0) = Ok q /\ py_int B q = Ok quantity /\
    py_get item "unit_price" (PInt 0) = Ok u /\ py_float B u = Ok unit_price /\
    py_get item "subtotal" (PInt 0) = Ok s /\ py_float B s = Ok subtotal /\
    py_mul (PInt quantity) (PFloat unit_price) = Ok expected /\
    gap (PFloat subtotal) expected = Ok magnitude /\
    py_gt magnitude (NFloat 0.01%float) = Ok b /\
    filter (is_subtotal_error (i + 1)) new
    = if b then [subtotal_error (i + 1) expected (PFloat subtotal)] else [].

(** The dict after the child loop of [xml_to_dict], entered with [base]. *)
Definition children_dict (base : dict) (children : list X.element) : dict :=
  fold_left (fun r child => X.add_child r (X.tag child) (X.xml_to_dict child))
    children base.

(** The object [self] with [es] appended to its error list. *)
Definition J_with_errors (self : J.validator) (es : list message) : J.validator :=
  {| J.json_file := J.json_file self;
     J.schema_file := J.schema_file self;
     J.errors := J.errors self ++ es;
     J.warnings := J.warnings self;
     J.json_data := J.json_data self |}.

Definition X_with_errors (self : X.validator) (es : list message) : X.validator :=
  {| X.xml_file := X.xml_file self;
     X.xsd_file := X.xsd_file self;
     X.errors := X.errors self ++ es;
     X.warnings := X.warnings self |}.

Definition card_fields_error : message :=
  [Lit "Credit Card payment requires card_type and card_number_last_four"].

Definition card_digits_error (card_number : pyval) : message :=
  [Lit "Card number last four must be 4 digits. Found: "; Fmt card_number].

(** A string of exactly four characters that [str.isdigit] accepts. *)
Definition four_digits (s : string) : bool :=
  str_isdigit s && (Z.of_nat (String.length s) =? 4).

(** The two validator objects hold the same findings. *)
Definition same_findings (sj : J.validator) (sx : X.validator) : Prop :=
  J.errors sj = X.errors sx /\ J.warnings sj = X.warnings sx.

(** Whether a block returned or raised, and what it raised. *)
Definition outcome {A : Type} (r : result A) : result unit :=
  match r with
  | Ok _ => Ok tt
  | Raise e => Raise e
  end.

(** The number of findings the object holds. *)
Definition J_findings (s : J.validator) : nat :=
  List.length (J.errors s) + List.length (J.warnings s).

(** ** Verdicts and error lists

    A check answers with a flag and may append to the error list of the
    object; [errs] reads that list off the object. *)

(** Between [s] and [s'] some errors were appended, none exactly when the
    flag [ok] is set. *)
Definition flagged {S : Type} (errs : S -> list message) (s : S) (ok : bool) (s' : S)
  : Prop :=
  exists es, errs s' = errs s ++ es /\ (ok = true <-> es = []).

(** Every run of [m] that returns a flag is [flagged]. *)
Definition flags {S : Type} (errs : S -> list message) (m : M S bool) : Prop :=
  forall s ok s', m s = (Ok ok, s') -> flagged errs s ok s'.

(** No run of [m] that returns touches the error list. *)
Definition quiet {S A : Type} (errs : S -> list message) (m : M S A) : Prop :=
  forall s a s', m s = (Ok a, s') -> errs s' = errs s.

(** The error list of [s'] extends that of [s]. *)
Definition extends {S : Type} (errs : S -> list message) (s s' : S) : Prop :=
  exists es, errs s' = errs s ++ es.

(** The three verdicts a full report of the JSON validator records. *)
Definition J_business_rules_valid (r : J.report) : bool :=
  match r with
  | J.FullReport _ _ _ v _ _ _ _ _ => v
  | J.ShortReport _ _ _ _ _ => false
  end.

Definition J_data_types_valid (r : J.report) : bool :=
  match r with
  | J.FullReport _ _ _ _ v _ _ _ _ => v
  | J.ShortReport _ _ _ _ _ => false
  end.

(** ['schema_validation']['valid'] is [True] or [None] (not requested). *)
Definition J_schema_not_failed (r : J.report) : bool :=
  match r with
  | J.FullReport _ _ sv _ _ _ _ _ _ =>
      match J.valid sv with
      | Some v => v
      | None => true
      end
  | J.ShortReport _ _ _ _ _ => false
  end.

(** The schema check of the XML validator leaves the error list alone: it
    is skipped, or the document validates, or it does not and
    [schema.error_log] is empty. *)
Definition X_schema_silent (W : X.world) : bool :=
  if X.LXML_AVAILABLE W then
    match X.xsd_check W with
    | X.XsdValid => true
    | X.XsdInvalid error_log => Nat.eqb (List.length error_log) 0
    | X.XsdException _ => false
    end
  else true.

(** The ['schema_valid'] entry a run in [W] records. *)
Definition X_schema_verdict (W : X.world) : option bool :=
  if X.LXML_AVAILABLE W then
    match X.xsd_check W with
    | X.XsdValid => Some true
    | _ => Some false
    end
  else None.

(** The number of findings the XML validator object holds. *)
Definition X_findings (s : X.validator) : nat :=
  List.length (X.errors s) + List.length (X.warnings s).

(** The ['calculated_totals'] entry of a full report. *)
Definition J_calculated_totals (r : J.report) : option J.totals :=
  match r with
  | J.FullReport _ _ _ _ _ totals _ _ _ => Some totals
  | J.ShortReport _ _ _ _ _ => None
  end.

(** What the schema check says of an empty document, when it is asked. *)
Definition J_schema_errors_when_empty (W : J.world) (self : J.validator)
  : list message :=
  if J.given (J.schema_file self) then
    if J.JSONSCHEMA_AVAILABLE W
    then [[Lit "No JSON data loaded for schema validation"]]
    else [[Lit "JSON Schema validation requires jsonschema library"]]
  else [].

(** Rule 9 on one price that is a number: [price < 0], and
    [price > 100000] on the [elif] branch. *)
Definition is_negative_price (price : pyval) : bool :=
  match py_lt price (NInt 0) with
  | Ok b => b
  | Raise _ => false
  end.

Definition is_high_price (price : pyval) : bool :=
  negb (is_negative_price price)
  && match py_gt price (NInt 100000) with
     | Ok b => b
     | Raise _ => false
     end.

Definition negative_price_error (price : pyval) : message :=
  [Lit "Price cannot be negative: "; Fmt price].

Definition high_price_warning (price : pyval) : message :=
  [Lit "Unusually high price: "; Fmt price].

Definition missing_field_error (field : string) : message :=
  [Lit "Required field missing: "; Fmt (PStr field)].

(** ** The shape of a converted tree *)

(** What [xml_to_dict] builds: a string, or a dict whose every entry is
    such a value or a list of two or more of them. *)
Fixpoint is_normalized (v : pyval) : bool :=
  match v with
  | PStr _ => true
  | PDict d =>
      forallb (fun kv =>
                 match snd kv with
                 | PList l => (2 <=? List.length l)%nat && forallb is_normalized l
                 | _ => is_normalized (snd kv)
                 end) d
  | _ => false
  end.

Definition is_normalized_entry (v : pyval) : bool :=
  match v with
  | PList l => (2 <=? List.length l)%nat && forallb is_normalized l
  | _ => is_normalized v
  end.

(** The entry a dict holds for a tag after the conversions [cs] of the
    children with that tag were added, in this order. *)
Definition entry_of (cs : list pyval) : option pyval :=
  match cs with
  | [] => None
  | [c] => Some c
  | _ => Some (PList cs)
  end.

(** The children of an element that carry the tag [k]. *)
Definition children_tagged (k : string) (children : list X.element) : list X.element :=
  filter (fun c => String.eqb k (X.tag c)) children.

(** [item.get('tax_applied', False)] is true. *)
Definition is_taxed (item : pyval) : bool :=
  match py_get item "tax_applied" (PBool false) with
  | Ok v => truthy v
  | Raise _ => false
  end.

(** The schema check of the JSON validator passes: the library is there,
    the loaded document is not empty, and [validate] returns. *)
Definition J_schema_passes (W : J.world) (data : pyval) : bool :=
  J.JSONSCHEMA_AVAILABLE W && truthy data
  && match J.schema_check W data with
     | J.SchemaValid => true
     | _ => false
     end.

(** What [validate_data_types] has to say of the three fields it reads:
    a warning for a receipt id that is not a string starting with [RCPT_],
    an error for a total that is there and is no number, an error for a
    date string that [datetime.fromisoformat] rejects. *)
Definition receipt_id_warnings (receipt_id : pyval) : list message :=
  let warning := [Lit "Receipt ID format may be incorrect: "; Fmt receipt_id] in
  match receipt_id with
  | PStr s => if String.prefix "RCPT_" s then [] else [warning]
  | _ => [warning]
  end.

Definition numeric_errors (total : pyval) : list message :=
  match total with
  | PNone => []
  | _ =>
      if is_number total then []
      else [[Lit "Field 'total_amount' must be numeric. Found: "; FmtType total]]
  end.

Definition date_errors (B : builtins) (date : pyval) : list message :=
  match date with
  | PStr d =>
      match fromisoformat B (str_replace "Z" "+00:00" d) with
      | Some _ => []
      | None => [[Lit "Field 'purchase_date' must be valid ISO date. Found: "; Fmt date]]
      end
  | _ => []
  end.

(** * Properties *)

(** ** Binary64 facts *)

Section FloatFacts.

Lemma SFcompare_antisym (x y : spec_float) :
  SFcompare y x = option_map CompOpp (SFcompare x y).
Proof.
  destruct x as [sx | sx | | sx mx ex], y as [sy | sy | | sy my ey];
    try reflexivity;
    try (destruct sx; reflexivity);
    try (destruct sy; reflexivity);
    try (destruct sx, sy; reflexivity).
  simpl. f_equal.
  rewrite (Z.compare_antisym ex ey).
  change (Pos.compare_cont Eq my mx) with (Pos.compare my mx).
  change (Pos.compare_cont Eq mx my) with (Pos.compare mx my).
  rewrite (Pos.compare_antisym mx my).
  destruct sx, sy; try reflexivity;
    destruct (ex ?= ey); simpl; try reflexivity.
Qed.

(** [x <= y] excludes [y < x]. *)
Lemma leb_not_gtb (x y : float) :
  PrimFloat.leb x y = true -> PrimFloat.ltb y x = false.
Proof.
  rewrite leb_spec, ltb_spec. unfold SFleb, SFltb.
  rewrite (SFcompare_antisym (Prim2SF x) (Prim2SF y)).
  destruct (SFcompare (Prim2SF x) (Prim2SF y)) as [[ | | ] | ]; simpl; congruence.
Qed.

(** Subtracting from zero keeps the magnitude. *)
Lemma abs_zero_sub (g : float) :
  PrimFloat.abs (0 - g) = PrimFloat.abs g.
Proof.
  apply Prim2SF_inj. rewrite !abs_spec, sub_spec.
  replace (Prim2SF 0) with (S754_zero false) by reflexivity.
  destruct (Prim2SF g) as [s | s | | s m e]; try reflexivity;
    destruct s; reflexivity.
Qed.

End FloatFacts.

(** [v <= c] excludes [v > c], for every number [v] and float literal [c]. *)
Lemma py_le_not_gt (v : pyval) (c : float) :
  py_le v (NFloat c) = Ok true -> py_gt v (NFloat c) = Ok false.
Proof.
  unfold py_le, py_gt. destruct (as_num v) as [[z | f] | ]; simpl; try discriminate.
  - destruct (compare_int_float z c) as [[ | | ] | ]; congruence.
  - intros H. injection H as H. now rewrite (leb_not_gtb _ _ H).
Qed.

(** ** The method monad *)

Section Monad.

Context {S : Type}.

Lemma bind_Ok {A B : Type} (m : M S A) (k : A -> M S B) s b s' :
  bind m k s = (Ok b, s') ->
  exists a s1, m s = (Ok a, s1) /\ k a s1 = (Ok b, s').
Proof.
  unfold bind. destruct (m s) as [[a | e] s1]; intros H.
  - now exists a, s1.
  - discriminate.
Qed.

(** A relation between the object before and after a method, kept by every
    step. *)
Variable R : S -> S -> Prop.
Hypothesis R_refl : forall s, R s s.
Hypothesis R_trans : forall s1 s2 s3, R s1 s2 -> R s2 s3 -> R s1 s3.

Lemma keeps_ret {A : Type} (a : A) : keeps R (ret a).
Proof. intros s r s' H. injection H as _ <-. apply R_refl. Qed.

Lemma keeps_lift {A : Type} (r : result A) : keeps R (lift r).
Proof. intros s r' s' H. injection H as _ <-. apply R_refl. Qed.

Lemma keeps_bind {A B : Type} (m : M S A) (k : A -> M S B) :
  keeps R m -> (forall a, keeps R (k a)) -> keeps R (bind m k).
Proof.
  intros Hm Hk s r s'. unfold bind.
  destruct (m s) as [[a | e] s1] eqn:E; intros H.
  - eapply R_trans; [eapply Hm, E | eapply Hk, H].
  - injection H as _ <-. eapply Hm, E.
Qed.

Lemma keeps_try {A : Type} (body : M S A) catches (handler : exn -> M S A) :
  keeps R body -> (forall e, keeps R (handler e)) -> keeps R (try_except body catches handler).
Proof.
  intros Hb Hh s r s'. unfold try_except.
  destruct (body s) as [[a | e] s1] eqn:E; intros H.
  - injection H as _ <-. eapply Hb, E.
  - destruct (catches e).
    + eapply R_trans; [eapply Hb, E | eapply Hh, H].
    + injection H as _ <-. eapply Hb, E.
Qed.

End Monad.

Create HintDb keeps.

Ltac keeps_with refl trans :=
  repeat
    match goal with
    | |- keeps _ (bind _ _) => apply (keeps_bind _ trans); [ | intros ? ]
    | |- keeps _ (ret _) => apply (keeps_ret _ refl)
    | |- keeps _ (lift _) => apply (keeps_lift _ refl)
    | |- keeps _ (try_except _ _ _) => apply (keeps_try _ trans); [ | intros ? ]
    | |- keeps _ (if ?b then _ else _) => destruct b
    | |- keeps _ (match ?x with _ => _ end) => destruct x
    | |- keeps _ _ => solve [ auto with keeps ]
    end.

(** ** The JSON validator only ever appends to its two lists *)

Section JsonGrowth.

Variable B : builtins.
Variable W : J.world.

Lemma J_grows_refl s : J_grows s s.
Proof. repeat split; exists []; now rewrite app_nil_r. Qed.

Lemma J_grows_trans s1 s2 s3 : J_grows s1 s2 -> J_grows s2 s3 -> J_grows s1 s3.
Proof.
  intros ([e1 E1] & [w1 W1] & D1 & F1 & S1) ([e2 E2] & [w2 W2] & D2 & F2 & S2).
  repeat split; try congruence.
  - exists (e1 ++ e2). now rewrite E2, E1, app_assoc.
  - exists (w1 ++ w2). now rewrite W2, W1, app_assoc.
Qed.

Lemma J_keeps_errors_append m : keeps J_grows (J.errors_append m).
Proof.
  intros s r s' H. injection H as _ <-.
  repeat split; simpl; [now exists [m] | exists []; now rewrite app_nil_r].
Qed.

Lemma J_keeps_warnings_append m : keeps J_grows (J.warnings_append m).
Proof.
  intros s r s' H. injection H as _ <-.
  repeat split; simpl; [exists []; now rewrite app_nil_r | now exists [m]].
Qed.

Lemma J_keeps_get_json_data : keeps J_grows J.get_json_data.
Proof. intros s r s' H. injection H as _ <-. apply J_grows_refl. Qed.

Lemma J_keeps_get_self : keeps J_grows J.get_self.
Proof. intros s r s' H. injection H as _ <-. apply J_grows_refl. Qed.

#[local] Hint Resolve J_keeps_errors_append J_keeps_warnings_append
  J_keeps_get_json_data J_keeps_get_self : keeps.

Ltac jkeeps := keeps_with J_grows_refl J_grows_trans.

Lemma J_keeps_validate_schema : keeps J_grows (J.validate_schema W).
Proof. unfold J.validate_schema. jkeeps. Qed.

Lemma J_keeps_rule_item_count data : keeps J_grows (J.rule_item_count data).
Proof. unfold J.rule_item_count. jkeeps. Qed.

Lemma J_keeps_rule_purchase_date data : keeps J_grows (J.rule_purchase_date B W data).
Proof. unfold J.rule_purchase_date. jkeeps. Qed.

Lemma J_keeps_rule_total_amount data : keeps J_grows (J.rule_total_amount B data).
Proof. unfold J.rule_total_amount. jkeeps. Qed.

Lemma J_keeps_check_item i item : keeps J_grows (J.check_item i item).
Proof.
  unfold J.check_item, J.check_quantity, J.check_unit_price, J.check_subtotal. jkeeps.
Qed.

#[local] Hint Resolve J_keeps_check_item : keeps.

Lemma J_keeps_check_items items : forall i, keeps J_grows (J.check_items i items).
Proof. induction items as [ | item rest IH]; intros i; simpl; jkeeps. Qed.

#[local] Hint Resolve J_keeps_check_items : keeps.

Lemma J_keeps_rule_items items : keeps J_grows (J.rule_items items).
Proof. unfold J.rule_items. jkeeps. Qed.

Lemma J_keeps_rule_loyalty data : keeps J_grows (J.rule_loyalty data).
Proof. unfold J.rule_loyalty. jkeeps. Qed.

Lemma J_keeps_rule_email customer : keeps J_grows (J.rule_email customer).
Proof. unfold J.rule_email. jkeeps. Qed.

Lemma J_keeps_rule_payment data : keeps J_grows (J.rule_payment data).
Proof. unfold J.rule_payment, J.check_card_fields, J.check_card_number. jkeeps. Qed.

Lemma J_keeps_rule_signature data : keeps J_grows (J.rule_signature data).
Proof. unfold J.rule_signature. jkeeps. Qed.

Lemma J_keeps_check_prices prices : keeps J_grows (J.check_prices prices).
Proof. induction prices as [ | price rest IH]; simpl; jkeeps. Qed.

#[local] Hint Resolve J_keeps_check_prices : keeps.

Lemma J_keeps_rule_prices data items : keeps J_grows (J.rule_prices data items).
Proof. unfold J.rule_prices. jkeeps. Qed.

Lemma J_keeps_rule_required data fields : keeps J_grows (J.rule_required data fields).
Proof. induction fields as [ | field rest IH]; simpl; jkeeps. Qed.

#[local] Hint Resolve J_keeps_rule_item_count J_keeps_rule_purchase_date
  J_keeps_rule_total_amount J_keeps_rule_items J_keeps_rule_loyalty
  J_keeps_rule_email J_keeps_rule_payment J_keeps_rule_signature
  J_keeps_rule_prices J_keeps_rule_required J_keeps_validate_schema : keeps.

Lemma J_keeps_validate_business_rules : keeps J_grows (J.validate_business_rules B W).
Proof. unfold J.validate_business_rules. jkeeps. Qed.

Lemma J_keeps_validate_data_types : keeps J_grows (J.validate_data_types B).
Proof. unfold J.validate_data_types. jkeeps. Qed.

Lemma J_keeps_calculate_totals : keeps J_grows J.calculate_totals.
Proof. unfold J.calculate_totals. jkeeps. Qed.

End JsonGrowth.

#[local] Hint Resolve J_keeps_errors_append J_keeps_warnings_append
  J_keeps_get_json_data J_keeps_get_self J_keeps_check_item J_keeps_check_items
  J_keeps_check_prices J_keeps_rule_item_count J_keeps_rule_purchase_date
  J_keeps_rule_total_amount J_keeps_rule_items J_keeps_rule_loyalty
  J_keeps_rule_email J_keeps_rule_payment J_keeps_rule_signature
  J_keeps_rule_prices J_keeps_rule_required J_keeps_validate_schema
  J_keeps_validate_business_rules J_keeps_validate_data_types
  J_keeps_calculate_totals : keeps.

(** ** What [generate_report] of the JSON validator returns *)

Section JsonReport.

Variable B : builtins.
Variable W : J.world.

(** [validate_schema] answers [False] only after appending an error. *)
Lemma J_validate_schema_false s s' :
  J.validate_schema W s = (Ok false, s') ->
  exists m es, J.errors s' = J.errors s ++ m :: es.
Proof.
  unfold J.validate_schema.
  destruct (negb (J.JSONSCHEMA_AVAILABLE W)).
  - intros H. injection H as <-. simpl. eauto.
  - unfold bind at 1. simpl.
    destruct (negb (truthy (J.json_data s))).
    + intros H. injection H as <-. simpl. eauto.
    + destruct (J.schema_check W (J.json_data s)) as [ | emessage epath | text].
      * discriminate.
      * destruct epath; intros H; injection H as <-; simpl.
        -- eauto.
        -- rewrite <- app_assoc. simpl. eauto.
      * intros H. injection H as <-. simpl. eauto.
Qed.

Lemma J_grows_errors s1 s2 m es :
  J.errors s2 = J.errors s1 ++ m :: es -> forall s3, J_grows s2 s3 ->
  exists es', J.errors s3 = J.errors s1 ++ m :: es'.
Proof.
  intros E s3 ([es3 E3] & _). exists (es ++ es3).
  now rewrite E3, E, <- app_assoc.
Qed.

Lemma app_cons_length {A : Type} (l l' : list A) (a : A) :
  Nat.eqb (List.length (l ++ a :: l')) 0 = false.
Proof. rewrite length_app. simpl. apply Nat.eqb_neq. lia. Qed.

(** The stages of a run that returns a report for a file that loaded:
    [load_json], then the schema check when a schema file was given, then
    the three other methods, and the entries of the report read off the
    final object. *)
Lemma J_generate_report_stages self r self' data :
  J.file_content W = J.Loaded data ->
  J.generate_report B W self = (Ok r, self') ->
  exists s1 s2 s3 sv cv tv totals,
    J.load_json W self = (Ok true, s1) /\ J.json_data s1 = data /\
    J.errors s1 = J.errors self /\ J.warnings s1 = J.warnings self /\
    J.schema_file s1 = J.schema_file self /\
    (if J.given (J.schema_file self)
     then (exists v, J.validate_schema W s1 = (Ok v, s2) /\ sv = Some v)
     else (s2 = s1 /\ sv = None)) /\
    J.validate_business_rules B W s2 = (Ok cv, s3) /\
    J_grows s1 s2 /\ J_grows s3 self' /\
    r = J.FullReport (J.json_file self') (J.now_report W)
          {| J.available := J.JSONSCHEMA_AVAILABLE W;
             J.entry_schema_file := J.schema_file self';
             J.valid := sv |}
          cv tv totals (J.errors self') (J.warnings self')
          (Nat.eqb (List.length (J.errors self')) 0).
Proof.
  intros L H. unfold J.generate_report in H.
  apply bind_Ok in H as (ok & s1 & H1 & H).
  unfold J.load_json in H1. rewrite L in H1. injection H1 as <- <-.
  simpl in H.
  apply bind_Ok in H as (self0 & s1' & H0 & H). injection H0 as <- <-.
  apply bind_Ok in H as (sv & s2 & Hs & H).
  apply bind_Ok in H as (cv & s3 & Hc & H).
  apply bind_Ok in H as (tv & s4 & Ht & H).
  apply bind_Ok in H as (totals & s5 & Hq & H).
  apply bind_Ok in H as (self1 & s6 & Hg & H). injection Hg as <- <-.
  injection H as <- <-.
  exists (snd (J.set_json_data data self)), s2, s3, sv, cv, tv, totals.
  simpl in *.
  assert (G12 : J_grows (snd (J.set_json_data data self)) s2).
  { destruct (J.given (J.schema_file self)).
    - apply bind_Ok in Hs as (v & s2' & Hv & Hs). injection Hs as <- <-.
      eapply J_keeps_validate_schema, Hv.
    - injection Hs as <- <-. apply J_grows_refl. }
  assert (G3 : J_grows s3 s5).
  { eapply J_grows_trans; [eapply J_keeps_validate_data_types, Ht | ].
    eapply J_keeps_calculate_totals, Hq. }
  repeat match goal with |- _ /\ _ => split end;
    try reflexivity; try assumption.
  - unfold J.load_json. now rewrite L.
  - destruct (J.given (J.schema_file self)).
    + apply bind_Ok in Hs as (v & s2' & Hv & Hs). injection Hs as <- <-. eauto.
    + injection Hs as <- <-. auto.
Qed.

End JsonReport.

(** ** C1: [overall_valid] and the error list *)

(** C1, as stated, fails: with the receipt that passes every rule, a missing
    [jsonschema] library or a failed schema check makes [overall_valid]
    false, where the same receipt validated without a schema file has
    [overall_valid] true; the schema failure is recorded in the error list. *)
Lemma C1_schema_failure_makes_invalid :
  let run available outcome schema :=
    to_option (fst (J.generate_report Sample.runtime
                      (Sample.json_world available outcome Sample.receipt)
                      (J.__init__ "receipt.json" schema))) in
  option_map J.overall_valid (run false J.SchemaValid None) = Some true /\
  option_map J.overall_valid (run false J.SchemaValid (Some "schema.json")) = Some false /\
  option_map J.report_errors (run false J.SchemaValid (Some "schema.json"))
    = Some [[Lit "JSON Schema validation requires jsonschema library"]] /\
  option_map J.overall_valid
    (run true (J.SchemaValidationError "'cashier' is a required property" [])
       (Some "schema.json")) = Some false /\
  option_map J.overall_valid
    (run true (J.SchemaException "No such file or directory") (Some "schema.json"))
    = Some false.
Proof. vm_compute. repeat split; reflexivity. Qed.

(** What [validate_schema] does, in every case. *)
Lemma J_validate_schema_run (W : J.world) (s : J.validator) :
  exists s',
    J.validate_schema W s = (Ok (J_schema_passes W (J.json_data s)), s') /\
    if J_schema_passes W (J.json_data s) then s' = s
    else J.warnings s' = J.warnings s /\
         exists m es, J.errors s' = J.errors s ++ m :: es.
Proof.
  unfold J.validate_schema, J_schema_passes.
  destruct (J.JSONSCHEMA_AVAILABLE W); simpl.
  2: { eexists. split; [reflexivity | ]. simpl. split; [reflexivity | eauto]. }
  unfold bind at 1. simpl.
  destruct (truthy (J.json_data s)); simpl.
  2: { eexists. split; [reflexivity | ]. simpl. split; [reflexivity | eauto]. }
  destruct (J.schema_check W (J.json_data s)) as [ | emessage epath | text].
  - now exists s.
  - destruct epath; eexists; (split; [reflexivity | ]); simpl;
      (split; [reflexivity | ]).
    + eauto.
    + rewrite <- app_assoc. simpl. eauto.
  - eexists. split; [reflexivity | ]. simpl. split; [reflexivity | eauto].
Qed.

(** C1 (amended): whenever [generate_report] returns a report, its
    [overall_valid] is true exactly when its error list is empty, whatever
    the warnings.  The schema check is attempted exactly when a schema file
    is given; otherwise the schema verdict of the report is [None].  An
    attempted check passes exactly when the library is available, the loaded
    document is not empty and it conforms; in every other case (library
    missing, empty document, document that does not conform, check that
    raises) the verdict is false, [validate_schema] has appended at least
    one error and no warning, and [overall_valid] is false.  A check that
    passes leaves the object as it is. *)
Theorem C1_overall_valid_iff_no_errors
  (B : builtins) (W : J.world) (self self' : J.validator) (r : J.report) :
  J.generate_report B W self = (Ok r, self') ->
  (J.overall_valid r = true <-> J.report_errors r = []) /\
  (forall f t sv cv tv totals es ws v data,
     r = J.FullReport f t sv cv tv totals es ws v ->
     J.file_content W = J.Loaded data ->
     (J.valid sv = None <-> J.given (J.schema_file self) = false) /\
     J.valid sv
     = (if J.given (J.schema_file self) then Some (J_schema_passes W data) else None) /\
     (J.valid sv = Some false -> J.overall_valid r = false)) /\
  (forall s,
     exists s',
       J.validate_schema W s = (Ok (J_schema_passes W (J.json_data s)), s') /\
       if J_schema_passes W (J.json_data s) then s' = s
       else J.warnings s' = J.warnings s /\
            exists m es, J.errors s' = J.errors s ++ m :: es).
Proof.
  intros H. split; [ | split; [ | apply J_validate_schema_run]].
  - destruct (J.file_content W) as [data | text | text] eqn:L.
    + destruct (J_generate_report_stages B W self r self' data L H)
        as (s1 & s2 & s3 & sv & cv & tv & totals & _ & _ & _ & _ & _ & _ & _ & _ & _ & ->).
      simpl. destruct (J.errors self'); simpl; split; congruence.
    + unfold J.generate_report, J.load_json in H. rewrite L in H.
      injection H as <- <-. simpl.
      split; [discriminate | ]. intros E. now destruct (J.errors self).
    + unfold J.generate_report, J.load_json in H. rewrite L in H.
      injection H as <- <-. simpl.
      split; [discriminate | ]. intros E. now destruct (J.errors self).
  - intros f t sv' cv' tv' totals' es ws v data Hr L.
    destruct (J_generate_report_stages B W self r self' data L H)
      as (s1 & s2 & s3 & sv & cv & tv & totals & _ & D1 & _ & _ & _ & Hs & Hc & G12 & G3 & ->).
    injection Hr as _ _ <- _ _ _ _ _ _. simpl.
    destruct (J.given (J.schema_file self)).
    + destruct Hs as (b & Hv & ->).
      destruct (J_validate_schema_run W s1) as (s2' & Hrun & _).
      rewrite Hrun in Hv. injection Hv as <- <-. rewrite D1 in *.
      split; [split; discriminate | ]. split; [reflexivity | ].
      intros Hb. injection Hb as Hb. rewrite Hb in Hrun.
      destruct (J_validate_schema_false W _ _ Hrun) as (m & es0 & E).
      destruct (J_grows_errors _ _ _ _ E s3) as (es1 & E3).
      { eapply J_keeps_validate_business_rules, Hc. }
      destruct (J_grows_errors _ _ _ _ E3 self' G3) as (es2 & E4).
      rewrite E4. apply app_cons_length.
    + destruct Hs as (_ & ->). split; [tauto | ]. split; [reflexivity | discriminate].
Qed.

Lemma C1_overall_valid_iff_no_errors_witness :
  let W := Sample.json_world true
             (J.SchemaValidationError "'cashier' is a required property" [])
             Sample.receipt in
  let self := J.__init__ "receipt.json" (Some "schema.json") in
  exists r self',
    J.generate_report Sample.runtime W self = (Ok r, self') /\
    (J.overall_valid r = true <-> J.report_errors r = []) /\
    (forall f t sv cv tv totals es ws v data,
       r = J.FullReport f t sv cv tv totals es ws v ->
       J.file_content W = J.Loaded data ->
       (J.valid sv = None <-> J.given (J.schema_file self) = false) /\
       J.valid sv
       = (if J.given (J.schema_file self) then Some (J_schema_passes W data) else None) /\
       (J.valid sv = Some false -> J.overall_valid r = false)) /\
    (forall s,
       exists s',
         J.validate_schema W s = (Ok (J_schema_passes W (J.json_data s)), s') /\
         if J_schema_passes W (J.json_data s) then s' = s
         else J.warnings s' = J.warnings s /\
              exists m es, J.errors s' = J.errors s ++ m :: es).
Proof.
  intros W self. eexists. eexists. split.
  - vm_compute. reflexivity.
  - eapply (C1_overall_valid_iff_no_errors Sample.runtime W self).
    vm_compute. reflexivity.
Defined.

(** ** The rules of the JSON validator inside a run *)

Section JsonRules.

Variable B : builtins.
Variable W : J.world.

(** The first four blocks of [validate_business_rules] on a document that is
    not empty. *)
Lemma J_validate_business_rules_stages s cv s' :
  truthy (J.json_data s) = true ->
  J.validate_business_rules B W s = (Ok cv, s') ->
  exists items ok1 t1 ok2 t2 ok3 t3 ok4 t4,
    J.rule_item_count (J.json_data s) s = (Ok (items, ok1), t1) /\
    J.rule_purchase_date B W (J.json_data s) t1 = (Ok ok2, t2) /\
    J.rule_total_amount B (J.json_data s) t2 = (Ok ok3, t3) /\
    J.rule_items items t3 = (Ok ok4, t4) /\
    J_grows t4 s'.
Proof.
  intros T H. unfold J.validate_business_rules in H.
  unfold bind at 1 in H. simpl in H. rewrite T in H. simpl in H.
  apply bind_Ok in H as ([items ok1] & t1 & H1 & H).
  apply bind_Ok in H as (ok2 & t2 & H2 & H).
  apply bind_Ok in H as (ok3 & t3 & H3 & H).
  apply bind_Ok in H as (ok4 & t4 & H4 & H).
  exists items, ok1, t1, ok2, t2, ok3, t3, ok4, t4.
  repeat match goal with |- _ /\ _ => split end; try assumption.
  revert H. generalize t4 (Ok (A:=bool) cv) s'.
  change (keeps J_grows
            (customer <- J.rule_loyalty (J.json_data s) ;;
             ok6 <- J.rule_email customer ;;
             ok7 <- J.rule_payment (J.json_data s) ;;
             ok8 <- J.rule_signature (J.json_data s) ;;
             ok9 <- J.rule_prices (J.json_data s) (fst (items, ok1)) ;;
             ok10 <- J.rule_required (J.json_data s) J.required_fields ;;
             ret (snd (items, ok1) && ok2 && ok3 && ok4 && ok6 && ok7 && ok8 && ok9 && ok10))).
  keeps_with J_grows_refl J_grows_trans.
Qed.

(** An error present when [validate_business_rules] returns makes the
    report invalid. *)
Lemma J_error_invalidates self r self' data :
  J.file_content W = J.Loaded data ->
  J.generate_report B W self = (Ok r, self') ->
  (forall s cv s',
     J.json_data s = data ->
     J.validate_business_rules B W s = (Ok cv, s') ->
     exists es0 m es, J.errors s' = es0 ++ m :: es) ->
  J.overall_valid r = false.
Proof.
  intros L H K.
  destruct (J_generate_report_stages B W self r self' data L H)
    as (s1 & s2 & s3 & sv & cv & tv & totals & _ & D1 & _ & _ & _ & _ & Hc & G12 & G3 & ->).
  assert (D2 : J.json_data s2 = data).
  { destruct G12 as (_ & _ & D & _). congruence. }
  destruct (K s2 cv s3 D2 Hc) as (es0 & m & es & E).
  destruct G3 as ([es3 E3] & _).
  simpl. rewrite E3, E, <- app_assoc. simpl. apply app_cons_length.
Qed.

(** On an empty document [validate_business_rules] reports just that. *)
Lemma J_validate_business_rules_empty s :
  truthy (J.json_data s) = false ->
  J.validate_business_rules B W s
  = (Ok false,
     snd (J.errors_append [Lit "No JSON data loaded for business rule validation"] s)).
Proof.
  intros T. unfold J.validate_business_rules.
  unfold bind at 1. simpl. now rewrite T.
Qed.

End JsonRules.

(** ** The XML validator only ever appends to its two lists *)

Section XmlGrowth.

Variable B : builtins.
Variable W : X.world.

Lemma X_grows_refl s : X_grows s s.
Proof. repeat split; exists []; now rewrite app_nil_r. Qed.

Lemma X_grows_trans s1 s2 s3 : X_grows s1 s2 -> X_grows s2 s3 -> X_grows s1 s3.
Proof.
  intros ([e1 E1] & [w1 W1] & F1 & S1) ([e2 E2] & [w2 W2] & F2 & S2).
  repeat split; try congruence.
  - exists (e1 ++ e2). now rewrite E2, E1, app_assoc.
  - exists (w1 ++ w2). now rewrite W2, W1, app_assoc.
Qed.

Lemma X_keeps_errors_append m : keeps X_grows (X.errors_append m).
Proof.
  intros s r s' H. injection H as _ <-.
  repeat split; simpl; [now exists [m] | exists []; now rewrite app_nil_r].
Qed.

Lemma X_keeps_warnings_append m : keeps X_grows (X.warnings_append m).
Proof.
  intros s r s' H. injection H as _ <-.
  repeat split; simpl; [exists []; now rewrite app_nil_r | now exists [m]].
Qed.

Lemma X_keeps_get_self : keeps X_grows X.get_self.
Proof. intros s r s' H. injection H as _ <-. apply X_grows_refl. Qed.

#[local] Hint Resolve X_keeps_errors_append X_keeps_warnings_append
  X_keeps_get_self : keeps.

Ltac xkeeps := keeps_with X_grows_refl X_grows_trans.

Lemma X_keeps_report_error_log error_log :
  keeps X_grows (X.report_error_log error_log).
Proof. induction error_log as [ | error rest IH]; simpl; xkeeps. Qed.

#[local] Hint Resolve X_keeps_report_error_log : keeps.

Lemma X_keeps_validate_schema : keeps X_grows (X.validate_schema W).
Proof. unfold X.validate_schema. xkeeps. Qed.

Lemma X_keeps_rule_item_count xml_data : keeps X_grows (X.rule_item_count xml_data).
Proof. unfold X.rule_item_count. xkeeps. Qed.

Lemma X_keeps_rule_purchase_date xml_data :
  keeps X_grows (X.rule_purchase_date B W xml_data).
Proof. unfold X.rule_purchase_date. xkeeps. Qed.

Lemma X_keeps_rule_total_amount xml_data : keeps X_grows (X.rule_total_amount B xml_data).
Proof. unfold X.rule_total_amount. xkeeps. Qed.

Lemma X_keeps_check_item i item : keeps X_grows (X.check_item B i item).
Proof.
  unfold X.check_item, X.check_quantity, X.check_unit_price, X.check_subtotal. xkeeps.
Qed.

#[local] Hint Resolve X_keeps_check_item : keeps.

Lemma X_keeps_check_items items : forall i, keeps X_grows (X.check_items B i items).
Proof. induction items as [ | item rest IH]; intros i; simpl; xkeeps. Qed.

#[local] Hint Resolve X_keeps_check_items : keeps.

Lemma X_keeps_rule_items xml_data : keeps X_grows (X.rule_items B xml_data).
Proof. unfold X.rule_items. xkeeps. Qed.

Lemma X_keeps_rule_loyalty xml_data : keeps X_grows (X.rule_loyalty xml_data).
Proof. unfold X.rule_loyalty. xkeeps. Qed.

Lemma X_keeps_rule_payment xml_data : keeps X_grows (X.rule_payment xml_data).
Proof. unfold X.rule_payment. xkeeps. Qed.

Lemma X_keeps_rule_signature xml_data : keeps X_grows (X.rule_signature xml_data).
Proof. unfold X.rule_signature. xkeeps. Qed.

#[local] Hint Resolve X_keeps_rule_item_count X_keeps_rule_purchase_date
  X_keeps_rule_total_amount X_keeps_rule_items X_keeps_rule_loyalty
  X_keeps_rule_payment X_keeps_rule_signature X_keeps_validate_schema : keeps.

Lemma X_keeps_validate_business_rules xml_data :
  keeps X_grows (X.validate_business_rules B W xml_data).
Proof. unfold X.validate_business_rules. xkeeps. Qed.

#[local] Hint Resolve X_keeps_validate_business_rules : keeps.

Lemma X_keeps_validate_xml_content : keeps X_grows (X.validate_xml_content B W).
Proof. unfold X.validate_xml_content. xkeeps. Qed.

End XmlGrowth.

#[local] Hint Resolve X_keeps_errors_append X_keeps_warnings_append
  X_keeps_get_self X_keeps_check_item X_keeps_check_items
  X_keeps_rule_item_count X_keeps_rule_purchase_date
  X_keeps_rule_total_amount X_keeps_rule_items X_keeps_rule_loyalty
  X_keeps_rule_payment X_keeps_rule_signature X_keeps_validate_schema
  X_keeps_validate_business_rules X_keeps_validate_xml_content : keeps.

(** ** What [generate_report] of the XML validator returns *)

Section XmlReport.

Variable B : builtins.
Variable W : X.world.

Lemma X_report_error_log_returns error_log :
  forall s, exists s', X.report_error_log error_log s = (Ok tt, s').
Proof.
  induction error_log as [ | error rest IH]; intros s; simpl.
  - now eexists.
  - unfold bind at 1. simpl. apply IH.
Qed.

Lemma X_validate_schema_returns s :
  exists v s', X.validate_schema W s = (Ok v, s').
Proof.
  unfold X.validate_schema.
  destruct (negb (X.LXML_AVAILABLE W)); [now eexists; eexists | ].
  destruct (X.xsd_check W) as [ | error_log | text];
    [now eexists; eexists | | now eexists; eexists].
  destruct (X_report_error_log_returns error_log s) as (s' & E).
  exists false, s'. unfold bind. now rewrite E.
Qed.

(** The outer [except Exception] makes [validate_xml_content] return. *)
Lemma X_validate_xml_content_returns s :
  exists v s', X.validate_xml_content B W s = (Ok v, s').
Proof.
  unfold X.validate_xml_content.
  destruct (X.parse_file W) as [root | text | text].
  - unfold try_except.
    destruct (X.validate_business_rules B W (X.xml_to_dict root) s) as [[v | e] s1];
      now eexists; eexists.
  - destruct (X.LXML_AVAILABLE W); now eexists; eexists.
  - now eexists; eexists.
Qed.

(** [generate_report] of the XML validator always returns a report. *)
Lemma X_generate_report_returns self :
  exists r self', X.generate_report B W self = (Ok r, self').
Proof.
  unfold X.generate_report.
  destruct (X.LXML_AVAILABLE W).
  - destruct (X_validate_schema_returns self) as (v & s1 & E1).
    destruct (X_validate_xml_content_returns s1) as (c & s2 & E2).
    unfold bind. rewrite E1. simpl. rewrite E2. now eexists; eexists.
  - destruct (X_validate_xml_content_returns self) as (c & s2 & E2).
    unfold bind. simpl. rewrite E2. now eexists; eexists.
Qed.

Lemma X_generate_report_stages self r self' :
  X.generate_report B W self = (Ok r, self') ->
  exists s1 cv,
    X_grows self s1 /\
    X.validate_xml_content B W s1 = (Ok cv, self') /\
    X.report_errors r = X.errors self' /\
    X.report_warnings r = X.warnings self' /\
    X.overall_valid r = Nat.eqb (List.length (X.errors self')) 0.
Proof.
  intros H. unfold X.generate_report in H.
  apply bind_Ok in H as (sv & s1 & Hs & H).
  apply bind_Ok in H as (cv & s2 & Hc & H).
  apply bind_Ok in H as (s & s3 & Hg & H). injection Hg as <- <-.
  injection H as <- <-. exists s1, cv. simpl.
  repeat match goal with |- _ /\ _ => split end; try reflexivity; try assumption.
  destruct (X.LXML_AVAILABLE W).
  - apply bind_Ok in Hs as (v & s1' & Hv & Hs). injection Hs as _ <-.
    eapply X_keeps_validate_schema, Hv.
  - injection Hs as _ <-. apply X_grows_refl.
Qed.

(** A run of the rules that ends with an error in the list, or that raises,
    makes the report invalid. *)
Lemma X_error_invalidates self r self' root :
  X.parse_file W = X.Parsed root ->
  X.generate_report B W self = (Ok r, self') ->
  (forall s v s',
     X.validate_business_rules B W (X.xml_to_dict root) s = (Ok v, s') ->
     exists es0 m es, X.errors s' = es0 ++ m :: es) ->
  X.overall_valid r = false.
Proof.
  intros P H K.
  destruct (X_generate_report_stages self r self' H) as (s1 & cv & _ & Hc & _ & _ & ->).
  unfold X.validate_xml_content in Hc. rewrite P in Hc. unfold try_except in Hc.
  destruct (X.validate_business_rules B W (X.xml_to_dict root) s1) as [[v | e] s2] eqn:E.
  - destruct (K _ _ _ E) as (es0 & m & es & E2).
    injection Hc as _ <-. rewrite E2. apply app_cons_length.
  - injection Hc as _ <-. simpl. apply app_cons_length.
Qed.

End XmlReport.

(** ** The minimum item count on a list of items *)

(** When the items of a document are stored as a list [l] (the JSON entry
    [items]; in a tree, two or more [item] children), the item-count rule of
    either validator appends exactly one error and no warning if [l] has
    fewer than 5 entries, and exactly one warning ("Item count validation
    passed") and no error otherwise; with fewer than 5 entries the XML
    validator returns a report with [overall_valid] false, and so is every
    report that the JSON validator returns. *)
Theorem item_count_of_list (l : list pyval) :
  let n := Z.of_nat (List.length l) in
  (forall data self,
     py_get data "items" (PList []) = Ok (PList l) ->
     J.rule_item_count data self
     = if n <? 5
       then (Ok (PList l, false),
             snd (J.errors_append
                    [Lit "Receipt must contain at least 5 items. Found: "; Fmt (PInt n)]
                    self))
       else (Ok (PList l, true),
             snd (J.warnings_append
                    [Lit "Item count validation passed: "; Fmt (PInt n); Lit " items"]
                    self))) /\
  (forall xml_data self,
     X.get_items xml_data = Ok (PList l) ->
     X.rule_item_count xml_data self
     = if n <? 5
       then (Ok false,
             snd (X.errors_append
                    [Lit "Receipt must contain at least 5 items. Found: "; Fmt (PInt n)]
                    self))
       else (Ok true,
             snd (X.warnings_append
                    [Lit "Item count validation passed: "; Fmt (PInt n); Lit " items"]
                    self))) /\
  (n < 5 ->
   forall B W data self r self',
     J.file_content W = J.Loaded data ->
     py_get data "items" (PList []) = Ok (PList l) ->
     J.generate_report B W self = (Ok r, self') ->
     J.overall_valid r = false) /\
  (n < 5 ->
   forall B W root self,
     X.parse_file W = X.Parsed root ->
     X.get_items (X.xml_to_dict root) = Ok (PList l) ->
     exists r self',
       X.generate_report B W self = (Ok r, self') /\ X.overall_valid r = false).
Proof.
  intros n.
  assert (HJ : forall data self,
             py_get data "items" (PList []) = Ok (PList l) ->
             J.rule_item_count data self
             = if n <? 5
               then (Ok (PList l, false),
                     snd (J.errors_append
                            [Lit "Receipt must contain at least 5 items. Found: ";
                             Fmt (PInt n)] self))
               else (Ok (PList l, true),
                     snd (J.warnings_append
                            [Lit "Item count validation passed: "; Fmt (PInt n);
                             Lit " items"] self))).
  { intros data self G. unfold J.rule_item_count, bind, lift. rewrite G. simpl.
    fold n. now destruct (n <? 5). }
  assert (HX : forall xml_data self,
             X.get_items xml_data = Ok (PList l) ->
             X.rule_item_count xml_data self
             = if n <? 5
               then (Ok false,
                     snd (X.errors_append
                            [Lit "Receipt must contain at least 5 items. Found: ";
                             Fmt (PInt n)] self))
               else (Ok true,
                     snd (X.warnings_append
                            [Lit "Item count validation passed: "; Fmt (PInt n);
                             Lit " items"] self))).
  { intros xml_data self G. unfold X.rule_item_count, bind, lift. rewrite G. simpl.
    fold n. now destruct (n <? 5). }
  repeat match goal with |- _ /\ _ => split end; try assumption.
  - intros Hn B W data self r self' L G H.
    apply (J_error_invalidates B W self r self' data L H).
    intros s cv s' D Hc.
    destruct (truthy (J.json_data s)) eqn:T.
    + destruct (J_validate_business_rules_stages B W s cv s' T Hc)
        as (items & ok1 & t1 & ok2 & t2 & ok3 & t3 & ok4 & t4 & H1 & H2 & H3 & H4 & G4).
      rewrite D, (HJ data s G) in H1.
      apply Z.ltb_lt in Hn. rewrite Hn in H1. injection H1 as _ _ <-.
      assert (G1 : J_grows (snd (J.errors_append
                [Lit "Receipt must contain at least 5 items. Found: "; Fmt (PInt n)] s)) s').
      { eapply J_grows_trans; [eapply J_keeps_rule_purchase_date, H2 | ].
        eapply J_grows_trans; [eapply J_keeps_rule_total_amount, H3 | ].
        eapply J_grows_trans; [eapply J_keeps_rule_items, H4 | exact G4]. }
      destruct G1 as ([es E] & _). simpl in E.
      exists (J.errors s), [Lit "Receipt must contain at least 5 items. Found: "; Fmt (PInt n)], es.
      now rewrite E, <- app_assoc.
    + rewrite (J_validate_business_rules_empty B W s T) in Hc. injection Hc as _ <-.
      simpl. eauto.
  - intros Hn B W root self P G.
    destruct (X_generate_report_returns B W self) as (r & self' & H).
    exists r, self'. split; [exact H | ].
    apply (X_error_invalidates B W self r self' root P H).
    intros s res s' Hc. unfold X.validate_business_rules in Hc.
    unfold bind at 1 in Hc. rewrite (HX _ s G) in Hc.
    apply Z.ltb_lt in Hn. rewrite Hn in Hc. simpl in Hc.
    revert Hc.
    match goal with
    | |- ?m ?st = _ -> _ =>
        assert (K : keeps X_grows m) by keeps_with X_grows_refl X_grows_trans;
        intros Hc; destruct (K _ _ _ Hc) as ([es E] & _)
    end.
    simpl in E.
    exists (X.errors s), [Lit "Receipt must contain at least 5 items. Found: "; Fmt (PInt n)], es.
    now rewrite E, <- app_assoc.
Qed.

Lemma item_count_of_list_example :
  let l := firstn 3 Sample.five_items in
  let data := Sample.with_field "items" (PList l) Sample.receipt in
  let lx := map X.xml_to_dict (firstn 3 Sample.five_xml_items) in
  let root := Sample.xml_receipt (firstn 3 Sample.five_xml_items) Sample.card "19.00" "19.00" in
  (py_get data "items" (PList []) = Ok (PList l) /\
   J.rule_item_count data (J.__init__ "receipt.json" None)
   = (Ok (PList l, false),
      snd (J.errors_append
             [Lit "Receipt must contain at least 5 items. Found: "; Fmt (PInt 3)]
             (J.__init__ "receipt.json" None)))) /\
  (X.get_items (X.xml_to_dict root) = Ok (PList lx) /\
   X.rule_item_count (X.xml_to_dict root) (X.__init__ "receipt.xml" "receipt.xsd")
   = (Ok false,
      snd (X.errors_append
             [Lit "Receipt must contain at least 5 items. Found: "; Fmt (PInt 3)]
             (X.__init__ "receipt.xml" "receipt.xsd")))) /\
  (exists r self',
     J.generate_report Sample.runtime (Sample.json_world false J.SchemaValid data)
       (J.__init__ "receipt.json" None) = (Ok r, self') /\
     J.overall_valid r = false) /\
  (exists r self',
     X.generate_report Sample.runtime (Sample.xml_world root)
       (X.__init__ "receipt.xml" "receipt.xsd") = (Ok r, self') /\
     X.overall_valid r = false).
Proof.
  intros l data lx root.
  destruct (item_count_of_list l) as (HJ & _ & HJr & _).
  destruct (item_count_of_list lx) as (_ & HX & _ & HXr).
  assert (N3 : Z.of_nat (List.length lx) < 5) by (vm_compute; reflexivity).
  split; [ | split; [ | split]].
  - split; [reflexivity | ]. apply (HJ data). reflexivity.
  - split; [reflexivity | ]. apply (HX (X.xml_to_dict root)). reflexivity.
  - eexists. eexists. split.
    + vm_compute. reflexivity.
    + eapply (HJr ltac:(vm_compute; reflexivity) Sample.runtime
                (Sample.json_world false J.SchemaValid data) data
                (J.__init__ "receipt.json" None)).
      * reflexivity.
      * reflexivity.
      * vm_compute. reflexivity.
  - exact (HXr N3 Sample.runtime (Sample.xml_world root) root
             (X.__init__ "receipt.xml" "receipt.xsd") eq_refl eq_refl).
Defined.

(** ** C7 and C10: header total against pricing grand total *)

Section TotalAmount.

Variable B : builtins.

Lemma J_rule_total_amount_run data t p g total_amount calculated_total self :
  py_get data "total_amount" (PInt 0) = Ok t ->
  py_float B t = Ok total_amount ->
  py_get data "pricing" (PDict []) = Ok (PDict p) ->
  dict_get "grand_total" p = Some g ->
  py_float B g = Ok calculated_total ->
  J.rule_total_amount B data self
  = if exceeds_tolerance total_amount calculated_total
    then (Ok false,
          snd (J.errors_append (total_mismatch total_amount calculated_total) self))
    else (Ok true, self).
Proof.
  intros Ht Hf Hp Hg Hc.
  unfold J.rule_total_amount, bind, lift. rewrite Ht, Hf, Hp. simpl.
  unfold dict_mem. rewrite Hg. simpl. rewrite Hc.
  fold (exceeds_tolerance total_amount calculated_total).
  now destruct (exceeds_tolerance total_amount calculated_total).
Qed.

Lemma X_rule_total_amount_run data t p g total_amount calculated_total self :
  py_get data "total_amount" (PInt 0) = Ok t ->
  py_float B t = Ok total_amount ->
  py_get data "pricing" (PDict []) = Ok (PDict p) ->
  dict_get "grand_total" p = Some g ->
  py_float B g = Ok calculated_total ->
  X.rule_total_amount B data self
  = if exceeds_tolerance total_amount calculated_total
    then (Ok false,
          snd (X.errors_append (total_mismatch total_amount calculated_total) self))
    else (Ok true, self).
Proof.
  intros Ht Hf Hp Hg Hc.
  unfold X.rule_total_amount, bind, lift. rewrite Ht, Hf, Hp. simpl.
  unfold dict_mem. rewrite Hg. simpl. rewrite Hc.
  fold (exceeds_tolerance total_amount calculated_total).
  now destruct (exceeds_tolerance total_amount calculated_total).
Qed.

(** A document with a [pricing] entry is not empty. *)
Lemma pricing_truthy data p g :
  py_get data "pricing" (PDict []) = Ok (PDict p) ->
  dict_get "grand_total" p = Some g ->
  truthy data = true.
Proof.
  destruct data as [ | | | | | | d]; try discriminate.
  destruct d as [ | kv d]; [ | reflexivity].
  simpl. intros H. injection H as <-. discriminate.
Qed.

(** The first three blocks of the XML rules in a run that returns. *)
Lemma X_validate_business_rules_stages W xml_data s v s' :
  X.validate_business_rules B W xml_data s = (Ok v, s') ->
  exists ok1 t1 ok2 t2 ok3 t3,
    X.rule_item_count xml_data s = (Ok ok1, t1) /\
    X.rule_purchase_date B W xml_data t1 = (Ok ok2, t2) /\
    X.rule_total_amount B xml_data t2 = (Ok ok3, t3) /\
    X_grows t3 s'.
Proof.
  intros H. unfold X.validate_business_rules in H.
  apply bind_Ok in H as (ok1 & t1 & H1 & H).
  apply bind_Ok in H as (ok2 & t2 & H2 & H).
  apply bind_Ok in H as (ok3 & t3 & H3 & H).
  exists ok1, t1, ok2, t2, ok3, t3.
  repeat match goal with |- _ /\ _ => split end; try assumption.
  revert H.
  match goal with
  | |- ?m ?st = _ -> _ =>
      assert (K : keeps X_grows m) by keeps_with X_grows_refl X_grows_trans;
      intros Hc; exact (K _ _ _ Hc)
  end.
Qed.

End TotalAmount.

(** C7: when [pricing.grand_total] is present and both totals convert to
    floats, the total rule of either validator appends the mismatch error,
    which carries the header total and the pricing total, exactly when
    [abs(total_amount - grand_total) > 0.01], and appends nothing otherwise;
    after a mismatch the XML validator returns a report with [overall_valid]
    false, and so is every report that the JSON validator returns. *)
Theorem C7_total_mismatch
  (B : builtins) (data t g : pyval) (p : dict) (total_amount calculated_total : float) :
  py_get data "total_amount" (PInt 0) = Ok t ->
  py_float B t = Ok total_amount ->
  py_get data "pricing" (PDict []) = Ok (PDict p) ->
  dict_get "grand_total" p = Some g ->
  py_float B g = Ok calculated_total ->
  (forall self,
     J.rule_total_amount B data self
     = if exceeds_tolerance total_amount calculated_total
       then (Ok false,
             snd (J.errors_append (total_mismatch total_amount calculated_total) self))
       else (Ok true, self)) /\
  (forall self,
     X.rule_total_amount B data self
     = if exceeds_tolerance total_amount calculated_total
       then (Ok false,
             snd (X.errors_append (total_mismatch total_amount calculated_total) self))
       else (Ok true, self)) /\
  (exceeds_tolerance total_amount calculated_total = true ->
   (forall W self r self',
      J.file_content W = J.Loaded data ->
      J.generate_report B W self = (Ok r, self') ->
      J.overall_valid r = false) /\
   (forall W root self,
      X.parse_file W = X.Parsed root ->
      X.xml_to_dict root = data ->
      exists r self',
        X.generate_report B W self = (Ok r, self') /\ X.overall_valid r = false)).
Proof.
  intros Ht Hf Hp Hg Hc.
  split; [ | split].
  - intros self. now apply (J_rule_total_amount_run B data t p g).
  - intros self. now apply (X_rule_total_amount_run B data t p g).
  - intros Hm. split.
    + intros W self r self' L H.
      apply (J_error_invalidates B W self r self' data L H).
      intros s cv s' D Hv.
      assert (T : truthy (J.json_data s) = true).
      { rewrite D. eapply pricing_truthy; eassumption. }
      destruct (J_validate_business_rules_stages B W s cv s' T Hv)
        as (items & ok1 & t1 & ok2 & t2 & ok3 & t3 & ok4 & t4 & H1 & H2 & H3 & H4 & G4).
      rewrite D, (J_rule_total_amount_run B data t p g _ _ t2 Ht Hf Hp Hg Hc), Hm in H3.
      injection H3 as _ <-.
      assert (G : J_grows (snd (J.errors_append
                                  (total_mismatch total_amount calculated_total) t2)) s').
      { eapply J_grows_trans; [eapply J_keeps_rule_items, H4 | exact G4]. }
      destruct G as ([es E] & _). simpl in E.
      exists (J.errors t2), (total_mismatch total_amount calculated_total), es.
      now rewrite E, <- app_assoc.
    + intros W root self P D.
      destruct (X_generate_report_returns B W self) as (r & self' & H).
      exists r, self'. split; [exact H | ].
      apply (X_error_invalidates B W self r self' root P H).
      intros s v s' Hv. rewrite D in Hv.
      destruct (X_validate_business_rules_stages B W data s v s' Hv)
        as (ok1 & t1 & ok2 & t2 & ok3 & t3 & H1 & H2 & H3 & G3).
      rewrite (X_rule_total_amount_run B data t p g _ _ t2 Ht Hf Hp Hg Hc), Hm in H3.
      injection H3 as _ <-.
      destruct G3 as ([es E] & _). simpl in E.
      exists (X.errors t2), (total_mismatch total_amount calculated_total), es.
      now rewrite E, <- app_assoc.
Qed.

(** Scenario A: header total 100.00 against pricing grand total 100.02. *)
Lemma C7_total_mismatch_witness :
  let data :=
    Sample.with_field "total_amount" (PFloat 100)
      (Sample.with_field "pricing"
         (PDict [("subtotal", PFloat 19); ("grand_total", PFloat 100.02)])
         Sample.receipt) in
  let root := Sample.xml_receipt Sample.five_xml_items Sample.card "100.00" "100.02" in
  exceeds_tolerance 100 100.02 = true /\
  (exists r self',
     J.generate_report Sample.runtime (Sample.json_world false J.SchemaValid data)
       (J.__init__ "receipt.json" None) = (Ok r, self') /\
     J.report_errors r = [total_mismatch 100 100.02] /\
     J.overall_valid r = false) /\
  (exists r self',
     X.generate_report Sample.runtime (Sample.xml_world root)
       (X.__init__ "receipt.xml" "receipt.xsd") = (Ok r, self') /\
     X.report_errors r = [total_mismatch 100 100.02] /\
     X.overall_valid r = false).
Proof.
  intros data root.
  assert (E : exceeds_tolerance 100 100.02 = true) by (vm_compute; reflexivity).
  destruct (C7_total_mismatch Sample.runtime data (PFloat 100) (PFloat 100.02)
              [("subtotal", PFloat 19); ("grand_total", PFloat 100.02)] 100 100.02
              eq_refl eq_refl eq_refl eq_refl eq_refl) as (_ & _ & HJ).
  destruct (C7_total_mismatch Sample.runtime (X.xml_to_dict root)
              (PStr "100.00") (PStr "100.02")
              [("subtotal", PStr "19.00"); ("grand_total", PStr "100.02")] 100 100.02
              eq_refl ltac:(vm_compute; reflexivity) eq_refl eq_refl
              ltac:(vm_compute; reflexivity)) as (_ & _ & HX).
  split; [exact E | split].
  - eexists. eexists. split; [vm_compute; reflexivity | ].
    split; [reflexivity | ].
    eapply (proj1 (HJ E) (Sample.json_world false J.SchemaValid data)
              (J.__init__ "receipt.json" None)).
    + reflexivity.
    + vm_compute. reflexivity.
  - destruct (proj2 (HX E) (Sample.xml_world root) root
                (X.__init__ "receipt.xml" "receipt.xsd") eq_refl eq_refl)
      as (r & self' & Hr & Hv).
    exists r, self'. split; [exact Hr | ].
    split; [ | exact Hv].
    vm_compute in Hr. injection Hr as <- _. reflexivity.
Defined.

(** C10: when [total_amount] is absent and [pricing.grand_total] is present
    and converts to the float [g], the total rule of either validator
    compares against the default 0: it appends the mismatch error, with
    header total 0.0, exactly when [abs(g) > 0.01]. *)
Theorem C10_absent_total_defaults_to_zero
  (B : builtins) (d p : dict) (g : pyval) (calculated_total : float) :
  dict_get "total_amount" d = None ->
  dict_get "pricing" d = Some (PDict p) ->
  dict_get "grand_total" p = Some g ->
  py_float B g = Ok calculated_total ->
  let mismatch := PrimFloat.ltb 0.01%float (PrimFloat.abs calculated_total) in
  (forall self,
     J.rule_total_amount B (PDict d) self
     = if mismatch
       then (Ok false, snd (J.errors_append (total_mismatch 0 calculated_total) self))
       else (Ok true, self)) /\
  (forall self,
     X.rule_total_amount B (PDict d) self
     = if mismatch
       then (Ok false, snd (X.errors_append (total_mismatch 0 calculated_total) self))
       else (Ok true, self)).
Proof.
  intros Ht Hp Hg Hc mismatch.
  assert (E : exceeds_tolerance 0 calculated_total = mismatch).
  { unfold exceeds_tolerance, mismatch. now rewrite abs_zero_sub. }
  split; intros self.
  - rewrite (J_rule_total_amount_run B (PDict d) (PInt 0) p g 0 calculated_total self);
      [now rewrite E | simpl; now rewrite Ht | reflexivity | simpl; now rewrite Hp
      | exact Hg | exact Hc].
  - rewrite (X_rule_total_amount_run B (PDict d) (PInt 0) p g 0 calculated_total self);
      [now rewrite E | simpl; now rewrite Ht | reflexivity | simpl; now rewrite Hp
      | exact Hg | exact Hc].
Qed.

(** A receipt without [total_amount] whose pricing total is 19.0. *)
Lemma C10_absent_total_defaults_to_zero_witness :
  let d := [("items", PList Sample.five_items);
            ("pricing", PDict [("grand_total", PFloat 19)])] in
  PrimFloat.ltb 0.01%float (PrimFloat.abs 19) = true /\
  J.rule_total_amount Sample.runtime (PDict d) (J.__init__ "receipt.json" None)
  = (Ok false, snd (J.errors_append (total_mismatch 0 19) (J.__init__ "receipt.json" None))) /\
  X.rule_total_amount Sample.runtime (PDict d) (X.__init__ "receipt.xml" "receipt.xsd")
  = (Ok false,
     snd (X.errors_append (total_mismatch 0 19) (X.__init__ "receipt.xml" "receipt.xsd"))).
Proof.
  intros d.
  destruct (C10_absent_total_defaults_to_zero Sample.runtime d
              [("grand_total", PFloat 19)] (PFloat 19) 19
              eq_refl eq_refl eq_refl eq_refl) as (HJ & HX).
  split; [vm_compute; reflexivity | split].
  - apply (HJ (J.__init__ "receipt.json" None)).
  - apply (HX (X.__init__ "receipt.xml" "receipt.xsd")).
Defined.

(** ** C5: the subtotal of a line item *)

Lemma is_subtotal_error_number n m :
  is_subtotal_error n m = true -> item_number m = Some n.
Proof.
  destruct m as [ | [a | v | | | ] m]; try discriminate.
  destruct m as [ | [ | [ | | k | | | | ] | | | ] m]; try discriminate.
  destruct m as [ | [b | | | | ] m]; try discriminate.
  destruct m as [ | [ | v | | | ] m]; try discriminate.
  destruct m as [ | [c | | | | ] m]; try discriminate.
  destruct m as [ | [ | v' | | | ] m]; try discriminate.
  destruct m; try discriminate.
  simpl. intros H.
  apply andb_prop in H as [H _]. apply andb_prop in H as [H _].
  apply andb_prop in H as [_ H]. apply Z.eqb_eq in H. now subst.
Qed.

Lemma filter_other_number n (l : list message) :
  Forall (fun m => item_number m <> Some n) l ->
  filter (is_subtotal_error n) l = [].
Proof.
  induction 1 as [ | m l Hm _ IH]; [reflexivity | ].
  simpl. rewrite IH.
  destruct (is_subtotal_error n m) eqn:E; [ | reflexivity].
  now apply is_subtotal_error_number in E.
Qed.

Section JsonSubtotal.

Lemma J_check_subtotal_run i quantity unit_price subtotal expected magnitude b self :
  py_mul quantity unit_price = Ok expected ->
  gap subtotal expected = Ok magnitude ->
  py_gt magnitude (NFloat 0.01%float) = Ok b ->
  J.check_subtotal i quantity unit_price subtotal self
  = if b
    then (Ok false, snd (J.errors_append (subtotal_error (i + 1) expected subtotal) self))
    else (Ok true, self).
Proof.
  intros Hm Hg Hb. unfold J.check_subtotal, bind, lift. rewrite Hm.
  unfold gap in Hg. destruct (py_sub subtotal expected) as [d | e]; [ | discriminate].
  simpl in Hg. rewrite Hg, Hb. now destruct b.
Qed.

(** What one pass of the loop body appends: messages numbered [i + 1], among
    them the subtotal message exactly when the gap exceeds 0.01. *)
Lemma J_check_item_errors i item ok self self' :
  J.check_item i item self = (Ok ok, self') ->
  exists new quantity unit_price subtotal expected magnitude b,
    J.errors self' = J.errors self ++ new /\
    Forall (fun m => item_number m = Some (i + 1)) new /\
    py_get item "quantity" (PInt 0) = Ok quantity /\
    py_get item "unit_price" (PInt 0) = Ok unit_price /\
    py_get item "subtotal" (PInt 0) = Ok subtotal /\
    py_mul quantity unit_price = Ok expected /\
    gap subtotal expected = Ok magnitude /\
    py_gt magnitude (NFloat 0.01%float) = Ok b /\
    filter (is_subtotal_error (i + 1)) new
    = if b then [subtotal_error (i + 1) expected subtotal] else [].
Proof.
  intros H. unfold J.check_item in H.
  apply bind_Ok in H as (quantity & s1 & Hq & H).
  apply bind_Ok in H as (unit_price & s2 & Hu & H).
  apply bind_Ok in H as (subtotal & s3 & Hs & H).
  unfold lift in Hq, Hu, Hs.
  injection Hq as Hq <-. injection Hu as Hu <-. injection Hs as Hs <-.
  apply bind_Ok in H as (ok1 & t1 & H1 & H).
  apply bind_Ok in H as (ok2 & t2 & H2 & H).
  apply bind_Ok in H as (ok3 & t3 & H3 & H).
  injection H as _ <-.
  assert (E1 : exists n1, J.errors t1 = J.errors self ++ n1 /\
                 Forall (fun m => item_number m = Some (i + 1)) n1 /\
                 filter (is_subtotal_error (i + 1)) n1 = []).
  { unfold J.check_quantity in H1.
    apply bind_Ok in H1 as (bad & u1 & Hx & H1).
    unfold lift in Hx. injection Hx as _ <-.
    destruct bad; injection H1 as _ <-.
    - eexists. split; [reflexivity | ]. split; [ | reflexivity].
      now repeat constructor.
    - exists []. split; [now rewrite app_nil_r | now split]. }
  assert (E2 : exists n2, J.errors t2 = J.errors t1 ++ n2 /\
                 Forall (fun m => item_number m = Some (i + 1)) n2 /\
                 filter (is_subtotal_error (i + 1)) n2 = []).
  { unfold J.check_unit_price in H2.
    apply bind_Ok in H2 as (bad & u1 & Hx & H2).
    unfold lift in Hx. injection Hx as _ <-.
    destruct bad; injection H2 as _ <-.
    - eexists. split; [reflexivity | ]. split; [ | reflexivity].
      now repeat constructor.
    - exists []. split; [now rewrite app_nil_r | now split]. }
  unfold J.check_subtotal in H3.
  apply bind_Ok in H3 as (expected & u1 & Hm & H3).
  apply bind_Ok in H3 as (difference & u2 & Hd & H3).
  apply bind_Ok in H3 as (magnitude & u3 & Ha & H3).
  apply bind_Ok in H3 as (b & u4 & Hb & H3).
  unfold lift in Hm, Hd, Ha, Hb.
  injection Hm as Hm <-. injection Hd as Hd <-.
  injection Ha as Ha <-. injection Hb as Hb <-.
  destruct E1 as (n1 & E1 & F1 & K1). destruct E2 as (n2 & E2 & F2 & K2).
  assert (Hg : gap subtotal expected = Ok magnitude).
  { unfold gap. now rewrite Hd. }
  destruct b; injection H3 as _ <-.
  - exists (n1 ++ n2 ++ [subtotal_error (i + 1) expected subtotal]),
      quantity, unit_price, subtotal, expected, magnitude, true.
    repeat match goal with |- _ /\ _ => split end; try assumption.
    + simpl. rewrite E2, E1. now rewrite <- !app_assoc.
    + rewrite !Forall_app. repeat split; try assumption. now repeat constructor.
    + rewrite !filter_app, K1, K2. simpl. now rewrite Z.eqb_refl.
  - exists (n1 ++ n2), quantity, unit_price, subtotal, expected, magnitude, false.
    repeat match goal with |- _ /\ _ => split end; try assumption.
    + rewrite E2, E1. now rewrite <- !app_assoc.
    + rewrite !Forall_app. now split.
    + now rewrite !filter_app, K1, K2.
Qed.

End JsonSubtotal.

(** The loop of rule 4, for either validator: [check] is the loop body,
    [loop] the loop, [errs] the error list of the object, and [Q] what is
    known about the messages one pass appends. *)
Section ItemLoop.

Context {S : Type}.
Variable errs : S -> list message.
Variable check : Z -> pyval -> M S bool.
Variable loop : Z -> list pyval -> M S bool.
Variable Q : Z -> pyval -> list message -> Prop.

Hypothesis loop_nil : forall i, loop i [] = ret true.
Hypothesis loop_cons : forall i item rest,
  loop i (item :: rest)
  = (ok <- check i item ;; ok' <- loop (i + 1) rest ;; ret (ok && ok')).
Hypothesis check_errors : forall i item ok s s',
  check i item s = (Ok ok, s') ->
  exists new,
    errs s' = errs s ++ new /\
    Forall (fun m => item_number m = Some (i + 1)) new /\
    Q i item new.

Lemma loop_errors items : forall i ok s s',
  loop i items s = (Ok ok, s') ->
  exists new,
    errs s' = errs s ++ new /\
    Forall (fun m => exists n, item_number m = Some n /\ i + 1 <= n) new /\
    forall k item,
      nth_error items k = Some item ->
      exists new_k,
        Q (i + Z.of_nat k) item new_k /\
        filter (is_subtotal_error (i + Z.of_nat k + 1)) new
        = filter (is_subtotal_error (i + Z.of_nat k + 1)) new_k.
Proof.
  induction items as [ | item rest IH]; intros i ok s s' H.
  - rewrite loop_nil in H. injection H as _ <-.
    exists []. split; [now rewrite app_nil_r | ]. split; [constructor | ].
    intros [ | k] item Hk; discriminate.
  - rewrite loop_cons in H.
    apply bind_Ok in H as (ok0 & s1 & H0 & H).
    apply bind_Ok in H as (ok1 & s2 & H1 & H).
    injection H as _ <-.
    destruct (check_errors _ _ _ _ _ H0) as (new0 & E0 & F0 & Q0).
    destruct (IH _ _ _ _ H1) as (new1 & E1 & F1 & K1).
    exists (new0 ++ new1).
    split; [now rewrite E1, E0, app_assoc | ].
    split.
    + apply Forall_app. split.
      * eapply Forall_impl; [ | exact F0]. intros m Hm. exists (i + 1). split; [exact Hm | lia].
      * eapply Forall_impl; [ | exact F1]. intros m (n & Hm & Hn). exists n. split; [exact Hm | lia].
    + intros [ | k] item' Hk.
      * injection Hk as <-. exists new0.
        replace (i + Z.of_nat 0) with i by (simpl; lia).
        split; [exact Q0 | ].
        rewrite filter_app, (filter_other_number (i + 1) new1), app_nil_r; [reflexivity | ].
        eapply Forall_impl; [ | exact F1].
        intros m (n & Hm & Hn) Hc. rewrite Hm in Hc. injection Hc as ->. lia.
      * destruct (K1 k item' Hk) as (new_k & Qk & Ek).
        exists new_k.
        replace (i + Z.of_nat (Datatypes.S k)) with (i + 1 + Z.of_nat k) by lia.
        split; [exact Qk | ].
        rewrite filter_app, Ek, (filter_other_number _ new0); [reflexivity | ].
        eapply Forall_impl; [ | exact F0].
        intros m Hm Hc. rewrite Hm in Hc. injection Hc as Hc. lia.
Qed.

End ItemLoop.

Section XmlSubtotal.

Variable B : builtins.

Lemma X_check_subtotal_run i quantity unit_price subtotal expected magnitude b self :
  py_mul (PInt quantity) (PFloat unit_price) = Ok expected ->
  gap (PFloat subtotal) expected = Ok magnitude ->
  py_gt magnitude (NFloat 0.01%float) = Ok b ->
  X.check_subtotal i quantity unit_price subtotal self
  = if b
    then (Ok false,
          snd (X.errors_append (subtotal_error (i + 1) expected (PFloat subtotal)) self))
    else (Ok true, self).
Proof.
  intros Hm Hg Hb. unfold X.check_subtotal, bind, lift. rewrite Hm.
  unfold gap in Hg.
  destruct (py_sub (PFloat subtotal) expected) as [d | e]; [ | discriminate].
  simpl in Hg. rewrite Hg, Hb. now destruct b.
Qed.

Lemma X_check_item_errors i item ok self self' :
  X.check_item B i item self = (Ok ok, self') ->
  exists new,
    X.errors self' = X.errors self ++ new /\
    Forall (fun m => item_number m = Some (i + 1)) new /\
    X_item_outcome B i item new.
Proof.
  intros H. unfold X.check_item in H.
  apply bind_Ok in H as (q & s1 & Hq & H).
  apply bind_Ok in H as (quantity & s2 & Hqi & H).
  apply bind_Ok in H as (u & s3 & Hu & H).
  apply bind_Ok in H as (unit_price & s4 & Huf & H).
  apply bind_Ok in H as (s & s5 & Hs & H).
  apply bind_Ok in H as (subtotal & s6 & Hsf & H).
  unfold lift in Hq, Hqi, Hu, Huf, Hs, Hsf.
  injection Hq as Hq <-. injection Hqi as Hqi <-. injection Hu as Hu <-.
  injection Huf as Huf <-. injection Hs as Hs <-. injection Hsf as Hsf <-.
  apply bind_Ok in H as (ok1 & t1 & H1 & H).
  apply bind_Ok in H as (ok2 & t2 & H2 & H).
  apply bind_Ok in H as (ok3 & t3 & H3 & H).
  injection H as _ <-.
  assert (E1 : exists n1, X.errors t1 = X.errors self ++ n1 /\
                 Forall (fun m => item_number m = Some (i + 1)) n1 /\
                 filter (is_subtotal_error (i + 1)) n1 = []).
  { unfold X.check_quantity in H1.
    destruct (quantity <=? 0); injection H1 as _ <-.
    - eexists. split; [reflexivity | ]. split; [ | reflexivity].
      now repeat constructor.
    - exists []. split; [now rewrite app_nil_r | now split]. }
  assert (E2 : exists n2, X.errors t2 = X.errors t1 ++ n2 /\
                 Forall (fun m => item_number m = Some (i + 1)) n2 /\
                 filter (is_subtotal_error (i + 1)) n2 = []).
  { unfold X.check_unit_price in H2.
    destruct (PrimFloat.ltb unit_price 0); injection H2 as _ <-.
    - eexists. split; [reflexivity | ]. split; [ | reflexivity].
      now repeat constructor.
    - exists []. split; [now rewrite app_nil_r | now split]. }
  unfold X.check_subtotal in H3.
  apply bind_Ok in H3 as (expected & u1 & Hm & H3).
  apply bind_Ok in H3 as (difference & u2 & Hd & H3).
  apply bind_Ok in H3 as (magnitude & u3 & Ha & H3).
  apply bind_Ok in H3 as (b & u4 & Hb & H3).
  unfold lift in Hm, Hd, Ha, Hb.
  injection Hm as Hm <-. injection Hd as Hd <-.
  injection Ha as Ha <-. injection Hb as Hb <-.
  destruct E1 as (n1 & E1 & F1 & K1). destruct E2 as (n2 & E2 & F2 & K2).
  assert (Hg : gap (PFloat subtotal) expected = Ok magnitude).
  { unfold gap. now rewrite Hd. }
  destruct b; injection H3 as _ <-.
  - exists (n1 ++ n2 ++ [subtotal_error (i + 1) expected (PFloat subtotal)]).
    split; [simpl; rewrite E2, E1; now rewrite <- !app_assoc | ].
    split; [rewrite !Forall_app; repeat split; try assumption; now repeat constructor | ].
    exists q, u, s, quantity, unit_price, subtotal, expected, magnitude, true.
    repeat match goal with |- _ /\ _ => split end; try assumption.
    rewrite !filter_app, K1, K2. simpl. now rewrite Z.eqb_refl.
  - exists (n1 ++ n2).
    split; [rewrite E2, E1; now rewrite <- !app_assoc | ].
    split; [rewrite !Forall_app; now split | ].
    exists q, u, s, quantity, unit_price, subtotal, expected, magnitude, false.
    repeat match goal with |- _ /\ _ => split end; try assumption.
    now rewrite !filter_app, K1, K2.
Qed.

End XmlSubtotal.

Lemma J_check_item_outcome i item ok self self' :
  J.check_item i item self = (Ok ok, self') ->
  exists new,
    J.errors self' = J.errors self ++ new /\
    Forall (fun m => item_number m = Some (i + 1)) new /\
    J_item_outcome i item new.
Proof.
  intros H.
  destruct (J_check_item_errors i item ok self self' H)
    as (new & q & u & s & e & m & b & E & F & K).
  exists new. split; [exact E | ]. split; [exact F | ].
  now exists q, u, s, e, m, b.
Qed.



(** ** C9: a single [item] child *)

Section Normalization.

Lemma dict_get_set_same k v d : dict_get k (dict_set k v d) = Some v.
Proof.
  induction d as [ | [k' v'] d IH]; simpl.
  - now rewrite String.eqb_refl.
  - destruct (String.eqb k k') eqn:E; simpl; rewrite E; [reflexivity | exact IH].
Qed.

Lemma dict_get_set_other k k' v d :
  String.eqb k k' = false -> dict_get k (dict_set k' v d) = dict_get k d.
Proof.
  intros N. induction d as [ | [k0 v0] d IH]; simpl.
  - now rewrite N.
  - destruct (String.eqb k' k0) eqn:E; simpl.
    + apply String.eqb_eq in E. subst k0. now rewrite N.
    + destruct (String.eqb k k0); [reflexivity | exact IH].
Qed.

Lemma dict_get_add_child_other k t v d :
  String.eqb k t = false -> dict_get k (X.add_child d t v) = dict_get k d.
Proof.
  intros N. unfold X.add_child.
  destruct (dict_get t d) as [[ | | | | | | ] | ]; now apply dict_get_set_other.
Qed.

Lemma dict_get_add_child_new k v d :
  dict_get k d = None -> dict_get k (X.add_child d k v) = Some v.
Proof. intros N. unfold X.add_child. rewrite N. apply dict_get_set_same. Qed.

Lemma xml_to_dict_eq t attrib text children :
  X.xml_to_dict (X.Element t attrib text children)
  = match X.stripped_text text with
    | Some s =>
        match children with
        | [] => PStr s
        | _ => PDict (children_dict (dict_set "#text" (PStr s) (X.add_attributes attrib))
                        children)
        end
    | None => PDict (children_dict (X.add_attributes attrib) children)
    end.
Proof. reflexivity. Qed.

Lemma children_dict_other k children : forall base,
  Forall (fun c => String.eqb k (X.tag c) = false) children ->
  dict_get k (children_dict base children) = dict_get k base.
Proof.
  induction children as [ | c children IH]; intros base F; [reflexivity | ].
  inversion F as [ | ? ? Hc F']; subst. unfold children_dict in *. simpl.
  rewrite (IH _ F'). now apply dict_get_add_child_other.
Qed.

(** Keys of attributes start with an at sign. *)
Lemma add_attributes_other k attrib :
  (forall a, String.eqb k ("@" ++ a) = false) ->
  dict_get k (X.add_attributes attrib) = None.
Proof.
  intros N. unfold X.add_attributes.
  assert (G : forall base, dict_get k base = None ->
              dict_get k (fold_left
                            (fun result kv => dict_set ("@" ++ fst kv) (PStr (snd kv)) result)
                            attrib base) = None).
  { induction attrib as [ | kv attrib IH]; intros base Hb; [exact Hb | ].
    simpl. apply IH. rewrite dict_get_set_other; [exact Hb | apply N]. }
  now apply G.
Qed.

(** The entry of a tag that exactly one child carries is the converted
    child itself, not a list. *)
Lemma xml_to_dict_only_child k t attrib text pre child post :
  (forall a, String.eqb k ("@" ++ a) = false) ->
  String.eqb k "#text" = false ->
  X.tag child = k ->
  Forall (fun c => String.eqb k (X.tag c) = false) pre ->
  Forall (fun c => String.eqb k (X.tag c) = false) post ->
  exists d,
    X.xml_to_dict (X.Element t attrib text (pre ++ child :: post)) = PDict d /\
    dict_get k d = Some (X.xml_to_dict child).
Proof.
  intros Na Nt Hk Fpre Fpost. rewrite xml_to_dict_eq.
  assert (G : forall base, dict_get k base = None ->
              dict_get k (children_dict base (pre ++ child :: post))
              = Some (X.xml_to_dict child)).
  { intros base Hb. unfold children_dict. rewrite fold_left_app. simpl.
    fold (children_dict base pre).
    fold (children_dict
            (X.add_child (children_dict base pre) (X.tag child) (X.xml_to_dict child)) post).
    rewrite (children_dict_other k post _ Fpost), Hk.
    apply dict_get_add_child_new. now rewrite (children_dict_other k pre _ Fpre). }
  destruct (X.stripped_text text) as [s | ].
  - exists (children_dict (dict_set "#text" (PStr s) (X.add_attributes attrib))
              (pre ++ child :: post)).
    split.
    + destruct pre; reflexivity.
    + apply G. rewrite dict_get_set_other; [ | exact Nt].
      now apply add_attributes_other.
  - eexists. split; [reflexivity | ]. apply G. now apply add_attributes_other.
Qed.

End Normalization.

(** C9, as stated, fails: an [items] node whose only [item] child holds
    text and nothing else is a tree in its scope, and normalization stores
    that child as the string of its text, not as a map; the item-count rule
    then counts the characters of the string (six, so the rule passes). *)
Lemma C9_text_item_counts_characters :
  let root := Sample.xml_receipt [Sample.leaf "item" "Butter"] Sample.card "3.00" "3.00" in
  let self := X.__init__ "receipt.xml" "receipt.xsd" in
  X.get_items (X.xml_to_dict root) = Ok (PStr "Butter") /\
  (forall fields, X.get_items (X.xml_to_dict root) <> Ok (PDict fields)) /\
  X.rule_item_count (X.xml_to_dict root) self
  = (Ok true,
     snd (X.warnings_append
            [Lit "Item count validation passed: "; Fmt (PInt 6); Lit " items"] self)).
Proof.
  intros root self.
  split; [vm_compute; reflexivity | ].
  split; [intros fields C; vm_compute in C; discriminate C | vm_compute; reflexivity].
Qed.

(** C9 (amended): in a tree whose root has exactly one [items] child and
    whose [items] node has exactly one [item] child, wherever they stand
    among their siblings, normalization stores the conversion of that
    [item] itself under [items.item], not a one-element list: the stripped
    text when the item has text and no child element, a map otherwise.  The
    item-count rule then counts the length [n] of that value, the characters
    of the text or the entries of the map, and reports "Found: n" or
    "passed: n items" instead of counting one item. *)
Theorem C9_single_item_counts_fields
  (rtag : string) (rattrib iattrib jattrib : list (string * string))
  (rtext itext jtext : option string)
  (pre post ipre ipost jchildren : list X.element) :
  let item := X.Element "item" jattrib jtext jchildren in
  let items_node := X.Element "items" iattrib itext (ipre ++ item :: ipost) in
  let root := X.Element rtag rattrib rtext (pre ++ items_node :: post) in
  Forall (fun c => String.eqb "items" (X.tag c) = false) pre ->
  Forall (fun c => String.eqb "items" (X.tag c) = false) post ->
  Forall (fun c => String.eqb "item" (X.tag c) = false) ipre ->
  Forall (fun c => String.eqb "item" (X.tag c) = false) ipost ->
  X.get_items (X.xml_to_dict root) = Ok (X.xml_to_dict item) /\
  exists n,
    (forall text,
       X.stripped_text jtext = Some text -> jchildren = [] ->
       X.xml_to_dict item = PStr text /\ n = Z.of_nat (String.length text)) /\
    (X.stripped_text jtext = None \/ jchildren <> [] ->
     exists fields,
       X.xml_to_dict item = PDict fields /\ n = Z.of_nat (List.length fields)) /\
    forall self,
      X.rule_item_count (X.xml_to_dict root) self
      = if n <? 5
        then (Ok false,
              snd (X.errors_append
                     [Lit "Receipt must contain at least 5 items. Found: "; Fmt (PInt n)]
                     self))
        else (Ok true,
              snd (X.warnings_append
                     [Lit "Item count validation passed: "; Fmt (PInt n); Lit " items"]
                     self)).
Proof.
  intros item items_node root Fpre Fpost Fipre Fipost.
  destruct (xml_to_dict_only_child "items" rtag rattrib rtext pre items_node post
              (fun _ => eq_refl) eq_refl eq_refl Fpre Fpost) as (d & Ed & Gd).
  destruct (xml_to_dict_only_child "item" "items" iattrib itext ipre item ipost
              (fun _ => eq_refl) eq_refl eq_refl Fipre Fipost)
    as (di & Edi & Gdi).
  assert (G : X.get_items (X.xml_to_dict root) = Ok (X.xml_to_dict item)).
  { unfold X.get_items, root. rewrite Ed.
    cbv beta iota delta [py_get rbind]. rewrite Gd.
    cbv beta iota delta [py_get rbind].
    unfold items_node. rewrite Edi.
    cbv beta iota. now rewrite Gdi. }
  split; [exact G | ].
  assert (R : forall n, py_len (X.xml_to_dict item) = Ok n ->
              forall self,
                X.rule_item_count (X.xml_to_dict root) self
                = if n <? 5
                  then (Ok false,
                        snd (X.errors_append
                               [Lit "Receipt must contain at least 5 items. Found: ";
                                Fmt (PInt n)] self))
                  else (Ok true,
                        snd (X.warnings_append
                               [Lit "Item count validation passed: "; Fmt (PInt n);
                                Lit " items"] self))).
  { intros n Hn self. unfold X.rule_item_count, bind, lift. rewrite G, Hn.
    now destruct (n <? 5). }
  unfold item in *. rewrite xml_to_dict_eq in *.
  destruct (X.stripped_text jtext) as [text | ].
  - destruct jchildren as [ | c jchildren].
    + exists (Z.of_nat (String.length text)). split; [ | split].
      * intros text' E _. now injection E as <-.
      * intros [C | C]; [discriminate C | now destruct C].
      * now apply R.
    + eexists. split; [ | split].
      * intros text' _ C. discriminate C.
      * intros _. eexists. split; reflexivity.
      * now apply R.
  - eexists. split; [ | split].
    + intros text' C. discriminate C.
    + intros _. eexists. split; reflexivity.
    + now apply R.
Qed.

(** One item with five fields passes the item-count rule. *)
Lemma C9_single_item_counts_fields_witness :
  let item := Sample.xml_item "Milk" "2" "1.50" "3.00" "true" in
  let root := Sample.xml_receipt [item] Sample.card "3.00" "3.00" in
  let self := X.__init__ "receipt.xml" "receipt.xsd" in
  X.get_items (X.xml_to_dict root)
  = Ok (PDict [("name", PStr "Milk"); ("quantity", PStr "2"); ("unit_price", PStr "1.50");
               ("subtotal", PStr "3.00"); ("tax_applied", PStr "true")]) /\
  X.rule_item_count (X.xml_to_dict root) self
  = (Ok true,
     snd (X.warnings_append
            [Lit "Item count validation passed: "; Fmt (PInt 5); Lit " items"] self)).
Proof.
  intros item root self.
  destruct (C9_single_item_counts_fields "receipt" [] [] [] (Some "  ") None None
              (Sample.xml_header "amina@example.com")
              (Sample.xml_footer Sample.card "3.00" "3.00")
              [] []
              [Sample.leaf "name" "Milk"; Sample.leaf "quantity" "2";
               Sample.leaf "unit_price" "1.50"; Sample.leaf "subtotal" "3.00";
               Sample.leaf "tax_applied" "true"])
    as (G & n & _ & Hd & R).
  - repeat constructor.
  - repeat constructor.
  - constructor.
  - constructor.
  - destruct (Hd (or_introl eq_refl)) as (fields & Ef & En).
    vm_compute in Ef. injection Ef as <-. vm_compute in En. subst n.
    split; [exact G | exact (R self)].
Defined.

(** ** C4: the minimum item count *)

(** C4 fails on the code for a tree with exactly one [item]: the receipt
    below has one item, with five fields, and the item-count rule of the XML
    validator appends the warning "Item count validation passed: 5 items"
    and no error, because the single child is stored as a map and its
    entries are counted.  The same tree with two items, and the JSON
    document with the one item in a list, get the one error the claim
    requires. *)
Theorem C4_single_item_passes_item_count :
  let milk := Sample.xml_item "Milk" "2" "1.50" "3.00" "true" in
  let bread := Sample.xml_item "Bread" "1" "2.25" "2.25" "false" in
  let count_rule items :=
    X.rule_item_count (X.xml_to_dict (Sample.xml_receipt items Sample.card "3.00" "3.00"))
      (X.__init__ "receipt.xml" "receipt.xsd") in
  let found n := [Lit "Receipt must contain at least 5 items. Found: "; Fmt (PInt n)] in
  let passed n := [Lit "Item count validation passed: "; Fmt (PInt n); Lit " items"] in
  (fst (count_rule [milk]) = Ok true /\
   X.errors (snd (count_rule [milk])) = [] /\
   X.warnings (snd (count_rule [milk])) = [passed 5]) /\
  (fst (count_rule [milk; bread]) = Ok false /\
   X.errors (snd (count_rule [milk; bread])) = [found 2] /\
   X.warnings (snd (count_rule [milk; bread])) = []) /\
  J.rule_item_count
    (Sample.with_field "items" (PList [Sample.item "Milk" 2 1.5 3 true]) Sample.receipt)
    (J.__init__ "receipt.json" None)
  = (Ok (PList [Sample.item "Milk" 2 1.5 3 true], false),
     J_with_errors (J.__init__ "receipt.json" None) [found 1]).
Proof. vm_compute. repeat split; reflexivity. Qed.

(** ** C6: credit card payments *)

Lemma J_with_errors_nil self : J_with_errors self [] = self.
Proof. destruct self. unfold J_with_errors. simpl. now rewrite app_nil_r. Qed.

Lemma X_with_errors_nil self : X_with_errors self [] = self.
Proof. destruct self. unfold X_with_errors. simpl. now rewrite app_nil_r. Qed.

(** C6, as stated, fails on the XML validator: a tree with payment method
    "Credit Card", a card type and the last four digits "12" produces no
    error at all, while the JSON validator reports the 4-digit error for the
    corresponding document. *)
Lemma C6_xml_accepts_two_digits :
  let root :=
    Sample.xml_receipt Sample.five_xml_items
      [Sample.leaf "card_type" "Visa"; Sample.leaf "card_number_last_four" "12"]
      "19.00" "19.00" in
  let data :=
    Sample.with_field "payment"
      (PDict [("card_type", PStr "Visa"); ("card_number_last_four", PStr "12")])
      Sample.receipt in
  py_get (X.xml_to_dict root) "payment_method" PNone = Ok (PStr "Credit Card") /\
  py_get (X.xml_to_dict root) "payment" (PDict [])
  = Ok (PDict [("card_type", PStr "Visa"); ("card_number_last_four", PStr "12")]) /\
  option_map X.report_errors
    (to_option (fst (X.generate_report Sample.runtime (Sample.xml_world root)
                       (X.__init__ "receipt.xml" "receipt.xsd")))) = Some [] /\
  option_map J.report_errors
    (to_option (fst (J.generate_report Sample.runtime
                       (Sample.json_world false J.SchemaValid data)
                       (J.__init__ "receipt.json" None))))
  = Some [card_digits_error (PStr "12")].
Proof. vm_compute. repeat split; reflexivity. Qed.

(** What the payment rules of the two validators compute on a [payment] map
    whose [card_number_last_four] is absent or a string [s] ([s] is the
    empty default when it is absent). *)
Lemma payment_rules_run (data : pyval) (pd : dict) (s : string) :
  py_get data "payment_method" PNone = Ok (PStr "Credit Card") ->
  py_get data "payment" (PDict []) = Ok (PDict pd) ->
  py_get (PDict pd) "card_number_last_four" (PStr "") = Ok (PStr s) ->
  let card_type := match dict_get "card_type" pd with Some v => v | None => PNone end in
  let missing := negb (truthy card_type) || String.eqb s "" in
  (forall self,
     J.rule_payment data self
     = (Ok (negb missing && four_digits s),
        J_with_errors self
          ((if missing then [card_fields_error] else [])
           ++ (if four_digits s then [] else [card_digits_error (PStr s)])))) /\
  (forall self,
     X.rule_payment data self
     = (Ok (negb missing),
        X_with_errors self (if missing then [card_fields_error] else []))).
Proof.
  intros Hm Hp Hs card_type missing.
  assert (Hc : py_get (PDict pd) "card_type" PNone = Ok card_type).
  { unfold card_type. simpl. now destruct (dict_get "card_type" pd). }
  assert (Hl : forall v, py_get (PDict pd) "card_number_last_four" PNone = Ok v ->
               truthy v = negb (String.eqb s "")).
  { intros v Hv. simpl in Hs, Hv.
    destruct (dict_get "card_number_last_four" pd) as [w | ].
    - injection Hs as ->. now injection Hv as <-.
    - injection Hs as <-. now injection Hv as <-. }
  assert (Hmiss : (if negb (truthy card_type) then Ok true
                   else let? last_four := py_get (PDict pd) "card_number_last_four" PNone in
                        Ok (negb (truthy last_four))) = Ok missing).
  { unfold missing. destruct (truthy card_type); [ | reflexivity].
    cbv beta iota delta [negb orb].
    destruct (py_get (PDict pd) "card_number_last_four" PNone) as [v | e] eqn:E.
    - unfold rbind. rewrite (Hl v eq_refl). now destruct (String.eqb s "").
    - simpl in E. now destruct (dict_get "card_number_last_four" pd). }
  split; intros self.
  - unfold J.rule_payment, bind, lift. rewrite Hm, Hp.
    cbv beta iota delta [J.is_credit_card String.eqb Ascii.eqb Bool.eqb].
    unfold J.check_card_fields, bind, lift. rewrite Hc, Hmiss.
    unfold J.check_card_number, bind, lift. rewrite Hs.
    assert (Hd : (let? left := (if truthy (PStr s)
                                then let? digits := py_isdigit (PStr s) in Ok (negb digits)
                                else Ok false) in
                  if (left : bool) then Ok true
                  else let? n := py_len (PStr s) in Ok (negb (n =? 4)))
                 = Ok (negb (four_digits s))).
    { unfold four_digits, str_isdigit. simpl.
      destruct (String.eqb s "") eqn:E; simpl.
      - apply String.eqb_eq in E. now subst s.
      - unfold str_isdigit. rewrite E. simpl. now destruct (all_chars isdigit_char s). }
    destruct missing; cbv beta iota delta [J.errors_append ret].
    + rewrite Hd. destruct (four_digits s); simpl.
      * reflexivity.
      * unfold J_with_errors. simpl. now rewrite <- app_assoc.
    + rewrite Hd. destruct (four_digits s); simpl.
      * now rewrite J_with_errors_nil.
      * reflexivity.
  - unfold X.rule_payment, bind, lift. rewrite Hm, Hp.
    cbv beta iota delta [X.is_credit_card String.eqb Ascii.eqb Bool.eqb].
    rewrite Hc, Hmiss. destruct missing; simpl.
    + reflexivity.
    + now rewrite X_with_errors_nil.
Qed.

(** C6 (amended): for payment method "Credit Card" and a [payment] map whose
    [card_number_last_four] is absent or a string [s] ([s] empty when
    absent): both validators append the completeness error exactly when
    [card_type] or [card_number_last_four] is absent or empty, and then
    answer [False].  When the number is a non-empty string, the JSON
    validator appends after it the 4-digit error exactly when [s] is not a
    string of exactly four digits, and nothing else.  The XML validator has
    no 4-digit check and appends nothing beyond the completeness error. *)
Theorem C6_credit_card_checks (data : pyval) (pd : dict) (s : string) :
  py_get data "payment_method" PNone = Ok (PStr "Credit Card") ->
  py_get data "payment" (PDict []) = Ok (PDict pd) ->
  py_get (PDict pd) "card_number_last_four" (PStr "") = Ok (PStr s) ->
  let card_type := match dict_get "card_type" pd with Some v => v | None => PNone end in
  let missing := negb (truthy card_type) || String.eqb s "" in
  (forall self,
     exists ok rest,
       J.rule_payment data self
       = (Ok ok,
          J_with_errors self ((if missing then [card_fields_error] else []) ++ rest)) /\
       ~ In card_fields_error rest /\
       (missing = true -> ok = false) /\
       (s <> "" ->
        ok = negb missing && four_digits s /\
        rest = if four_digits s then [] else [card_digits_error (PStr s)])) /\
  (forall self,
     X.rule_payment data self
     = (Ok (negb missing),
        X_with_errors self (if missing then [card_fields_error] else []))).
Proof.
  intros Hm Hp Hs card_type missing.
  destruct (payment_rules_run data pd s Hm Hp Hs) as (HJ & HX).
  split; [ | exact HX].
  intros self.
  exists (negb missing && four_digits s),
    (if four_digits s then [] else [card_digits_error (PStr s)]).
  split; [exact (HJ self) | ]. split.
  - destruct (four_digits s); [intros [] | ]. intros [C | []]. discriminate C.
  - split; [ | now intros _].
    fold missing. now intros ->.
Qed.

(** Scenario C: the last four digits are "12". *)
Lemma C6_credit_card_checks_witness :
  let pd := [("card_type", PStr "Visa"); ("card_number_last_four", PStr "12")] in
  let data := Sample.with_field "payment" (PDict pd) Sample.receipt in
  let self := J.__init__ "receipt.json" None in
  let xself := X.__init__ "receipt.xml" "receipt.xsd" in
  four_digits "12" = false /\
  J.rule_payment data self
  = (Ok false, J_with_errors self [card_digits_error (PStr "12")]) /\
  X.rule_payment data xself = (Ok true, X_with_errors xself []).
Proof.
  intros pd data self xself.
  destruct (C6_credit_card_checks data pd "12" eq_refl eq_refl eq_refl) as (HJ & HX).
  split; [reflexivity | split].
  - destruct (HJ self) as (ok & rest & E & _ & _ & Hn).
    destruct Hn as (-> & ->); [discriminate | ]. exact E.
  - exact (HX xself).
Defined.

(** ** C2: the two encodings *)

(** C2, as stated, fails.  First, for the tree of the sample receipt (which
    the XML validator accepts without error) and the map that is its own
    normalization, the JSON validator raises in its item loop and returns
    no report.  Second, for the tree and the JSON document that carry the
    same fields and values in the same order, with the email
    "amina.example.com", the XML validator reports no error and the JSON
    validator reports the invalid email. *)
Lemma C2_encodings_disagree :
  let root := Sample.xml_receipt Sample.five_xml_items Sample.card "19.00" "19.00" in
  let xml_run r :=
    to_option (fst (X.generate_report Sample.runtime (Sample.xml_world r)
                      (X.__init__ "receipt.xml" "receipt.xsd"))) in
  let json_run d :=
    fst (J.generate_report Sample.runtime (Sample.json_world false J.SchemaValid d)
           (J.__init__ "receipt.json" None)) in
  let root' :=
    Sample.xml_receipt_of "amina.example.com" Sample.five_xml_items Sample.card
      "19.00" "19.00" in
  let data' :=
    Sample.with_field "customer"
      (PDict [("name", PStr "Amina"); ("email", PStr "amina.example.com");
              ("loyalty_member", PBool true); ("member_since", PStr "2020-05-01")])
      Sample.receipt in
  (option_map X.report_errors (xml_run root) = Some [] /\
   json_run (X.xml_to_dict root) = Raise AttributeError) /\
  (option_map X.report_errors (xml_run root') = Some [] /\
   option_map J.report_errors (to_option (json_run data'))
   = Some [[Lit "Invalid email format: "; Fmt (PStr "amina.example.com")]]).
Proof. vm_compute. repeat split; reflexivity. Qed.

Ltac split_runs :=
  repeat match goal with
         | |- context [match ?x with _ => _ end] => destruct x; simpl
         | |- context [if ?b then _ else _] => destruct b; simpl
         end.

(** C2 (amended): the validators are two programs with different rule
    lists, and only the tree is normalized.  On one and the same canonical
    map, started from the same findings, the total rule, the loyalty rule
    and the signature rule of the JSON validator and of the XML validator
    end the same way and leave the same errors and warnings. *)
Theorem C2_shared_rules_agree
  (B : builtins) (data : pyval) (sj : J.validator) (sx : X.validator) :
  same_findings sj sx ->
  (fst (J.rule_total_amount B data sj) = fst (X.rule_total_amount B data sx) /\
   same_findings (snd (J.rule_total_amount B data sj))
     (snd (X.rule_total_amount B data sx))) /\
  (outcome (fst (J.rule_loyalty data sj)) = outcome (fst (X.rule_loyalty data sx)) /\
   same_findings (snd (J.rule_loyalty data sj)) (snd (X.rule_loyalty data sx))) /\
  (fst (J.rule_signature data sj) = fst (X.rule_signature data sx) /\
   same_findings (snd (J.rule_signature data sj)) (snd (X.rule_signature data sx))).
Proof.
  intros [He Hw]. unfold same_findings.
  split; [ | split].
  - unfold J.rule_total_amount, X.rule_total_amount, bind, lift, ret. simpl.
    split_runs; rewrite ?He, ?Hw; auto.
  - unfold J.rule_loyalty, X.rule_loyalty, bind, lift, ret.
    destruct (py_get data "customer" (PDict [])) as [customer | e]; [ | now simpl].
    destruct (py_get customer "loyalty_member" PNone) as [loyalty | e]; [ | now simpl].
    destruct (truthy loyalty); [ | now simpl].
    destruct (py_get customer "member_since" PNone) as [since | e]; [ | now simpl].
    destruct (truthy since); simpl; rewrite ?He, ?Hw; auto.
  - unfold J.rule_signature, X.rule_signature, bind, lift, ret. simpl.
    split_runs; rewrite ?He, ?Hw; auto.
Qed.

Lemma C2_shared_rules_agree_witness :
  let data :=
    X.xml_to_dict (Sample.xml_receipt Sample.five_xml_items Sample.card "100.00" "100.02") in
  let sj := J.__init__ "receipt.json" None in
  let sx := X.__init__ "receipt.xml" "receipt.xsd" in
  same_findings sj sx /\
  J.errors (snd (J.rule_total_amount Sample.runtime data sj)) = [total_mismatch 100 100.02] /\
  (fst (J.rule_total_amount Sample.runtime data sj)
   = fst (X.rule_total_amount Sample.runtime data sx) /\
   same_findings (snd (J.rule_total_amount Sample.runtime data sj))
     (snd (X.rule_total_amount Sample.runtime data sx))).
Proof.
  intros data sj sx.
  assert (S0 : same_findings sj sx) by (split; reflexivity).
  split; [exact S0 | split; [vm_compute; reflexivity | ]].
  exact (proj1 (C2_shared_rules_agree Sample.runtime data sj sx S0)).
Defined.

(** ** C3: a rule that cannot evaluate *)

(** C3 fails on the code for a non-numeric [total_amount]; the claim is the
    intended behaviour (the date rule beside it catches its own failure, and
    [validate_data_types] has a "must be numeric" finding for this very
    field).  With ["total_amount": "abc"] the JSON validator raises
    [ValueError] out of [generate_report]: no report, no finding for the
    total check, and none of the later checks runs.  The XML validator turns
    the exception into one generic error and skips the rules after rule 3:
    the missing digital signature of the second tree goes unreported.  An
    unparseable [purchase_date], in contrast, becomes a finding and the
    later rules run. *)
Theorem C3_non_numeric_total_aborts :
  let json_run d :=
    J.generate_report Sample.runtime (Sample.json_world false J.SchemaValid d)
      (J.__init__ "receipt.json" None) in
  let xml_errors r :=
    option_map X.report_errors
      (to_option (fst (X.generate_report Sample.runtime (Sample.xml_world r)
                         (X.__init__ "receipt.xml" "receipt.xsd")))) in
  let unsigned payment total grand_total :=
    X.Element "receipt" [] None
      (Sample.xml_header "amina@example.com"
       ++ Sample.node "items" Sample.five_xml_items
       :: firstn 6 (Sample.xml_footer payment total grand_total)) in
  fst (json_run (Sample.with_field "total_amount" (PStr "abc") Sample.receipt))
  = Raise ValueError /\
  J.errors (snd (json_run (Sample.with_field "total_amount" (PStr "abc") Sample.receipt)))
  = [] /\
  xml_errors (unsigned Sample.card "19.00" "19.00")
  = Some [[Lit "Digital signature must include algorithm and signature"]] /\
  xml_errors (unsigned Sample.card "abc" "19.00")
  = Some [[Lit "XML content validation failed: "; FmtExn ValueError]] /\
  option_map J.report_errors
    (to_option (fst (json_run (Sample.with_field "purchase_date" (PStr "yesterday")
                                 (Sample.with_field "digital_signature" (PDict [])
                                    Sample.receipt)))))
  = Some [[Lit "Invalid date format: "; FmtExn ValueError];
          [Lit "Digital signature must include algorithm and signature"];
          [Lit "Field 'purchase_date' must be valid ISO date. Found: ";
           Fmt (PStr "yesterday")]].
Proof. vm_compute. repeat split; reflexivity. Qed.

(** ** C8: running the validation twice *)

Section SecondRun.

Variable B : builtins.

Lemma J_grows_findings s s' : J_grows s s' -> (J_findings s <= J_findings s')%nat.
Proof.
  intros ([es E] & [ws Ew] & _). unfold J_findings.
  rewrite E, Ew, !length_app. lia.
Qed.

Lemma J_rule_item_count_findings data s r t :
  J.rule_item_count data s = (Ok r, t) -> (J_findings s < J_findings t)%nat.
Proof.
  unfold J.rule_item_count. intros H.
  apply bind_Ok in H as (items & s1 & H1 & H).
  apply bind_Ok in H as (n & s2 & H2 & H).
  unfold lift in H1, H2. injection H1 as _ <-. injection H2 as _ <-.
  destruct (n <? 5); injection H as _ <-;
    unfold J_findings; simpl; rewrite length_app; simpl; lia.
Qed.

(** Every run that returns a report has appended at least one finding. *)
Lemma J_generate_report_appends W s r s' :
  J.generate_report B W s = (Ok r, s') ->
  J.report_errors r = J.errors s' /\
  J.report_warnings r = J.warnings s' /\
  exists es ws,
    J.errors s' = J.errors s ++ es /\
    J.warnings s' = J.warnings s ++ ws /\
    (es <> [] \/ ws <> []).
Proof.
  intros H.
  assert (K : forall es ws,
             J.errors s' = J.errors s ++ es -> J.warnings s' = J.warnings s ++ ws ->
             (J_findings s < J_findings s')%nat -> es <> [] \/ ws <> []).
  { intros es ws E Ew L. unfold J_findings in L. rewrite E, Ew, !length_app in L.
    destruct es; [ | left; discriminate]. destruct ws; [ | right; discriminate].
    simpl in L. lia. }
  destruct (J.file_content W) as [data | text | text] eqn:L.
  - destruct (J_generate_report_stages B W s r s' data L H)
      as (s1 & s2 & s3 & sv & cv & tv & totals & _ & D1 & E1 & W1 & _ & _ & Hc & G12 & G3 & ->).
    split; [reflexivity | ]. split; [reflexivity | ].
    assert (G : J_grows s1 s').
    { eapply J_grows_trans; [exact G12 | ].
      eapply J_grows_trans; [eapply J_keeps_validate_business_rules, Hc | exact G3]. }
    destruct G as ([es E] & [ws Ew] & _).
    exists es, ws. rewrite <- E1, <- W1.
    split; [exact E | ]. split; [exact Ew | ].
    apply K; [now rewrite <- E1 | now rewrite <- W1 | ].
    assert (L0 : J_findings s = J_findings s1) by (unfold J_findings; now rewrite E1, W1).
    assert (L23 : (J_findings s2 < J_findings s3)%nat).
    { destruct (truthy (J.json_data s2)) eqn:T.
      - destruct (J_validate_business_rules_stages B W s2 cv s3 T Hc)
          as (items & ok1 & t1 & ok2 & t2 & ok3 & t3 & ok4 & t4 & H1 & H2 & H3 & H4 & G4).
        apply J_rule_item_count_findings in H1.
        apply J_keeps_rule_purchase_date, J_grows_findings in H2.
        apply J_keeps_rule_total_amount, J_grows_findings in H3.
        apply J_keeps_rule_items, J_grows_findings in H4.
        apply J_grows_findings in G4. lia.
      - rewrite (J_validate_business_rules_empty B W s2 T) in Hc.
        injection Hc as _ <-. unfold J_findings. simpl. rewrite length_app. simpl. lia. }
    apply J_grows_findings in G12, G3. lia.
  - unfold J.generate_report, J.load_json in H. rewrite L in H. injection H as <- <-.
    simpl. repeat split. eexists. exists []. split; [reflexivity | ].
    split; [now rewrite app_nil_r | left; discriminate].
  - unfold J.generate_report, J.load_json in H. rewrite L in H. injection H as <- <-.
    simpl. repeat split. eexists. exists []. split; [reflexivity | ].
    split; [now rewrite app_nil_r | left; discriminate].
Qed.

End SecondRun.

(** C8 fails on the code when the validation is run a second time on the
    same validator object, as [main] does for [--json-report]: the lists are
    emptied only in [__init__], so the second report repeats the findings of
    the first and adds its own, at least one.  The first report, whose list
    entries are the same objects, then shows the longer lists too. *)
Theorem C8_second_run_accumulates
  (B : builtins) (W1 W2 : J.world) (self s1 s2 : J.validator) (r1 r2 : J.report) :
  J.generate_report B W1 self = (Ok r1, s1) ->
  J.generate_report B W2 s1 = (Ok r2, s2) ->
  (exists es ws,
     J.report_errors r2 = J.report_errors r1 ++ es /\
     J.report_warnings r2 = J.report_warnings r1 ++ ws /\
     (es <> [] \/ ws <> [])) /\
  (J.report_errors r2 <> J.report_errors r1 \/
   J.report_warnings r2 <> J.report_warnings r1) /\
  J.report_errors (J.reread s2 r1) = J.report_errors r2 /\
  J.report_warnings (J.reread s2 r1) = J.report_warnings r2.
Proof.
  intros H1 H2.
  destruct (J_generate_report_appends B W1 self r1 s1 H1) as (E1 & V1 & _).
  destruct (J_generate_report_appends B W2 s1 r2 s2 H2) as (E2 & V2 & es & ws & E & V & N).
  assert (A : exists es ws,
             J.report_errors r2 = J.report_errors r1 ++ es /\
             J.report_warnings r2 = J.report_warnings r1 ++ ws /\
             (es <> [] \/ ws <> [])).
  { exists es, ws. rewrite E1, E2, V1, V2. auto. }
  split; [exact A | ]. split.
  - destruct A as (es' & ws' & Ee & Ew & [Ne | Nw]).
    + left. rewrite Ee. intros C. apply Ne.
      rewrite <- (app_nil_r (J.report_errors r1)) in C at 2.
      now apply app_inv_head in C.
    + right. rewrite Ew. intros C. apply Nw.
      rewrite <- (app_nil_r (J.report_warnings r1)) in C at 2.
      now apply app_inv_head in C.
  - rewrite E2, V2. now destruct r1.
Qed.

(** The receipt without a digital signature, validated by [main] with
    [--json-report]: the report printed first has one error and one warning,
    the report saved afterwards has each of them twice. *)
Lemma C8_second_run_accumulates_witness :
  let data := Sample.with_field "digital_signature" (PDict []) Sample.receipt in
  let W := Sample.json_world true J.SchemaValid data in
  let signature := [Lit "Digital signature must include algorithm and signature"] in
  let passed := [Lit "Item count validation passed: "; Fmt (PInt 5); Lit " items"] in
  exists r1 s1 r2 s2,
    J.generate_report Sample.runtime W (J.__init__ "receipt.json" (Some "schema.json"))
    = (Ok r1, s1) /\
    J.generate_report Sample.runtime W s1 = (Ok r2, s2) /\
    J.main Sample.runtime W W "receipt.json" "schema.json" (Some "report.json")
    = Ok (false, Some r2) /\
    J.report_errors r1 = [signature] /\ J.report_warnings r1 = [passed] /\
    J.report_errors r2 = [signature; signature] /\
    J.report_warnings r2 = [passed; passed] /\
    (J.report_errors r2 <> J.report_errors r1 \/
     J.report_warnings r2 <> J.report_warnings r1).
Proof.
  intros data W signature passed.
  eexists. eexists. eexists. eexists.
  split; [vm_compute; reflexivity | ].
  split; [vm_compute; reflexivity | ].
  split; [vm_compute; reflexivity | ].
  split; [reflexivity | ]. split; [reflexivity | ].
  split; [reflexivity | ]. split; [reflexivity | ].
  eapply (C8_second_run_accumulates Sample.runtime W W
            (J.__init__ "receipt.json" (Some "schema.json"))).
  - vm_compute. reflexivity.
  - vm_compute. reflexivity.
Defined.

(** ** Flags and error lists agree *)

Section Flags.

Context {S : Type}.
Variable errs : S -> list message.

Lemma flagged_refl s : flagged errs s true s.
Proof. exists []. rewrite app_nil_r. tauto. Qed.

Lemma flagged_trans s ok1 s1 ok2 s2 :
  flagged errs s ok1 s1 -> flagged errs s1 ok2 s2 -> flagged errs s (ok1 && ok2) s2.
Proof.
  intros (es1 & E1 & H1) (es2 & E2 & H2). exists (es1 ++ es2). split.
  - now rewrite E2, E1, app_assoc.
  - rewrite andb_true_iff, H1, H2. split.
    + now intros [-> ->].
    + apply app_eq_nil.
Qed.

(** The flag is set exactly when the error list is the same afterwards. *)
Lemma flagged_iff s ok s' : flagged errs s ok s' -> (ok = true <-> errs s' = errs s).
Proof.
  intros (es & E & H). rewrite H, E. split.
  - intros ->. apply app_nil_r.
  - intros H'. rewrite <- (app_nil_r (errs s)) in H' at 2.
    now apply app_inv_head in H'.
Qed.

Lemma flagged_false s s' m es : errs s' = errs s ++ m :: es -> flagged errs s false s'.
Proof. intros E. exists (m :: es). split; [exact E | split; discriminate]. Qed.

Lemma flagged_extends s ok s' : flagged errs s ok s' -> extends errs s s'.
Proof. intros (es & E & _). now exists es. Qed.

Lemma flagged_after s s1 ok s2 :
  errs s1 = errs s -> flagged errs s1 ok s2 -> flagged errs s ok s2.
Proof. intros E (es & E' & H). exists es. now rewrite <- E. Qed.

Lemma flagged_before s ok s1 s2 :
  flagged errs s ok s1 -> errs s2 = errs s1 -> flagged errs s ok s2.
Proof. intros (es & E' & H) E. exists es. now rewrite E. Qed.

Lemma flags_ret_true : flags errs (ret true).
Proof. intros s ok s' H. injection H as <- <-. apply flagged_refl. Qed.

Lemma quiet_ret {A : Type} (a : A) : quiet errs (ret a).
Proof. intros s a' s' H. now injection H as _ <-. Qed.

Lemma quiet_lift {A : Type} (r : result A) : quiet errs (lift r).
Proof. intros s a' s' H. now injection H as _ <-. Qed.

Lemma quiet_bind {A B : Type} (m : M S A) (k : A -> M S B) :
  quiet errs m -> (forall a, quiet errs (k a)) -> quiet errs (bind m k).
Proof.
  intros Hm Hk s b s' H. apply bind_Ok in H as (a & s1 & H1 & H2).
  rewrite (Hk _ _ _ _ H2). eapply Hm, H1.
Qed.

Lemma flags_bind {A : Type} (m : M S A) (k : A -> M S bool) :
  quiet errs m -> (forall a, flags errs (k a)) -> flags errs (bind m k).
Proof.
  intros Hm Hk s b s' H. apply bind_Ok in H as (a & s1 & H1 & H2).
  eapply flagged_after; [eapply Hm, H1 | eapply Hk, H2].
Qed.

Lemma flags_and (m1 m2 : M S bool) :
  flags errs m1 -> flags errs m2 ->
  flags errs (ok1 <- m1 ;; ok2 <- m2 ;; ret (ok1 && ok2)).
Proof.
  intros H1 H2 s b s' H.
  apply bind_Ok in H as (ok1 & s1 & E1 & H).
  apply bind_Ok in H as (ok2 & s2 & E2 & H). injection H as <- <-.
  eapply flagged_trans; [eapply H1, E1 | eapply H2, E2].
Qed.

(** A handler that appends an error and answers [False] keeps the flag of
    the [try] statement in step with the list, whatever the body had
    appended before it raised. *)
Lemma flags_try (body : M S bool) catches (handler : exn -> M S bool) :
  flags errs body -> keeps (extends errs) body ->
  (forall e s ok s', handler e s = (Ok ok, s') ->
     ok = false /\ exists m es, errs s' = errs s ++ m :: es) ->
  flags errs (try_except body catches handler).
Proof.
  intros Hb Hg Hh s ok s'. unfold try_except.
  destruct (body s) as [[a | e] s1] eqn:E; intros H.
  - injection H as <- <-. eapply Hb, E.
  - destruct (catches e); [ | discriminate].
    destruct (Hg _ _ _ E) as [es0 E0].
    destruct (Hh _ _ _ _ H) as (-> & m & es & E1).
    exists (es0 ++ m :: es). split.
    + now rewrite E1, E0, <- app_assoc.
    + split; [discriminate | ]. now destruct es0.
Qed.

Lemma keeps_weaken {A : Type} (R R' : S -> S -> Prop) (m : M S A) :
  (forall s s', R s s' -> R' s s') -> keeps R m -> keeps R' m.
Proof. intros HR Hm s r s' H. eapply HR, Hm, H. Qed.

End Flags.

Create HintDb flags.

Ltac quiet_with :=
  repeat
    match goal with
    | |- quiet _ (ret _) => apply quiet_ret
    | |- quiet _ (lift _) => apply quiet_lift
    | |- quiet _ (bind _ _) => apply quiet_bind; [ | intros ? ]
    | |- quiet _ (if ?b then _ else _) => destruct b
    | |- quiet _ (match ?x with _ => _ end) => destruct x
    | |- quiet _ _ => solve [ auto with flags ]
    end.

Ltac flags_with :=
  repeat
    match goal with
    | |- flags _ (ret true) => apply flags_ret_true
    | |- flags _ (bind _ (fun ok1 => bind _ (fun ok2 => ret (ok1 && ok2)))) =>
        apply flags_and
    | |- flags _ (bind _ _) =>
        first [ solve [ auto with flags ]
              | apply flags_bind; [ solve [ quiet_with ] | intros ? ] ]
    | |- flags _ (if ?b then _ else _) => destruct b
    | |- flags _ (match ?x with _ => _ end) => destruct x
    | |- flags _ _ => solve [ auto with flags ]
    end.

Section JsonFlags.

Variable B : builtins.
Variable W : J.world.

Lemma J_flags_fail m : flags J.errors (J.errors_append m ;;; ret false).
Proof.
  intros s ok s' H. injection H as <- <-. exists [m]. simpl.
  split; [reflexivity | split; discriminate].
Qed.

Lemma J_quiet_warnings_append m : quiet J.errors (J.warnings_append m).
Proof. intros s a s' H. now injection H as _ <-. Qed.

Lemma J_quiet_get_json_data : quiet J.errors J.get_json_data.
Proof. intros s a s' H. now injection H as _ <-. Qed.

Lemma J_quiet_get_self : quiet J.errors J.get_self.
Proof. intros s a s' H. now injection H as _ <-. Qed.

Lemma J_quiet_set_json_data data : quiet J.errors (J.set_json_data data).
Proof. intros s a s' H. now injection H as _ <-. Qed.

Lemma J_grows_extends s s' : J_grows s s' -> extends J.errors s s'.
Proof. now intros (E & _). Qed.

Lemma J_handler_fails m s ok s' :
  (J.errors_append m ;;; ret false) s = (Ok ok, s') ->
  ok = false /\ exists m' es, J.errors s' = J.errors s ++ m' :: es.
Proof. intros H. injection H as <- <-. simpl. eauto. Qed.

#[local] Hint Resolve J_flags_fail J_quiet_warnings_append J_quiet_get_json_data
  J_quiet_get_self J_quiet_set_json_data : flags.

Lemma J_flags_validate_schema : flags J.errors (J.validate_schema W).
Proof.
  unfold J.validate_schema. flags_with.
  intros s ok s' H. destruct epath; injection H as <- <-; simpl.
  - now eapply flagged_false.
  - eapply flagged_false. now rewrite <- app_assoc.
Qed.

Lemma J_flags_rule_item_count data :
  flags J.errors (r <- J.rule_item_count data ;; ret (snd r)).
Proof.
  intros s ok s' H. apply bind_Ok in H as (r & s1 & H1 & H). injection H as <- <-.
  revert H1. unfold J.rule_item_count.
  intros H. apply bind_Ok in H as (items & s2 & H2 & H). injection H2 as _ <-.
  apply bind_Ok in H as (n & s2 & H2 & H). injection H2 as _ <-.
  destruct (n <? 5); injection H as <- <-; simpl.
  - now eapply flagged_false.
  - eapply flagged_before; [apply flagged_refl | reflexivity].
Qed.

Lemma J_flags_rule_purchase_date data : flags J.errors (J.rule_purchase_date B W data).
Proof.
  unfold J.rule_purchase_date. flags_with.
  apply flags_try.
  - flags_with.
  - apply (keeps_weaken J_grows); [apply J_grows_extends | ].
    keeps_with J_grows_refl J_grows_trans.
  - intros e. apply J_handler_fails.
Qed.

Lemma J_flags_rule_total_amount data : flags J.errors (J.rule_total_amount B data).
Proof. unfold J.rule_total_amount. flags_with. Qed.

Lemma J_flags_check_quantity i q : flags J.errors (J.check_quantity i q).
Proof. unfold J.check_quantity. flags_with. Qed.

Lemma J_flags_check_unit_price i u : flags J.errors (J.check_unit_price i u).
Proof. unfold J.check_unit_price. flags_with. Qed.

Lemma J_flags_check_subtotal i q u t : flags J.errors (J.check_subtotal i q u t).
Proof. unfold J.check_subtotal. flags_with. Qed.

Lemma J_flags_check_item i item : flags J.errors (J.check_item i item).
Proof.
  intros s ok s' H. unfold J.check_item in H.
  apply bind_Ok in H as (q & s0 & H0 & H). injection H0 as _ <-.
  apply bind_Ok in H as (u & s0 & H0 & H). injection H0 as _ <-.
  apply bind_Ok in H as (t & s0 & H0 & H). injection H0 as _ <-.
  apply bind_Ok in H as (ok1 & s1 & H1 & H).
  apply bind_Ok in H as (ok2 & s2 & H2 & H).
  apply bind_Ok in H as (ok3 & s3 & H3 & H). injection H as <- <-.
  apply J_flags_check_quantity in H1. apply J_flags_check_unit_price in H2.
  apply J_flags_check_subtotal in H3.
  eauto using flagged_trans.
Qed.

#[local] Hint Resolve J_flags_check_item : flags.

Lemma J_flags_check_items items : forall i, flags J.errors (J.check_items i items).
Proof. induction items as [ | item rest IH]; intros i; simpl; flags_with. Qed.

#[local] Hint Resolve J_flags_check_items : flags.

Lemma J_flags_rule_items items : flags J.errors (J.rule_items items).
Proof. unfold J.rule_items. flags_with. Qed.

Lemma J_quiet_rule_loyalty data : quiet J.errors (J.rule_loyalty data).
Proof. unfold J.rule_loyalty. quiet_with. Qed.

Lemma J_flags_rule_email customer : flags J.errors (J.rule_email customer).
Proof. unfold J.rule_email. flags_with. Qed.

Lemma J_flags_rule_payment data : flags J.errors (J.rule_payment data).
Proof. unfold J.rule_payment, J.check_card_fields, J.check_card_number. flags_with. Qed.

Lemma J_flags_rule_signature data : flags J.errors (J.rule_signature data).
Proof. unfold J.rule_signature. flags_with. Qed.

Lemma J_flags_check_prices prices : flags J.errors (J.check_prices prices).
Proof. induction prices as [ | price rest IH]; simpl; flags_with. Qed.

#[local] Hint Resolve J_flags_check_prices : flags.

Lemma J_flags_rule_prices data items : flags J.errors (J.rule_prices data items).
Proof. unfold J.rule_prices. flags_with. Qed.

Lemma J_flags_rule_required data fields : flags J.errors (J.rule_required data fields).
Proof. induction fields as [ | field rest IH]; simpl; flags_with. Qed.

End JsonFlags.

#[local] Hint Resolve J_flags_fail J_quiet_warnings_append J_quiet_get_json_data
  J_quiet_get_self J_quiet_set_json_data J_flags_validate_schema
  J_flags_rule_purchase_date J_flags_rule_total_amount J_flags_rule_items
  J_quiet_rule_loyalty J_flags_rule_email J_flags_rule_payment
  J_flags_rule_signature J_flags_rule_prices J_flags_rule_required : flags.

Section JsonVerdicts.

Variable B : builtins.
Variable W : J.world.

Lemma J_flags_validate_business_rules : flags J.errors (J.validate_business_rules B W).
Proof.
  intros s ok s' H. unfold J.validate_business_rules in H.
  apply bind_Ok in H as (data & s0 & H0 & H). injection H0 as <- <-.
  destruct (negb (truthy (J.json_data s))); [eapply J_flags_fail, H | ].
  apply bind_Ok in H as (r1 & s1 & H1 & H).
  apply bind_Ok in H as (ok2 & s2 & H2 & H).
  apply bind_Ok in H as (ok3 & s3 & H3 & H).
  apply bind_Ok in H as (ok4 & s4 & H4 & H).
  apply bind_Ok in H as (customer & s5 & H5 & H).
  apply bind_Ok in H as (ok6 & s6 & H6 & H).
  apply bind_Ok in H as (ok7 & s7 & H7 & H).
  apply bind_Ok in H as (ok8 & s8 & H8 & H).
  apply bind_Ok in H as (ok9 & s9 & H9 & H).
  apply bind_Ok in H as (ok10 & s10 & H10 & H). injection H as <- <-.
  assert (F1 : flagged J.errors s (snd r1) s1).
  { apply (J_flags_rule_item_count (J.json_data s)). unfold bind. now rewrite H1. }
  apply J_flags_rule_purchase_date in H2. apply J_flags_rule_total_amount in H3.
  apply J_flags_rule_items in H4. apply J_quiet_rule_loyalty in H5.
  apply J_flags_rule_email in H6. apply J_flags_rule_payment in H7.
  apply J_flags_rule_signature in H8. apply J_flags_rule_prices in H9.
  apply J_flags_rule_required in H10.
  pose proof (flagged_trans _ _ _ _ _ _ F1 H2) as F.
  pose proof (flagged_trans _ _ _ _ _ _ F H3) as F3.
  pose proof (flagged_trans _ _ _ _ _ _ F3 H4) as F4.
  pose proof (flagged_before _ _ _ _ _ F4 H5) as F5.
  pose proof (flagged_trans _ _ _ _ _ _ F5 H6) as F6.
  pose proof (flagged_trans _ _ _ _ _ _ F6 H7) as F7.
  pose proof (flagged_trans _ _ _ _ _ _ F7 H8) as F8.
  pose proof (flagged_trans _ _ _ _ _ _ F8 H9) as F9.
  exact (flagged_trans _ _ _ _ _ _ F9 H10).
Qed.

Lemma J_flags_validate_data_types : flags J.errors (J.validate_data_types B).
Proof.
  intros s ok s' H. unfold J.validate_data_types in H.
  apply bind_Ok in H as (data & s0 & H0 & H). injection H0 as <- <-.
  destruct (negb (truthy (J.json_data s))); [eapply J_flags_fail, H | ].
  apply bind_Ok in H as (receipt_id & s0 & H0 & H). injection H0 as _ <-.
  apply bind_Ok in H as (u & s1 & H1 & H).
  apply bind_Ok in H as (total & s1' & H0 & H). injection H0 as _ <-.
  apply bind_Ok in H as (ok1 & s2 & H2 & H).
  apply bind_Ok in H as (date & s2' & H0 & H). injection H0 as _ <-.
  apply bind_Ok in H as (ok2 & s3 & H3 & H). injection H as <- <-.
  assert (Q1 : J.errors s1 = J.errors s).
  { revert H1. generalize s u s1. change (quiet J.errors
      match receipt_id with
      | PStr s => if String.prefix "RCPT_" s then ret tt
                  else J.warnings_append [Lit "Receipt ID format may be incorrect: ";
                                          Fmt receipt_id]
      | _ => J.warnings_append [Lit "Receipt ID format may be incorrect: "; Fmt receipt_id]
      end). quiet_with. }
  assert (F2 : flagged J.errors s1 ok1 s2).
  { revert H2. generalize s1 ok1 s2. change (flags J.errors
      match total with
      | PNone => ret true
      | _ => if is_number total then ret true
             else J.errors_append [Lit "Field 'total_amount' must be numeric. Found: ";
                                   FmtType total] ;;; ret false
      end). flags_with. }
  assert (F3 : flagged J.errors s2 ok2 s3).
  { destruct date; try (injection H3 as <- <-; apply flagged_refl);
      (revert H3; generalize s2 ok2 s3;
       match goal with
       | |- forall s ok s', try_except ?b ?c ?h s = _ -> _ =>
           change (flags J.errors (try_except b c h))
       end;
       apply flags_try;
       [ flags_with
       | apply (keeps_weaken J_grows); [apply J_grows_extends | ];
         keeps_with J_grows_refl J_grows_trans
       | intros e; apply J_handler_fails ]). }
  eapply flagged_after; [exact Q1 | ]. eapply flagged_trans; eassumption.
Qed.

Lemma J_quiet_calculate_totals : quiet J.errors J.calculate_totals.
Proof. unfold J.calculate_totals. quiet_with. Qed.

End JsonVerdicts.

(** X1: [validate_business_rules] of the JSON validator, whenever it
    returns, has only appended to the error list, and it returns [True]
    exactly when it appended no error: no rule fails without a message and
    no rule reports a message without failing. *)
Theorem J_business_rules_verdict_matches_errors
  (B : builtins) (W : J.world) (s s' : J.validator) (ok : bool) :
  J.validate_business_rules B W s = (Ok ok, s') ->
  exists es, J.errors s' = J.errors s ++ es /\ (ok = true <-> es = []).
Proof. apply J_flags_validate_business_rules. Qed.

Lemma J_business_rules_verdict_matches_errors_witness :
  let W := Sample.json_world false J.SchemaValid
             (Sample.with_field "digital_signature" (PDict []) Sample.receipt) in
  let self := snd (J.load_json W (J.__init__ "receipt.json" None)) in
  exists ok s',
    J.validate_business_rules Sample.runtime W self = (Ok ok, s') /\
    exists es, J.errors s' = J.errors self ++ es /\ (ok = true <-> es = []).
Proof.
  intros W self. eexists. eexists. split.
  - vm_compute. reflexivity.
  - eapply (J_business_rules_verdict_matches_errors Sample.runtime W self).
    vm_compute. reflexivity.
Defined.

(** The three stages of [validate_data_types] on a document that is not
    empty. *)
Lemma J_validate_data_types_stages
  (B : builtins) (s s' : J.validator) (ok : bool) (receipt_id total date : pyval) :
  truthy (J.json_data s) = true ->
  py_get (J.json_data s) "receipt_id" (PStr "") = Ok receipt_id ->
  py_get (J.json_data s) "total_amount" PNone = Ok total ->
  py_get (J.json_data s) "purchase_date" PNone = Ok date ->
  J.validate_data_types B s = (Ok ok, s') ->
  J.warnings s' = J.warnings s ++ receipt_id_warnings receipt_id /\
  J.errors s' = J.errors s ++ numeric_errors total ++ date_errors B date.
Proof.
  intros T Hr Ht Hd H. unfold J.validate_data_types in H.
  apply bind_Ok in H as (data & s0 & H0 & H). injection H0 as <- <-.
  rewrite T in H. simpl in H.
  apply bind_Ok in H as (receipt_id' & s0 & H0 & H).
  unfold lift in H0. rewrite Hr in H0. injection H0 as <- <-.
  apply bind_Ok in H as (u & s1 & H1 & H).
  apply bind_Ok in H as (total' & s1' & H0 & H).
  unfold lift in H0. rewrite Ht in H0. injection H0 as <- <-.
  apply bind_Ok in H as (ok1 & s2 & H2 & H).
  apply bind_Ok in H as (date' & s2' & H0 & H).
  unfold lift in H0. rewrite Hd in H0. injection H0 as <- <-.
  apply bind_Ok in H as (ok2 & s3 & H3 & H). injection H as _ <-.
  assert (S1 : J.warnings s1 = J.warnings s ++ receipt_id_warnings receipt_id /\
               J.errors s1 = J.errors s).
  { unfold receipt_id_warnings.
    destruct receipt_id as [ | b | z | f | x | l | d];
      try (injection H1 as _ <-; now split).
    destruct (String.prefix "RCPT_" x); injection H1 as _ <-; simpl;
      [now rewrite app_nil_r | now split]. }
  assert (S2 : J.warnings s2 = J.warnings s1 /\
               J.errors s2 = J.errors s1 ++ numeric_errors total).
  { unfold numeric_errors.
    destruct total as [ | b | z | f | x | l | d]; simpl in H2 |- *;
      injection H2 as _ <-; simpl; rewrite ?app_nil_r; now split. }
  assert (S3 : J.warnings s3 = J.warnings s2 /\
               J.errors s3 = J.errors s2 ++ date_errors B date).
  { unfold date_errors.
    destruct date as [ | b | z | f | x | l | d];
      try (injection H3 as _ <-; simpl; rewrite ?app_nil_r; now split);
      try discriminate H3.
    unfold try_except, bind, lift in H3. simpl in H3.
    destruct (fromisoformat B (str_replace "Z" "+00:00" x)); simpl in H3;
      injection H3 as _ <-; simpl; rewrite ?app_nil_r; now split. }
  destruct S1 as (W1 & E1), S2 as (W2 & E2), S3 as (W3 & E3).
  split.
  - now rewrite W3, W2, W1.
  - now rewrite E3, E2, E1, <- app_assoc.
Qed.

(** X2: [validate_data_types] returns [True] exactly when it appended no
    error.  On a document that is not empty its errors are the numeric
    error of [total_amount] and the date error of [purchase_date] and
    nothing else, and its only warning is that of the receipt id: a receipt
    id of the wrong form adds that one warning and no error. *)
Theorem J_data_types_verdict_matches_errors
  (B : builtins) (s s' : J.validator) (ok : bool) :
  J.validate_data_types B s = (Ok ok, s') ->
  (exists es, J.errors s' = J.errors s ++ es /\ (ok = true <-> es = [])) /\
  (forall receipt_id total date,
     truthy (J.json_data s) = true ->
     py_get (J.json_data s) "receipt_id" (PStr "") = Ok receipt_id ->
     py_get (J.json_data s) "total_amount" PNone = Ok total ->
     py_get (J.json_data s) "purchase_date" PNone = Ok date ->
     J.warnings s' = J.warnings s ++ receipt_id_warnings receipt_id /\
     J.errors s' = J.errors s ++ numeric_errors total ++ date_errors B date).
Proof.
  intros H. split.
  - exact (J_flags_validate_data_types B _ _ _ H).
  - intros receipt_id total date T Hr Ht Hd.
    exact (J_validate_data_types_stages B s s' ok receipt_id total date T Hr Ht Hd H).
Qed.

(** A receipt whose id lacks the prefix and whose total is a string: one
    warning for the id, one error for the total. *)
Lemma J_data_types_verdict_matches_errors_witness :
  let data := Sample.with_field "receipt_id" (PStr "0001")
                (Sample.with_field "total_amount" (PStr "19.00") Sample.receipt) in
  let W := Sample.json_world false J.SchemaValid data in
  let self := snd (J.load_json W (J.__init__ "receipt.json" None)) in
  let s' := snd (J.validate_data_types Sample.runtime self) in
  J.validate_data_types Sample.runtime self = (Ok false, s') /\
  J.warnings s' = [[Lit "Receipt ID format may be incorrect: "; Fmt (PStr "0001")]] /\
  J.errors s'
  = [[Lit "Field 'total_amount' must be numeric. Found: "; FmtType (PStr "19.00")]].
Proof.
  intros data W self s'.
  assert (H : J.validate_data_types Sample.runtime self = (Ok false, s'))
    by (vm_compute; reflexivity).
  split; [exact H | ].
  destruct (J_data_types_verdict_matches_errors Sample.runtime self s' false H) as (_ & K).
  exact (K (PStr "0001") (PStr "19.00") (PStr "2024-01-15")
           eq_refl eq_refl eq_refl eq_refl).
Defined.

(** X3: in a full report of the JSON validator, [overall_valid] is the
    conjunction of the three recorded verdicts (the schema verdict counting
    as passed when no schema check was requested) and of the error list
    having been empty before the call. *)
Theorem J_overall_valid_is_conjunction
  (B : builtins) (W : J.world) (self self' : J.validator) (r : J.report) (data : pyval) :
  J.file_content W = J.Loaded data ->
  J.generate_report B W self = (Ok r, self') ->
  J.overall_valid r
  = Nat.eqb (List.length (J.errors self)) 0
    && J_schema_not_failed r && J_business_rules_valid r && J_data_types_valid r.
Proof.
  intros L H. unfold J.generate_report in H.
  apply bind_Ok in H as (ok & s1 & H1 & H).
  unfold J.load_json in H1. rewrite L in H1. injection H1 as <- <-.
  simpl in H.
  apply bind_Ok in H as (self0 & s1' & H0 & H). injection H0 as <- <-.
  apply bind_Ok in H as (sv & s2 & Hs & H).
  apply bind_Ok in H as (cv & s3 & Hc & H).
  apply bind_Ok in H as (tv & s4 & Ht & H).
  apply bind_Ok in H as (totals & s5 & Hq & H).
  apply bind_Ok in H as (self1 & s6 & Hg & H). injection Hg as <- <-.
  injection H as <- <-. simpl in *.
  set (sch := match sv with Some v => v | None => true end).
  assert (Fs : flagged J.errors self sch s2).
  { destruct (J.given (J.schema_file self)).
    - apply bind_Ok in Hs as (v & s2' & Hv & Hs). injection Hs as <- <-.
      apply J_flags_validate_schema in Hv.
      eapply flagged_after; [ | exact Hv]. reflexivity.
    - injection Hs as <- <-.
      eapply flagged_before; [apply flagged_refl | reflexivity]. }
  apply J_flags_validate_business_rules in Hc.
  apply J_flags_validate_data_types in Ht.
  apply J_quiet_calculate_totals in Hq.
  pose proof (flagged_trans _ _ _ _ _ _ Fs Hc) as F.
  pose proof (flagged_trans _ _ _ _ _ _ F Ht) as F'.
  pose proof (flagged_before _ _ _ _ _ F' Hq) as (es & E & Hes).
  rewrite E, length_app.
  destruct (J.errors self) as [ | m l]; simpl.
  - destruct (sch && cv && tv).
    + now rewrite (proj1 Hes eq_refl).
    + destruct es; [ | reflexivity]. discriminate (proj2 Hes eq_refl).
  - reflexivity.
Qed.

Lemma J_overall_valid_is_conjunction_witness :
  let W := Sample.json_world true (J.SchemaException "No such file or directory")
             Sample.receipt in
  let self := J.__init__ "receipt.json" (Some "schema.json") in
  exists r self',
    J.generate_report Sample.runtime W self = (Ok r, self') /\
    J.overall_valid r
    = Nat.eqb (List.length (J.errors self)) 0
      && J_schema_not_failed r && J_business_rules_valid r && J_data_types_valid r.
Proof.
  intros W self. eexists. eexists. split.
  - vm_compute. reflexivity.
  - eapply (J_overall_valid_is_conjunction Sample.runtime W self);
      vm_compute; reflexivity.
Defined.

(** ** The verdicts of the XML validator *)

Section XmlFlags.

Variable B : builtins.
Variable W : X.world.

Lemma X_flags_fail m : flags X.errors (X.errors_append m ;;; ret false).
Proof. intros s ok s' H. injection H as <- <-. now eapply flagged_false. Qed.

Lemma X_quiet_warnings_append m : quiet X.errors (X.warnings_append m).
Proof. intros s a s' H. now injection H as _ <-. Qed.

Lemma X_quiet_get_self : quiet X.errors X.get_self.
Proof. intros s a s' H. now injection H as _ <-. Qed.

Lemma X_grows_extends s s' : X_grows s s' -> extends X.errors s s'.
Proof. now intros (E & _). Qed.

Lemma X_handler_fails m s ok s' :
  (X.errors_append m ;;; ret false) s = (Ok ok, s') ->
  ok = false /\ exists m' es, X.errors s' = X.errors s ++ m' :: es.
Proof. intros H. injection H as <- <-. simpl. eauto. Qed.

#[local] Hint Resolve X_flags_fail X_quiet_warnings_append X_quiet_get_self : flags.

Lemma X_flags_rule_item_count data : flags X.errors (X.rule_item_count data).
Proof. unfold X.rule_item_count. flags_with. Qed.

Lemma X_flags_rule_purchase_date data : flags X.errors (X.rule_purchase_date B W data).
Proof.
  unfold X.rule_purchase_date. flags_with.
  apply flags_try.
  - flags_with.
  - apply (keeps_weaken X_grows); [apply X_grows_extends | ].
    keeps_with X_grows_refl X_grows_trans.
  - intros e. apply X_handler_fails.
Qed.

Lemma X_flags_rule_total_amount data : flags X.errors (X.rule_total_amount B data).
Proof. unfold X.rule_total_amount. flags_with. Qed.

Lemma X_flags_check_quantity i q : flags X.errors (X.check_quantity i q).
Proof. unfold X.check_quantity. flags_with. Qed.

Lemma X_flags_check_unit_price i u : flags X.errors (X.check_unit_price i u).
Proof. unfold X.check_unit_price. flags_with. Qed.

Lemma X_flags_check_subtotal i q u t : flags X.errors (X.check_subtotal i q u t).
Proof. unfold X.check_subtotal. flags_with. Qed.

Lemma X_flags_check_item i item : flags X.errors (X.check_item B i item).
Proof.
  intros s ok s' H. unfold X.check_item in H.
  do 6 (apply bind_Ok in H as (? & ? & H0 & H); injection H0 as _ <-).
  apply bind_Ok in H as (ok1 & s1 & H1 & H).
  apply bind_Ok in H as (ok2 & s2 & H2 & H).
  apply bind_Ok in H as (ok3 & s3 & H3 & H). injection H as <- <-.
  apply X_flags_check_quantity in H1. apply X_flags_check_unit_price in H2.
  apply X_flags_check_subtotal in H3.
  eauto using flagged_trans.
Qed.

#[local] Hint Resolve X_flags_check_item : flags.

Lemma X_flags_check_items items : forall i, flags X.errors (X.check_items B i items).
Proof. induction items as [ | item rest IH]; intros i; simpl; flags_with. Qed.

#[local] Hint Resolve X_flags_check_items : flags.

Lemma X_flags_rule_items data : flags X.errors (X.rule_items B data).
Proof. unfold X.rule_items. flags_with. Qed.

Lemma X_quiet_rule_loyalty data : quiet X.errors (X.rule_loyalty data).
Proof. unfold X.rule_loyalty. quiet_with. Qed.

Lemma X_flags_rule_payment data : flags X.errors (X.rule_payment data).
Proof. unfold X.rule_payment. flags_with. Qed.

Lemma X_flags_rule_signature data : flags X.errors (X.rule_signature data).
Proof. unfold X.rule_signature. flags_with. Qed.

Lemma X_flags_validate_business_rules data :
  flags X.errors (X.validate_business_rules B W data).
Proof.
  intros s ok s' H. unfold X.validate_business_rules in H.
  apply bind_Ok in H as (ok1 & s1 & H1 & H).
  apply bind_Ok in H as (ok2 & s2 & H2 & H).
  apply bind_Ok in H as (ok3 & s3 & H3 & H).
  apply bind_Ok in H as (ok4 & s4 & H4 & H).
  apply bind_Ok in H as (u & s5 & H5 & H).
  apply bind_Ok in H as (ok6 & s6 & H6 & H).
  apply bind_Ok in H as (ok7 & s7 & H7 & H). injection H as <- <-.
  apply X_flags_rule_item_count in H1. apply X_flags_rule_purchase_date in H2.
  apply X_flags_rule_total_amount in H3. apply X_flags_rule_items in H4.
  apply X_quiet_rule_loyalty in H5. apply X_flags_rule_payment in H6.
  apply X_flags_rule_signature in H7.
  pose proof (flagged_trans _ _ _ _ _ _ H1 H2) as F.
  pose proof (flagged_trans _ _ _ _ _ _ F H3) as F3.
  pose proof (flagged_trans _ _ _ _ _ _ F3 H4) as F4.
  pose proof (flagged_before _ _ _ _ _ F4 H5) as F5.
  pose proof (flagged_trans _ _ _ _ _ _ F5 H6) as F6.
  exact (flagged_trans _ _ _ _ _ _ F6 H7).
Qed.

Lemma X_flags_validate_xml_content : flags X.errors (X.validate_xml_content B W).
Proof.
  unfold X.validate_xml_content.
  destruct (X.parse_file W) as [root | text | text]; flags_with.
  apply flags_try.
  - apply X_flags_validate_business_rules.
  - apply (keeps_weaken X_grows); [apply X_grows_extends | ].
    apply X_keeps_validate_business_rules.
  - intros e. apply X_handler_fails.
Qed.

(** [report_error_log] appends one error per entry of the log, in order. *)
Lemma X_report_error_log_run error_log :
  forall s,
    X.report_error_log error_log s
    = (Ok tt,
       X_with_errors s
         (map (fun error => [Lit "Schema validation error: "; Fmt (PStr error)])
            error_log)).
Proof.
  induction error_log as [ | error rest IH]; intros s; simpl.
  - unfold ret, X_with_errors. rewrite app_nil_r. now destruct s.
  - unfold bind at 1. simpl. rewrite IH. unfold X_with_errors. simpl.
    now rewrite <- app_assoc.
Qed.

End XmlFlags.

Lemma length_app_eqb {A : Type} (l l' : list A) :
  Nat.eqb (List.length (l ++ l')) 0
  = Nat.eqb (List.length l) 0 && Nat.eqb (List.length l') 0.
Proof. now destruct l, l'. Qed.

Lemma length_eqb_flag {A : Type} (l : list A) (b : bool) :
  (b = true <-> l = []) -> Nat.eqb (List.length l) 0 = b.
Proof.
  intros [H1 H2]. destruct b, l as [ | a l]; simpl; try reflexivity.
  - discriminate (H1 eq_refl).
  - discriminate (H2 eq_refl).
Qed.

(** What the schema check of the XML validator does when [lxml] is there. *)
Lemma X_validate_schema_effect (W : X.world) (s : X.validator) :
  X.LXML_AVAILABLE W = true ->
  exists v s' es,
    X.validate_schema W s = (Ok v, s') /\ Some v = X_schema_verdict W /\
    X.errors s' = X.errors s ++ es /\
    Nat.eqb (List.length es) 0 = X_schema_silent W.
Proof.
  intros L. unfold X.validate_schema, X_schema_verdict, X_schema_silent. rewrite L. simpl.
  destruct (X.xsd_check W) as [ | error_log | text].
  - exists true, s, []. now rewrite app_nil_r.
  - unfold bind. rewrite X_report_error_log_run. simpl.
    eexists. eexists. eexists. repeat split. simpl. now rewrite length_map.
  - eexists. eexists. exists [[Lit "Schema validation failed: "; Fmt (PStr text)]].
    repeat split.
Qed.

Lemma X_validate_xml_content_effect (B : builtins) (W : X.world) (s : X.validator) :
  exists ok s',
    X.validate_xml_content B W s = (Ok ok, s') /\
    exists es, X.errors s' = X.errors s ++ es /\ (ok = true <-> es = []).
Proof.
  destruct (X_validate_xml_content_returns B W s) as (ok & s' & E).
  exists ok, s'. split; [exact E | ].
  exact (X_flags_validate_xml_content B W _ _ _ E).
Qed.

(** X4: [validate_xml_content] never raises: whatever the parser or a rule
    raises becomes one more error.  It only appends to the error list, and
    it returns [True] exactly when it appended no error. *)
Theorem X_content_verdict_matches_errors
  (B : builtins) (W : X.world) (s : X.validator) :
  exists ok s',
    X.validate_xml_content B W s = (Ok ok, s') /\
    exists es, X.errors s' = X.errors s ++ es /\ (ok = true <-> es = []).
Proof. apply X_validate_xml_content_effect. Qed.

(** X5: [generate_report] of the XML validator always returns a report.
    Its [schema_valid] entry is [None] without [lxml] and otherwise says
    whether the document validated; its [overall_valid] is true exactly when
    the error list was empty before the call, the schema check appended
    nothing, and [content_valid] is true.  So a document that fails the
    schema check with an empty error log is reported with [schema_valid]
    false and can still be [overall_valid]. *)
Theorem X_overall_valid_is_conjunction
  (B : builtins) (W : X.world) (self : X.validator) :
  exists r self',
    X.generate_report B W self = (Ok r, self') /\
    X.schema_valid r = X_schema_verdict W /\
    X.overall_valid r
    = Nat.eqb (List.length (X.errors self)) 0 && X_schema_silent W && X.content_valid r.
Proof.
  unfold X.generate_report.
  destruct (X.LXML_AVAILABLE W) eqn:L.
  - destruct (X_validate_schema_effect W self L) as (v & s1 & es & E1 & V & Ee & Hs).
    destruct (X_validate_xml_content_effect B W s1) as (c & s2 & E2 & ec & Ec & Hc).
    unfold bind. rewrite E1. simpl. rewrite E2. simpl.
    eexists. eexists. split; [reflexivity | ]. simpl. split; [exact V | ].
    rewrite Ec, Ee, !length_app_eqb, Hs. f_equal. now apply length_eqb_flag.
  - destruct (X_validate_xml_content_effect B W self) as (c & s2 & E2 & ec & Ec & Hc).
    unfold bind. simpl. rewrite E2. simpl.
    eexists. eexists. split; [reflexivity | ]. simpl.
    unfold X_schema_verdict, X_schema_silent. rewrite L. split; [reflexivity | ].
    rewrite Ec, length_app_eqb, andb_true_r. f_equal. now apply length_eqb_flag.
Qed.

(** ** Running the XML validation twice *)

Section XmlSecondRun.

Variable B : builtins.
Variable W : X.world.

Lemma X_grows_findings s s' : X_grows s s' -> (X_findings s <= X_findings s')%nat.
Proof.
  intros ([es E] & [ws Ew] & _). unfold X_findings. rewrite E, Ew, !length_app. lia.
Qed.

Lemma X_rule_item_count_findings data s ok s' :
  X.rule_item_count data s = (Ok ok, s') -> (X_findings s < X_findings s')%nat.
Proof.
  unfold X.rule_item_count. intros H.
  apply bind_Ok in H as (item & s0 & H0 & H). injection H0 as _ <-.
  apply bind_Ok in H as (n & s0 & H0 & H). injection H0 as _ <-.
  destruct (n <? 5); injection H as _ <-; unfold X_findings; simpl;
    rewrite length_app; simpl; lia.
Qed.

Lemma X_errors_append_findings m s r s' :
  (X.errors_append m ;;; ret false) s = (r, s') -> (X_findings s < X_findings s')%nat.
Proof.
  intros H. injection H as _ <-. unfold X_findings. simpl. rewrite length_app. simpl. lia.
Qed.

(** Every call of [validate_xml_content] leaves at least one more finding:
    the item-count rule always appends one, and a failure before it is
    reported as an error. *)
Lemma X_validate_xml_content_findings s r s' :
  X.validate_xml_content B W s = (r, s') -> (X_findings s < X_findings s')%nat.
Proof.
  unfold X.validate_xml_content.
  destruct (X.parse_file W) as [root | text | text].
  - unfold try_except.
    destruct (X.validate_business_rules B W (X.xml_to_dict root) s) as [[v | e] s1] eqn:E.
    + intros H. injection H as _ <-.
      unfold X.validate_business_rules in E.
      apply bind_Ok in E as (ok1 & t1 & H1 & E).
      apply X_rule_item_count_findings in H1.
      assert (G : X_grows t1 s1).
      { revert E. generalize (Ok (A := bool) v). revert t1 s1 H1.
        intros t1 s1 _ r0. revert t1 r0 s1.
        match goal with
        | |- forall t r0 s1, ?m t = (r0, s1) -> _ => change (keeps X_grows m)
        end.
        keeps_with X_grows_refl X_grows_trans. }
      apply X_grows_findings in G. lia.
    + simpl. intros H.
      apply X_keeps_validate_business_rules, X_grows_findings in E.
      apply X_errors_append_findings in H. lia.
  - destruct (X.LXML_AVAILABLE W); apply X_errors_append_findings.
  - apply X_errors_append_findings.
Qed.

Lemma X_generate_report_appends self r self' :
  X.generate_report B W self = (Ok r, self') ->
  X.report_errors r = X.errors self' /\
  X.report_warnings r = X.warnings self' /\
  X.overall_valid r = Nat.eqb (List.length (X.errors self')) 0 /\
  X_grows self self' /\ (X_findings self < X_findings self')%nat.
Proof.
  intros H.
  destruct (X_generate_report_stages B W self r self' H)
    as (s1 & cv & G & Hc & E & Ew & V).
  repeat match goal with |- _ /\ _ => split end; try assumption.
  - eapply X_grows_trans; [exact G | eapply X_keeps_validate_xml_content, Hc].
  - apply X_grows_findings in G. apply X_validate_xml_content_findings in Hc. lia.
Qed.

End XmlSecondRun.

(** X6: [main] of the XML validator with [--json-report] validates twice
    on one object.  Both calls return; the exit status is the verdict of the
    first report and the file holds the second, which repeats every finding
    of the first and adds at least one, so a receipt found invalid at first
    is never saved as valid. *)
Theorem X_main_saves_a_longer_report
  (B : builtins) (W1 W2 : X.world) (xml_file xsd : string) (json_report : option string) :
  X.given json_report = true ->
  exists r1 s1 r2 s2,
    X.generate_report B W1 (X.__init__ xml_file xsd) = (Ok r1, s1) /\
    X.generate_report B W2 s1 = (Ok r2, s2) /\
    X.main B W1 W2 xml_file xsd json_report = Ok (X.overall_valid r1, Some r2) /\
    (exists es ws,
       X.report_errors r2 = X.report_errors r1 ++ es /\
       X.report_warnings r2 = X.report_warnings r1 ++ ws /\
       (es <> [] \/ ws <> [])) /\
    (X.overall_valid r1 = false -> X.overall_valid r2 = false).
Proof.
  intros Hg.
  destruct (X_generate_report_returns B W1 (X.__init__ xml_file xsd)) as (r1 & s1 & E1).
  destruct (X_generate_report_returns B W2 s1) as (r2 & s2 & E2).
  exists r1, s1, r2, s2. split; [exact E1 | ]. split; [exact E2 | ]. split.
  - unfold X.main, X.print_report, bind. rewrite E1. simpl. now rewrite Hg, E2.
  - destruct (X_generate_report_appends B W1 _ _ _ E1) as (Ee1 & Ew1 & V1 & _ & _).
    destruct (X_generate_report_appends B W2 _ _ _ E2)
      as (Ee2 & Ew2 & V2 & ([es E] & [ws Ew] & _) & L).
    rewrite Ee1, Ee2, Ew1, Ew2, V1, V2. split.
    + exists es, ws. split; [exact E | ]. split; [exact Ew | ].
      unfold X_findings in L. rewrite E, Ew, !length_app in L.
      destruct es; [ | left; discriminate]. destruct ws; [ | right; discriminate].
      simpl in L. lia.
    + rewrite E, length_app_eqb. now intros ->.
Qed.

Lemma X_main_saves_a_longer_report_witness :
  let W := Sample.xml_world (Sample.xml_receipt Sample.five_xml_items Sample.card
                               "19.00" "19.00") in
  exists r1 s1 r2 s2,
    X.generate_report Sample.runtime W (X.__init__ "receipt.xml" "receipt_schema.xsd")
    = (Ok r1, s1) /\
    X.generate_report Sample.runtime W s1 = (Ok r2, s2) /\
    X.main Sample.runtime W W "receipt.xml" "receipt_schema.xsd" (Some "report.json")
    = Ok (X.overall_valid r1, Some r2) /\
    (exists es ws,
       X.report_errors r2 = X.report_errors r1 ++ es /\
       X.report_warnings r2 = X.report_warnings r1 ++ ws /\
       (es <> [] \/ ws <> [])) /\
    (X.overall_valid r1 = false -> X.overall_valid r2 = false).
Proof.
  intros W.
  apply (X_main_saves_a_longer_report Sample.runtime W W "receipt.xml"
           "receipt_schema.xsd" (Some "report.json")).
  reflexivity.
Defined.

(** ** Documents that are not JSON objects, and files that do not load *)

Section Run.

Context {S A C : Type}.

Lemma bind_run (m : M S A) (k : A -> M S C) s a s1 :
  m s = (Ok a, s1) -> bind m k s = k a s1.
Proof. intros E. unfold bind. now rewrite E. Qed.

Lemma bind_raise (m : M S A) (k : A -> M S C) s e s1 :
  m s = (Raise e, s1) -> bind m k s = (Raise e, s1).
Proof. intros E. unfold bind. now rewrite E. Qed.

End Run.

Lemma py_get_not_a_dict data k default :
  (forall d, data <> PDict d) -> py_get data k default = Raise AttributeError.
Proof. intros N. destruct data; try reflexivity. now destruct (N d). Qed.

Section JsonEdges.

Variable B : builtins.
Variable W : J.world.

Lemma J_validate_schema_returns s :
  exists v s', J.validate_schema W s = (Ok v, s') /\ J.json_data s' = J.json_data s.
Proof.
  destruct (J.validate_schema W s) as [[v | e] s'] eqn:E.
  - exists v, s'. split; [reflexivity | ].
    apply J_keeps_validate_schema in E. now destruct E as (_ & _ & D & _).
  - exfalso. revert E. unfold J.validate_schema.
    destruct (negb (J.JSONSCHEMA_AVAILABLE W)); [discriminate | ].
    unfold bind at 1. simpl.
    destruct (negb (truthy (J.json_data s))); [discriminate | ].
    destruct (J.schema_check W (J.json_data s)) as [ | emessage epath | text];
      try discriminate.
    now destruct epath.
Qed.

(** The schema stage of [generate_report]. *)
Lemma J_schema_stage_returns s :
  exists sv s',
    (if J.given (J.schema_file s) then v <- J.validate_schema W ;; ret (Some v)
     else ret None) s = (Ok sv, s') /\
    J.json_data s' = J.json_data s.
Proof.
  destruct (J.given (J.schema_file s)).
  - destruct (J_validate_schema_returns s) as (v & s' & E & D).
    exists (Some v), s'. split; [ | exact D]. now rewrite (bind_run _ _ _ _ _ E).
  - now exists None, s.
Qed.

Lemma J_validate_data_types_empty s :
  truthy (J.json_data s) = false ->
  J.validate_data_types B s
  = (Ok false,
     snd (J.errors_append [Lit "No JSON data loaded for data type validation"] s)).
Proof.
  intros T. unfold J.validate_data_types. unfold bind at 1. simpl. now rewrite T.
Qed.

Lemma J_rules_not_a_dict s :
  (forall d, J.json_data s <> PDict d) -> truthy (J.json_data s) = true ->
  J.validate_business_rules B W s = (Raise AttributeError, s).
Proof.
  intros N T. unfold J.validate_business_rules. unfold bind at 1. simpl. rewrite T. simpl.
  unfold J.rule_item_count, bind, lift. now rewrite (py_get_not_a_dict _ _ _ N).
Qed.

Lemma J_totals_not_a_dict s :
  (forall d, J.json_data s <> PDict d) ->
  J.calculate_totals s = (Raise AttributeError, s).
Proof.
  intros N. unfold J.calculate_totals. unfold bind at 1. simpl.
  unfold bind, lift. now rewrite (py_get_not_a_dict _ _ _ N).
Qed.

End JsonEdges.

(** X7: a file that holds valid JSON which is not an object (a list, a
    string, a number, [true], [null]) makes [generate_report] of the JSON
    validator raise [AttributeError]: no report is returned. *)
Theorem J_document_not_an_object_raises
  (B : builtins) (W : J.world) (self : J.validator) (data : pyval) :
  J.file_content W = J.Loaded data ->
  (forall d, data <> PDict d) ->
  exists self', J.generate_report B W self = (Raise AttributeError, self').
Proof.
  intros L N. unfold J.generate_report, J.load_json. rewrite L.
  unfold bind at 1. simpl. unfold bind at 1. simpl.
  set (s1 := {| J.json_file := J.json_file self; J.schema_file := J.schema_file self;
                J.errors := J.errors self; J.warnings := J.warnings self;
                J.json_data := data |}).
  destruct (J_schema_stage_returns W s1) as (sv & s2 & Es & D2).
  change (J.schema_file self) with (J.schema_file s1).
  rewrite (bind_run _ _ _ _ _ Es).
  assert (N2 : forall d, J.json_data s2 <> PDict d) by now rewrite D2.
  destruct (truthy (J.json_data s2)) eqn:T.
  - exists s2. apply bind_raise. now apply J_rules_not_a_dict.
  - rewrite (bind_run _ _ _ _ _ (J_validate_business_rules_empty B W s2 T)).
    set (s3 := snd (J.errors_append _ s2)).
    rewrite (bind_run _ _ _ _ _ (J_validate_data_types_empty B s3 T)).
    set (s4 := snd (J.errors_append _ s3)).
    exists s4. apply bind_raise. now apply J_totals_not_a_dict.
Qed.

Lemma J_document_not_an_object_raises_witness :
  exists self',
    J.generate_report Sample.runtime
      (Sample.json_world true J.SchemaValid (PList [Sample.receipt]))
      (J.__init__ "receipt.json" (Some "schema.json"))
    = (Raise AttributeError, self').
Proof.
  apply (J_document_not_an_object_raises Sample.runtime
           (Sample.json_world true J.SchemaValid (PList [Sample.receipt]))
           (J.__init__ "receipt.json" (Some "schema.json")) (PList [Sample.receipt])).
  - reflexivity.
  - discriminate.
Defined.

(** X8: a file that holds the empty object [{}] is reported as if nothing
    had been loaded: the business rules and the type checks each fail with
    their "No JSON data loaded" error (and so does the schema check when one
    is requested and the library is there), no rule is run, no warning is
    added, and the totals are zero. *)
Theorem J_empty_object_is_reported_as_not_loaded
  (B : builtins) (W : J.world) (self : J.validator) :
  J.file_content W = J.Loaded (PDict []) ->
  exists r self',
    J.generate_report B W self = (Ok r, self') /\
    J.report_errors r
    = J.errors self ++ J_schema_errors_when_empty W self
      ++ [[Lit "No JSON data loaded for business rule validation"];
          [Lit "No JSON data loaded for data type validation"]] /\
    J.report_warnings r = J.warnings self /\
    J_business_rules_valid r = false /\ J_data_types_valid r = false /\
    J.overall_valid r = false /\
    J_calculated_totals r
    = Some {| J.calculated_subtotal := PInt 0; J.taxable_subtotal := PInt 0;
              J.item_count := 0 |}.
Proof.
  intros L. unfold J.generate_report, J.load_json, J_schema_errors_when_empty.
  rewrite L. unfold bind at 1. simpl. unfold bind at 1. simpl.
  destruct (J.given (J.schema_file self)).
  - unfold J.validate_schema.
    destruct (J.JSONSCHEMA_AVAILABLE W); simpl;
      eexists; eexists; (split; [reflexivity | ]); simpl;
      rewrite <- !app_assoc; repeat split; apply app_cons_length.
  - eexists. eexists. split; [reflexivity | ]. simpl.
    rewrite <- !app_assoc. repeat split. apply app_cons_length.
Qed.

Lemma J_empty_object_is_reported_as_not_loaded_witness :
  let W := Sample.json_world true J.SchemaValid (PDict []) in
  let self := J.__init__ "receipt.json" (Some "schema.json") in
  exists r self',
    J.generate_report Sample.runtime W self = (Ok r, self') /\
    J.report_errors r
    = J.errors self ++ J_schema_errors_when_empty W self
      ++ [[Lit "No JSON data loaded for business rule validation"];
          [Lit "No JSON data loaded for data type validation"]] /\
    J.report_warnings r = J.warnings self /\
    J_business_rules_valid r = false /\ J_data_types_valid r = false /\
    J.overall_valid r = false /\
    J_calculated_totals r
    = Some {| J.calculated_subtotal := PInt 0; J.taxable_subtotal := PInt 0;
              J.item_count := 0 |}.
Proof.
  intros W self.
  apply (J_empty_object_is_reported_as_not_loaded Sample.runtime W self).
  reflexivity.
Defined.

(** X9: when the file cannot be read or parsed, [generate_report] returns
    the short report: exactly one error is added, no warning, and
    [overall_valid] is false.  [print_report] then looks up
    ['schema_validation'], which the short report lacks, so it raises
    [KeyError], and so does [main]. *)
Theorem J_unreadable_file_gives_short_report_and_KeyError
  (B : builtins) (W W2 : J.world) (self : J.validator)
  (json_file schema : string) (json_report : option string) :
  (forall data, J.file_content W <> J.Loaded data) ->
  (exists r self' m,
     J.generate_report B W self = (Ok r, self') /\
     J.report_errors r = J.errors self ++ [m] /\
     J.report_warnings r = J.warnings self /\
     J.overall_valid r = false /\
     J_calculated_totals r = None /\
     fst (J.print_report B W self) = Raise KeyError) /\
  J.main B W W2 json_file schema json_report = Raise KeyError.
Proof.
  intros N.
  unfold J.main, J.print_report, J.generate_report, J.load_json.
  destruct (J.file_content W) as [data | text | text].
  - now destruct (N data).
  - split; [ | reflexivity]. eexists. eexists. eexists.
    split; [reflexivity | ]. now repeat split.
  - split; [ | reflexivity]. eexists. eexists. eexists.
    split; [reflexivity | ]. now repeat split.
Qed.

Lemma J_unreadable_file_gives_short_report_and_KeyError_witness :
  let W := {| J.JSONSCHEMA_AVAILABLE := true;
              J.file_content := J.JSONDecodeError "Expecting value: line 1 column 1 (char 0)";
              J.schema_check := fun _ => J.SchemaValid;
              J.now_rules := Sample.today;
              J.now_report := Sample.today |} in
  let self := J.__init__ "receipt.json" (Some "schema.json") in
  (exists r self' m,
     J.generate_report Sample.runtime W self = (Ok r, self') /\
     J.report_errors r = J.errors self ++ [m] /\
     J.report_warnings r = J.warnings self /\
     J.overall_valid r = false /\
     J_calculated_totals r = None /\
     fst (J.print_report Sample.runtime W self) = Raise KeyError) /\
  J.main Sample.runtime W W "receipt.json" "schema.json" (Some "report.json")
  = Raise KeyError.
Proof.
  intros W self.
  apply (J_unreadable_file_gives_short_report_and_KeyError Sample.runtime W W self).
  intros data. discriminate.
Defined.

(** ** Rule 9 of the JSON validator: the price loop *)

Lemma is_number_as_num v : is_number v = true -> exists a, as_num v = Some a.
Proof. destruct v; simpl; try discriminate; eauto. Qed.

(** X10: on prices that are all numbers the price loop of rule 9 never
    raises; it appends one error per negative price and one warning per
    price above 100000, each list in the order of the prices, and answers
    [True] exactly when no price is negative. *)
Theorem J_check_prices_on_numbers (prices : list pyval) (s : J.validator) :
  forallb is_number prices = true ->
  exists s',
    J.check_prices prices s
    = (Ok (forallb (fun p => negb (is_negative_price p)) prices), s') /\
    J.errors s' = J.errors s ++ map negative_price_error (filter is_negative_price prices) /\
    J.warnings s' = J.warnings s ++ map high_price_warning (filter is_high_price prices).
Proof.
  revert s. induction prices as [ | price rest IH]; intros s H; simpl in *.
  - exists s. now rewrite !app_nil_r.
  - apply andb_true_iff in H as [Hn Hr].
    destruct (is_number_as_num price Hn) as (a & Ea).
    assert (En : py_lt price (NInt 0) = Ok (is_negative_price price)).
    { unfold is_negative_price, py_lt. now rewrite Ea. }
    assert (Eg : py_gt price (NInt 100000) = Ok (num_ltb (NInt 100000) a)).
    { unfold py_gt. now rewrite Ea. }
    assert (Eh : is_high_price price
                 = negb (is_negative_price price) && num_ltb (NInt 100000) a).
    { unfold is_high_price. now rewrite Eg. }
    rewrite Eh.
    rewrite (bind_run _ _ s (is_negative_price price) s) by (unfold lift; now rewrite En).
    destruct (is_negative_price price); cbv beta iota.
    + rewrite (bind_run _ _ s false (snd (J.errors_append (negative_price_error price) s)))
        by reflexivity.
      destruct (IH (snd (J.errors_append (negative_price_error price) s)) Hr)
        as (s' & E & Ee & Ew).
      exists s'. rewrite (bind_run _ _ _ _ _ E). split; [reflexivity | ].
      simpl in Ee, Ew. simpl. rewrite Ee, Ew, <- app_assoc. now split.
    + destruct (num_ltb (NInt 100000) a); cbv beta iota.
      * rewrite (bind_run _ _ s true (snd (J.warnings_append (high_price_warning price) s)))
          by (unfold bind, lift; now rewrite Eg).
        destruct (IH (snd (J.warnings_append (high_price_warning price) s)) Hr)
          as (s' & E & Ee & Ew).
        exists s'. rewrite (bind_run _ _ _ _ _ E). split; [reflexivity | ].
        simpl in Ee, Ew. simpl. rewrite Ee, Ew, <- app_assoc. now split.
      * rewrite (bind_run _ _ s true s) by (unfold bind, lift; now rewrite Eg).
        destruct (IH s Hr) as (s' & E & Ee & Ew).
        exists s'. rewrite (bind_run _ _ _ _ _ E). now split.
Qed.

Lemma J_check_prices_on_numbers_witness :
  let prices := [PFloat 1.5%float; PInt (-2); PInt 250000; PBool true; PFloat (-0.5)%float] in
  exists s',
    J.check_prices prices (J.__init__ "receipt.json" None)
    = (Ok (forallb (fun p => negb (is_negative_price p)) prices), s') /\
    J.errors s' = [] ++ map negative_price_error (filter is_negative_price prices) /\
    J.warnings s' = [] ++ map high_price_warning (filter is_high_price prices).
Proof.
  intros prices.
  apply (J_check_prices_on_numbers prices (J.__init__ "receipt.json" None)).
  reflexivity.
Defined.

(** ** Rule 10 of the JSON validator: required fields *)

(** X11: on a JSON object the required-fields loop never raises; it
    appends one error per field that is not a key of the object, in the
    order of the field list, adds no warning, and answers [True] exactly
    when every field is a key.  Only the presence of the key counts: a field
    whose value is [null] or empty is present. *)
Theorem J_rule_required_on_object (d : dict) (fields : list string) (s : J.validator) :
  exists s',
    J.rule_required (PDict d) fields s
    = (Ok (forallb (fun field => dict_mem field d) fields), s') /\
    J.errors s'
    = J.errors s
      ++ map missing_field_error (filter (fun field => negb (dict_mem field d)) fields) /\
    J.warnings s' = J.warnings s.
Proof.
  revert s. induction fields as [ | field rest IH]; intros s; simpl.
  - exists s. now rewrite app_nil_r.
  - rewrite (bind_run _ _ s (dict_mem field d) s) by reflexivity.
    destruct (dict_mem field d); cbv beta iota.
    + rewrite (bind_run _ _ s true s) by reflexivity.
      destruct (IH s) as (s' & E & Ee & Ew).
      exists s'. rewrite (bind_run _ _ _ _ _ E). now split.
    + rewrite (bind_run _ _ s false (snd (J.errors_append (missing_field_error field) s)))
        by reflexivity.
      destruct (IH (snd (J.errors_append (missing_field_error field) s)))
        as (s' & E & Ee & Ew).
      exists s'. rewrite (bind_run _ _ _ _ _ E). split; [reflexivity | ].
      simpl in Ee, Ew. simpl. rewrite Ee, Ew, <- app_assoc. now split.
Qed.

(** ** What [xml_to_dict] builds *)

Section Shape.

Lemma is_normalized_dict d :
  is_normalized (PDict d) = forallb (fun kv => is_normalized_entry (snd kv)) d.
Proof. reflexivity. Qed.

Lemma is_normalized_not_list v :
  is_normalized v = true -> match v with PList _ => False | _ => True end.
Proof. now destruct v. Qed.

Lemma is_normalized_as_entry v : is_normalized v = true -> is_normalized_entry v = true.
Proof. now destruct v. Qed.

Lemma entry_of_two a c :
  is_normalized_entry a = true -> is_normalized c = true ->
  match a with PList _ => False | _ => True end ->
  is_normalized_entry (PList [a; c]) = true.
Proof.
  intros Ha Hc N. unfold is_normalized_entry. cbn [forallb]. rewrite Hc.
  destruct a; try discriminate Ha; try contradiction; unfold is_normalized_entry in Ha;
    now rewrite Ha.
Qed.

Lemma entries_dict_set k v d :
  forallb (fun kv => is_normalized_entry (snd kv)) d = true ->
  is_normalized_entry v = true ->
  forallb (fun kv => is_normalized_entry (snd kv)) (dict_set k v d) = true.
Proof.
  intros Hd Hv. induction d as [ | [k' v'] d IH]; simpl in *.
  - now rewrite Hv.
  - apply andb_true_iff in Hd as [H1 H2].
    destruct (String.eqb k k'); simpl.
    + now rewrite Hv.
    + now rewrite H1, IH.
Qed.

Lemma entries_dict_get k v d :
  forallb (fun kv => is_normalized_entry (snd kv)) d = true ->
  dict_get k d = Some v -> is_normalized_entry v = true.
Proof.
  intros Hd. induction d as [ | [k' v'] d IH]; simpl in *; [discriminate | ].
  apply andb_true_iff in Hd as [H1 H2].
  destruct (String.eqb k k').
  - now intros [= <-].
  - now apply IH.
Qed.

Lemma entries_add_child t c d :
  forallb (fun kv => is_normalized_entry (snd kv)) d = true ->
  is_normalized c = true ->
  forallb (fun kv => is_normalized_entry (snd kv)) (X.add_child d t c) = true.
Proof.
  intros Hd Hc. unfold X.add_child.
  destruct (dict_get t d) as [existing | ] eqn:E.
  - pose proof (entries_dict_get _ _ _ Hd E) as He.
    destruct existing; try discriminate He; apply entries_dict_set; try exact Hd.
    + now apply entry_of_two.
    + unfold is_normalized_entry in *. apply andb_true_iff in He as [Hl Hf].
      rewrite length_app, forallb_app, Hf. cbn [forallb]. rewrite Hc.
      apply Nat.leb_le in Hl. apply andb_true_iff. split; [ | reflexivity].
      apply Nat.leb_le. simpl. lia.
    + now apply entry_of_two.
  - apply entries_dict_set; [exact Hd | now apply is_normalized_as_entry].
Qed.

Lemma entries_add_attributes attrib :
  forallb (fun kv => is_normalized_entry (snd kv)) (X.add_attributes attrib) = true.
Proof.
  unfold X.add_attributes.
  assert (G : forall base,
             forallb (fun kv => is_normalized_entry (snd kv)) base = true ->
             forallb (fun kv => is_normalized_entry (snd kv))
               (fold_left (fun result kv => dict_set ("@" ++ fst kv) (PStr (snd kv)) result)
                  attrib base) = true).
  { induction attrib as [ | kv attrib IH]; intros base Hb; [exact Hb | ].
    simpl. apply IH. now apply entries_dict_set. }
  now apply G.
Qed.

Lemma entries_children_dict children : forall base,
  Forall (fun c => is_normalized (X.xml_to_dict c) = true) children ->
  forallb (fun kv => is_normalized_entry (snd kv)) base = true ->
  forallb (fun kv => is_normalized_entry (snd kv)) (children_dict base children) = true.
Proof.
  induction children as [ | c children IH]; intros base F Hb; [exact Hb | ].
  inversion F as [ | ? ? Hc F']; subst. unfold children_dict in *. simpl.
  apply IH; [exact F' | ]. now apply entries_add_child.
Qed.

(** Induction on a tree, with the property known of every child. *)
Lemma element_induction (P : X.element -> Prop) :
  (forall t attrib text children,
      Forall P children -> P (X.Element t attrib text children)) ->
  forall e, P e.
Proof.
  intros step. fix IH 1. intros [t attrib text children]. apply step.
  induction children as [ | c children IHc]; constructor; [apply IH | exact IHc].
Qed.

End Shape.

Lemma xml_to_dict_shape (e : X.element) :
  is_normalized (X.xml_to_dict e) = true.
Proof.
  induction e as [t attrib text children IH] using element_induction.
  rewrite xml_to_dict_eq.
  destruct (X.stripped_text text) as [s | ].
  - destruct children as [ | c children]; [reflexivity | ].
    rewrite is_normalized_dict. apply entries_children_dict; [exact IH | ].
    apply entries_dict_set; [apply entries_add_attributes | reflexivity].
  - rewrite is_normalized_dict. apply entries_children_dict; [exact IH | ].
    apply entries_add_attributes.
Qed.

(** X12: [xml_to_dict] only ever builds strings and dicts: the result is a
    string or a dict, every entry of a dict is again such a value or a list
    of them, a list has at least two elements and holds no list.  No number,
    boolean or [None] appears anywhere, so every leaf the rules read is a
    string. *)
Theorem xml_to_dict_is_normalized (e : X.element) :
  is_normalized (X.xml_to_dict e) = true.
Proof. apply xml_to_dict_shape. Qed.

Lemma dict_get_add_child_after k c d acc :
  Forall (fun v => match v with PList _ => False | _ => True end) acc ->
  dict_get k d = entry_of acc ->
  dict_get k (X.add_child d k c) = entry_of (acc ++ [c]).
Proof.
  intros F E. unfold X.add_child. rewrite E.
  destruct acc as [ | a [ | b acc]]; simpl.
  - apply dict_get_set_same.
  - inversion F as [ | ? ? Ha _]; subst. destruct a; try contradiction;
      apply dict_get_set_same.
  - apply dict_get_set_same.
Qed.

Lemma children_dict_entry k children : forall base acc,
  Forall (fun v => match v with PList _ => False | _ => True end) acc ->
  dict_get k base = entry_of acc ->
  dict_get k (children_dict base children)
  = entry_of (acc ++ map X.xml_to_dict (children_tagged k children)).
Proof.
  induction children as [ | c children IH]; intros base acc F E.
  - simpl. now rewrite app_nil_r.
  - unfold children_dict, children_tagged in *. simpl.
    destruct (String.eqb k (X.tag c)) eqn:T.
    + apply String.eqb_eq in T. subst k. simpl.
      change (acc ++ X.xml_to_dict c :: ?l) with (acc ++ [X.xml_to_dict c] ++ l).
      rewrite app_assoc. apply IH.
      * apply Forall_app. split; [exact F | ]. constructor; [ | constructor].
        apply is_normalized_not_list, xml_to_dict_shape.
      * now apply dict_get_add_child_after.
    + apply IH; [exact F | ]. now rewrite dict_get_add_child_other.
Qed.

(** X13: what the dict of an element holds under a tag [k] (not
    [#text], not an attribute key): nothing when no child carries the tag,
    the conversion of the child itself when exactly one does, and otherwise
    the list of the conversions of all of them in document order, wherever
    they stand among the other children. *)
Theorem xml_to_dict_entry_of_tag
  (k t : string) (attrib : list (string * string)) (text : option string)
  (children : list X.element) :
  (forall a, String.eqb k ("@" ++ a) = false) ->
  String.eqb k "#text" = false ->
  X.stripped_text text = None \/ children <> [] ->
  exists d,
    X.xml_to_dict (X.Element t attrib text children) = PDict d /\
    dict_get k d = entry_of (map X.xml_to_dict (children_tagged k children)).
Proof.
  intros Na Nt H. rewrite xml_to_dict_eq.
  destruct (X.stripped_text text) as [s | ].
  - destruct children as [ | c children]; [now destruct H | ].
    eexists. split; [reflexivity | ].
    apply (children_dict_entry k (c :: children) _ []); [constructor | ].
    rewrite dict_get_set_other; [ | exact Nt]. now apply add_attributes_other.
  - eexists. split; [reflexivity | ].
    apply (children_dict_entry k children _ []); [constructor | ].
    now apply add_attributes_other.
Qed.

Lemma xml_to_dict_entry_of_tag_witness :
  let children := [Sample.leaf "note" "a"; Sample.xml_item "Milk" "2" "1.50" "3.00" "true";
                   Sample.leaf "note" "b";
                   Sample.xml_item "Tea" "3" "2.00" "6.00" "true";
                   Sample.xml_item "Rice" "1" "4.75" "4.75" "false"] in
  exists d,
    X.xml_to_dict (X.Element "items" [("count", "3")] None children) = PDict d /\
    dict_get "item" d = entry_of (map X.xml_to_dict (children_tagged "item" children)).
Proof.
  intros children.
  apply (xml_to_dict_entry_of_tag "item" "items" [("count", "3")] None children).
  - intros a. reflexivity.
  - reflexivity.
  - left. reflexivity.
Defined.

(** ** Rule 3: totals that never mismatch *)

Lemma exceeds_tolerance_same (f : float) : exceeds_tolerance f f = false.
Proof.
  unfold exceeds_tolerance. rewrite ltb_spec, abs_spec, sub_spec.
  destruct (Prim2SF f) as [s | s | | s m e];
    try (destruct s; reflexivity); try reflexivity.
  unfold SF64sub, SFsub. now rewrite Z.sub_diag.
Qed.

Lemma exceeds_tolerance_nan (f : float) :
  exceeds_tolerance nan f = false /\ exceeds_tolerance f nan = false.
Proof.
  unfold exceeds_tolerance. rewrite !ltb_spec, !abs_spec, !sub_spec.
  replace (Prim2SF nan) with S754_nan by reflexivity.
  split; [reflexivity | ].
  now destruct (Prim2SF f) as [s | s | | s m e].
Qed.

(** X14: rule 3 of either validator passes and appends nothing when the
    header total and the pricing grand total convert to the same number,
    infinities included, and also whenever one of the two is not-a-number,
    whatever the other is. *)
Theorem total_check_passes_on_equal_or_nan
  (B : builtins) (data t g : pyval) (p : dict) (total_amount calculated_total : float)
  (sj : J.validator) (sx : X.validator) :
  py_get data "total_amount" (PInt 0) = Ok t ->
  py_float B t = Ok total_amount ->
  py_get data "pricing" (PDict []) = Ok (PDict p) ->
  dict_get "grand_total" p = Some g ->
  py_float B g = Ok calculated_total ->
  total_amount = calculated_total \/ total_amount = nan \/ calculated_total = nan ->
  J.rule_total_amount B data sj = (Ok true, sj) /\
  X.rule_total_amount B data sx = (Ok true, sx).
Proof.
  intros Ht Hf Hp Hg Hc H.
  rewrite (J_rule_total_amount_run B data t p g _ _ sj Ht Hf Hp Hg Hc).
  rewrite (X_rule_total_amount_run B data t p g _ _ sx Ht Hf Hp Hg Hc).
  assert (E : exceeds_tolerance total_amount calculated_total = false).
  { destruct H as [-> | [-> | ->]].
    - apply exceeds_tolerance_same.
    - apply exceeds_tolerance_nan.
    - apply exceeds_tolerance_nan. }
  now rewrite E.
Qed.

Lemma total_check_passes_on_equal_or_nan_witness :
  let data := PDict [("total_amount", PFloat nan);
                     ("pricing", PDict [("grand_total", PFloat 19)])] in
  let sj := J.__init__ "receipt.json" None in
  let sx := X.__init__ "receipt.xml" "receipt_schema.xsd" in
  J.rule_total_amount Sample.runtime data sj = (Ok true, sj) /\
  X.rule_total_amount Sample.runtime data sx = (Ok true, sx).
Proof.
  intros data sj sx.
  apply (total_check_passes_on_equal_or_nan Sample.runtime data (PFloat nan) (PFloat 19)
           [("grand_total", PFloat 19)] nan 19 sj sx); try reflexivity.
  right. left. reflexivity.
Defined.

(** ** [calculate_totals] *)

Lemma sum_subtotals_all_taxed items : forall acc r,
  forallb is_taxed items = true ->
  J.sum_subtotals false acc items = Ok r ->
  J.sum_subtotals true acc items = Ok r.
Proof.
  induction items as [ | item rest IH]; intros acc r F H; simpl in *; [exact H | ].
  apply andb_true_iff in F as [Ft Fr]. unfold is_taxed in Ft.
  destruct (py_get item "tax_applied" (PBool false)) as [v | e]; [ | discriminate].
  simpl. rewrite Ft.
  destruct (py_get item "subtotal" (PInt 0)) as [subtotal | e]; [ | discriminate].
  simpl in *. destruct (py_add acc subtotal) as [acc' | e]; [ | discriminate].
  simpl in *. now apply IH.
Qed.

Lemma sum_subtotals_none_taxed items : forall acc r,
  forallb (fun item => negb (is_taxed item)) items = true ->
  J.sum_subtotals true acc items = Ok r ->
  r = acc.
Proof.
  induction items as [ | item rest IH]; intros acc r F H; simpl in *.
  - now injection H as <-.
  - apply andb_true_iff in F as [Ft Fr]. unfold is_taxed in Ft.
    destruct (py_get item "tax_applied" (PBool false)) as [v | e]; [ | discriminate].
    simpl in *. apply negb_true_iff in Ft. rewrite Ft in H. now apply IH.
Qed.

(** X15: [calculate_totals] leaves the validator object as it is.  When it
    returns, [item_count] is the length of [items]; if every item has a true
    [tax_applied] the taxable subtotal is the calculated subtotal, and if
    none has, the taxable subtotal is the integer [0]. *)
Theorem J_calculate_totals_tax_split
  (s s' : J.validator) (t : J.totals) (items : pyval) (elements : list pyval) :
  J.calculate_totals s = (Ok t, s') ->
  py_get (J.json_data s) "items" (PList []) = Ok items ->
  py_iter items = Ok elements ->
  s' = s /\
  py_len items = Ok (J.item_count t) /\
  (forallb is_taxed elements = true -> J.taxable_subtotal t = J.calculated_subtotal t) /\
  (forallb (fun item => negb (is_taxed item)) elements = true ->
   J.taxable_subtotal t = PInt 0).
Proof.
  intros H Hi He. unfold J.calculate_totals in H.
  apply bind_Ok in H as (data & s0 & H0 & H). injection H0 as <- <-.
  apply bind_Ok in H as (items' & s0 & H0 & H). unfold lift in H0. rewrite Hi in H0.
  injection H0 as <- <-.
  apply bind_Ok in H as (elements' & s0 & H0 & H). unfold lift in H0. rewrite He in H0.
  injection H0 as <- <-.
  apply bind_Ok in H as (subtotal & s0 & H1 & H). injection H1 as H1 <-.
  apply bind_Ok in H as (taxable & s0 & H2 & H). injection H2 as H2 <-.
  apply bind_Ok in H as (count & s0 & H3 & H). injection H3 as H3 <-.
  injection H as <- <-. simpl.
  split; [reflexivity | ]. split; [exact H3 | ]. split.
  - intros F. pose proof (sum_subtotals_all_taxed _ _ _ F H1) as E. congruence.
  - intros F. now apply (sum_subtotals_none_taxed _ _ _ F H2).
Qed.

Lemma J_calculate_totals_tax_split_witness :
  let W := Sample.json_world false J.SchemaValid Sample.receipt in
  let s := snd (J.load_json W (J.__init__ "receipt.json" None)) in
  exists t s' items elements,
    J.calculate_totals s = (Ok t, s') /\
    py_get (J.json_data s) "items" (PList []) = Ok items /\
    py_iter items = Ok elements /\
    s' = s /\
    py_len items = Ok (J.item_count t) /\
    (forallb is_taxed elements = true -> J.taxable_subtotal t = J.calculated_subtotal t) /\
    (forallb (fun item => negb (is_taxed item)) elements = true ->
     J.taxable_subtotal t = PInt 0).
Proof.
  intros W s. eexists. eexists. eexists. eexists.
  split; [vm_compute; reflexivity | ].
  split; [vm_compute; reflexivity | ].
  split; [vm_compute; reflexivity | ].
  eapply (J_calculate_totals_tax_split s); vm_compute; reflexivity.
Defined.

(** ** A purchase date that does not parse *)

Section JsonDate.

Variable B : builtins.
Variable W : J.world.

Lemma J_grows_In s s' m : J_grows s s' -> In m (J.errors s) -> In m (J.errors s').
Proof. intros ([es E] & _) H. rewrite E. apply in_or_app. now left. Qed.

Lemma J_grows_length s s' :
  J_grows s s' -> (List.length (J.errors s) <= List.length (J.errors s'))%nat.
Proof. intros ([es E] & _). rewrite E, length_app. lia. Qed.

Lemma J_rule_purchase_date_unparseable d date s ok s' :
  dict_get "purchase_date" d = Some (PStr date) ->
  date <> "" ->
  fromisoformat B (str_replace "Z" "+00:00" date) = None ->
  J.rule_purchase_date B W (PDict d) s = (Ok ok, s') ->
  J.errors s' = J.errors s ++ [[Lit "Invalid date format: "; FmtExn ValueError]].
Proof.
  intros Hd Hn Hf. unfold J.rule_purchase_date, bind, lift, try_except. simpl.
  rewrite Hd. simpl. apply String.eqb_neq in Hn. rewrite Hn. simpl. rewrite Hf. simpl.
  now intros [= _ <-].
Qed.

Lemma J_validate_data_types_unparseable d date s ok s' :
  dict_get "purchase_date" d = Some (PStr date) ->
  fromisoformat B (str_replace "Z" "+00:00" date) = None ->
  J.json_data s = PDict d ->
  J.validate_data_types B s = (Ok ok, s') ->
  In [Lit "Field 'purchase_date' must be valid ISO date. Found: "; Fmt (PStr date)]
    (J.errors s') /\
  (List.length (J.errors s) < List.length (J.errors s'))%nat.
Proof.
  intros Hd Hf D H. unfold J.validate_data_types in H.
  apply bind_Ok in H as (data & s0 & H0 & H). injection H0 as <- <-. rewrite D in H.
  destruct (negb (truthy (PDict d))) eqn:T.
  { destruct d; [discriminate Hd | discriminate T]. }
  apply bind_Ok in H as (receipt_id & s0 & H0 & H). injection H0 as _ <-.
  apply bind_Ok in H as (u & s1 & H1 & H).
  apply bind_Ok in H as (total & s1' & H0 & H). injection H0 as _ <-.
  apply bind_Ok in H as (ok1 & s2 & H2 & H).
  apply bind_Ok in H as (date' & s2' & H0 & H).
  unfold lift in H0. simpl in H0. rewrite Hd in H0. injection H0 as <- <-.
  apply bind_Ok in H as (ok2 & s3 & H3 & H). injection H as _ <-.
  assert (G1 : J_grows s s1).
  { revert H1. generalize s (Ok (A := unit) u) s1.
    match goal with
    | |- forall a b c, ?m a = (b, c) -> _ => change (keeps J_grows m)
    end.
    keeps_with J_grows_refl J_grows_trans. }
  assert (G2 : J_grows s1 s2).
  { revert H2. generalize s1 (Ok (A := bool) ok1) s2.
    match goal with
    | |- forall a b c, ?m a = (b, c) -> _ => change (keeps J_grows m)
    end.
    keeps_with J_grows_refl J_grows_trans. }
  unfold try_except, bind, lift in H3. simpl in H3. rewrite Hf in H3. simpl in H3.
  injection H3 as _ <-. simpl. split.
  - apply in_or_app. right. now left.
  - apply J_grows_length in G1, G2. rewrite length_app. simpl. lia.
Qed.

End JsonDate.

(** X16: a purchase date that is a non-empty string which
    [datetime.fromisoformat] rejects is reported twice in every report that
    is returned: once by rule 2 of the business rules and once by the type
    check, and both verdicts and [overall_valid] are false. *)
Theorem J_unparseable_date_is_reported_twice
  (B : builtins) (W : J.world) (self self' : J.validator) (r : J.report)
  (d : dict) (date : string) :
  J.file_content W = J.Loaded (PDict d) ->
  dict_get "purchase_date" d = Some (PStr date) ->
  date <> "" ->
  fromisoformat B (str_replace "Z" "+00:00" date) = None ->
  J.generate_report B W self = (Ok r, self') ->
  In [Lit "Invalid date format: "; FmtExn ValueError] (J.report_errors r) /\
  In [Lit "Field 'purchase_date' must be valid ISO date. Found: "; Fmt (PStr date)]
    (J.report_errors r) /\
  J_business_rules_valid r = false /\ J_data_types_valid r = false /\
  J.overall_valid r = false.
Proof.
  intros L Hd Hn Hf H. unfold J.generate_report in H.
  apply bind_Ok in H as (ok & s1 & H1 & H).
  unfold J.load_json in H1. rewrite L in H1. injection H1 as <- <-.
  simpl in H.
  apply bind_Ok in H as (self0 & s1' & H0 & H). injection H0 as <- <-.
  apply bind_Ok in H as (sv & s2 & Hs & H).
  apply bind_Ok in H as (cv & s3 & Hc & H).
  apply bind_Ok in H as (tv & s4 & Ht & H).
  apply bind_Ok in H as (totals & s5 & Hq & H).
  apply bind_Ok in H as (self1 & s6 & Hg & H). injection Hg as <- <-.
  injection H as <- <-. simpl in *.
  assert (D2 : J.json_data s2 = PDict d).
  { destruct (J.given (J.schema_file self)).
    - apply bind_Ok in Hs as (v & s2' & Hv & Hs). injection Hs as _ <-.
      apply J_keeps_validate_schema in Hv. now destruct Hv as (_ & _ & -> & _).
    - now injection Hs as _ <-. }
  assert (T2 : truthy (J.json_data s2) = true).
  { rewrite D2. now destruct d. }
  pose proof (J_flags_validate_business_rules B W _ _ _ Hc) as Fc.
  pose proof (J_flags_validate_data_types B _ _ _ Ht) as Ft.
  pose proof (J_keeps_validate_data_types B _ _ _ Ht) as G34.
  pose proof (J_keeps_calculate_totals _ _ _ Hq) as G45.
  pose proof (J_keeps_validate_business_rules B W _ _ _ Hc) as (_ & _ & D3 & _).
  destruct (J_validate_business_rules_stages B W s2 cv s3 T2 Hc)
    as (items & ok1 & t1 & ok2 & t2 & ok3 & t3 & ok4 & t4 & R1 & R2 & R3 & R4 & G4).
  rewrite D2 in R2.
  pose proof (J_rule_purchase_date_unparseable B W d date _ _ _ Hd Hn Hf R2) as E2.
  pose proof (J_keeps_rule_item_count _ _ _ _ R1) as G01.
  pose proof (J_keeps_rule_total_amount B _ _ _ _ R3) as G23.
  pose proof (J_keeps_rule_items _ _ _ _ R4) as G3'.
  assert (I3 : In [Lit "Invalid date format: "; FmtExn ValueError] (J.errors s3)).
  { eapply J_grows_In; [exact G4 | ]. eapply J_grows_In; [exact G3' | ].
    eapply J_grows_In; [exact G23 | ]. rewrite E2. apply in_or_app. right. now left. }
  assert (L3 : (List.length (J.errors s2) < List.length (J.errors s3))%nat).
  { apply J_grows_length in G01, G23, G3', G4. rewrite E2, length_app in G23.
    simpl in G23. lia. }
  destruct (J_validate_data_types_unparseable B d date s3 tv s4 Hd Hf) as (I4 & L4);
    [now rewrite D3 | exact Ht | ].
  split; [eapply J_grows_In; [exact G45 | ]; eapply J_grows_In; [exact G34 | exact I3] | ].
  split; [eapply J_grows_In; [exact G45 | exact I4] | ].
  split.
  { destruct cv; [ | reflexivity].
    pose proof (proj1 (flagged_iff _ _ _ _ Fc) eq_refl) as E. rewrite E in L3. lia. }
  split.
  { destruct tv; [ | reflexivity].
    pose proof (proj1 (flagged_iff _ _ _ _ Ft) eq_refl) as E. rewrite E in L4. lia. }
  apply J_grows_length in G45. apply Nat.eqb_neq. lia.
Qed.

Lemma J_unparseable_date_is_reported_twice_witness :
  let d := [("purchase_date", PStr "15/01/2024")] in
  let W := Sample.json_world false J.SchemaValid (PDict d) in
  exists r self',
    J.generate_report Sample.runtime W (J.__init__ "receipt.json" None) = (Ok r, self') /\
    In [Lit "Invalid date format: "; FmtExn ValueError] (J.report_errors r) /\
    In [Lit "Field 'purchase_date' must be valid ISO date. Found: ";
        Fmt (PStr "15/01/2024")] (J.report_errors r) /\
    J_business_rules_valid r = false /\ J_data_types_valid r = false /\
    J.overall_valid r = false.
Proof.
  intros d W. eexists. eexists. split.
  - vm_compute. reflexivity.
  - eapply (J_unparseable_date_is_reported_twice Sample.runtime W
              (J.__init__ "receipt.json" None) _ _ d "15/01/2024");
      try (vm_compute; reflexivity).
    discriminate.
Defined.

(** ** Items that are not objects *)

Section Raising.

Context {S A C : Type}.

(** A sequence raises when its second part raises after every result of
    the first. *)
Lemma bind_raises (m : M S A) (k : A -> M S C) s :
  (forall a s1, m s = (Ok a, s1) -> exists e s', k a s1 = (Raise e, s')) ->
  exists e s', bind m k s = (Raise e, s').
Proof.
  intros H. unfold bind. destruct (m s) as [[a | e] s1].
  - now apply H.
  - now exists e, s1.
Qed.

End Raising.

Lemma J_check_items_raises (elements : list pyval) :
  Exists (fun v => forall d, v <> PDict d) elements ->
  forall i s, exists e s', J.check_items i elements s = (Raise e, s').
Proof.
  induction 1 as [item rest N | item rest _ IH]; intros i s; simpl.
  - apply bind_raises. intros ok s1 H. exfalso.
    unfold J.check_item in H. apply bind_Ok in H as (q & s0 & H0 & _).
    unfold lift in H0. now rewrite (py_get_not_a_dict _ _ _ N) in H0.
  - apply bind_raises. intros ok s1 _. apply bind_raises. intros ok' s2 H.
    destruct (IH (i + 1) s1) as (e & s' & E). rewrite E in H. discriminate.
Qed.

Lemma X_check_items_raises (B : builtins) (elements : list pyval) :
  Exists (fun v => forall d, v <> PDict d) elements ->
  forall i s, exists e s', X.check_items B i elements s = (Raise e, s').
Proof.
  induction 1 as [item rest N | item rest _ IH]; intros i s; simpl.
  - apply bind_raises. intros ok s1 H. exfalso.
    unfold X.check_item in H. apply bind_Ok in H as (q & s0 & H0 & _).
    unfold lift in H0. now rewrite (py_get_not_a_dict _ _ _ N) in H0.
  - apply bind_raises. intros ok s1 _. apply bind_raises. intros ok' s2 H.
    destruct (IH (i + 1) s1) as (e & s' & E). rewrite E in H. discriminate.
Qed.

Lemma J_rules_raise_on_bad_item (B : builtins) (W : J.world) (s : J.validator)
  (items : pyval) (elements : list pyval) :
  py_get (J.json_data s) "items" (PList []) = Ok items ->
  py_iter items = Ok elements ->
  Exists (fun v => forall d, v <> PDict d) elements ->
  exists e s', J.validate_business_rules B W s = (Raise e, s').
Proof.
  intros Hi He Hx. unfold J.validate_business_rules.
  rewrite (bind_run _ _ s (J.json_data s) s) by reflexivity.
  assert (T : truthy (J.json_data s) = true).
  { destruct (J.json_data s) as [ | | | | | | d]; try discriminate.
    destruct d; [ | reflexivity]. simpl in Hi. injection Hi as <-.
    injection He as <-. inversion Hx. }
  rewrite T. simpl.
  apply bind_raises. intros [items' ok1] s1 H1.
  assert (items' = items) as ->.
  { unfold J.rule_item_count in H1.
    apply bind_Ok in H1 as (it & s0 & H0 & H1). unfold lift in H0. rewrite Hi in H0.
    injection H0 as <- <-.
    apply bind_Ok in H1 as (n & s0 & _ & H1).
    now destruct (n <? 5); injection H1 as <- _ _. }
  apply bind_raises. intros ok2 s2 _.
  apply bind_raises. intros ok3 s3 _.
  apply bind_raises. intros ok4 s4 H4. exfalso.
  unfold J.rule_items in H4. simpl in H4.
  apply bind_Ok in H4 as (els & s0 & H0 & H4). unfold lift in H0. rewrite He in H0.
  injection H0 as <- <-.
  destruct (J_check_items_raises elements Hx 0 s3) as (e & s' & E).
  rewrite E in H4. discriminate.
Qed.

(** X17: when [items] of a JSON document is iterable but some element the
    loop of rule 4 meets is not an object (an array holding a number or a
    string, or [items] given as an object or a string), [generate_report]
    raises: no report is returned. *)
Theorem J_item_not_an_object_raises
  (B : builtins) (W : J.world) (self : J.validator)
  (data items : pyval) (elements : list pyval) :
  J.file_content W = J.Loaded data ->
  py_get data "items" (PList []) = Ok items ->
  py_iter items = Ok elements ->
  Exists (fun v => forall d, v <> PDict d) elements ->
  exists e self', J.generate_report B W self = (Raise e, self').
Proof.
  intros L Hi He Hx. unfold J.generate_report, J.load_json. rewrite L.
  unfold bind at 1. simpl. unfold bind at 1. simpl.
  set (s1 := {| J.json_file := J.json_file self; J.schema_file := J.schema_file self;
                J.errors := J.errors self; J.warnings := J.warnings self;
                J.json_data := data |}).
  destruct (J_schema_stage_returns W s1) as (sv & s2 & Es & D2).
  change (J.schema_file self) with (J.schema_file s1).
  rewrite (bind_run _ _ _ _ _ Es).
  destruct (J_rules_raise_on_bad_item B W s2 items elements) as (e & s' & E);
    [now rewrite D2 | exact He | exact Hx | ].
  exists e, s'. now apply bind_raise.
Qed.

Lemma J_item_not_an_object_raises_witness :
  let data := Sample.with_field "items"
                (PList (Sample.five_items ++ [PStr "Sugar"])) Sample.receipt in
  exists e self',
    J.generate_report Sample.runtime (Sample.json_world true J.SchemaValid data)
      (J.__init__ "receipt.json" (Some "schema.json"))
    = (Raise e, self').
Proof.
  intros data.
  eapply (J_item_not_an_object_raises Sample.runtime
            (Sample.json_world true J.SchemaValid data)
            (J.__init__ "receipt.json" (Some "schema.json")) data).
  - reflexivity.
  - vm_compute. reflexivity.
  - vm_compute. reflexivity.
  - do 5 apply Exists_cons_tl. apply Exists_cons_hd. discriminate.
Defined.

Lemma X_rules_raise_on_bad_item (B : builtins) (W : X.world) (s : X.validator)
  (xml_data items : pyval) (elements : list pyval) :
  X.get_items xml_data = Ok items ->
  py_iter items = Ok elements ->
  Exists (fun v => forall d, v <> PDict d) elements ->
  exists e s', X.validate_business_rules B W xml_data s = (Raise e, s').
Proof.
  intros Hi He Hx. unfold X.validate_business_rules.
  apply bind_raises. intros ok1 s1 _.
  apply bind_raises. intros ok2 s2 _.
  apply bind_raises. intros ok3 s3 _.
  apply bind_raises. intros ok4 s4 H4. exfalso.
  unfold X.rule_items in H4.
  apply bind_Ok in H4 as (it & s0 & H0 & H4). unfold lift in H0. rewrite Hi in H0.
  injection H0 as <- <-.
  apply bind_Ok in H4 as (els & s0 & H0 & H4). unfold lift in H0. rewrite He in H0.
  injection H0 as <- <-.
  destruct (X_check_items_raises B elements Hx 0 s3) as (e & s' & E).
  rewrite E in H4. discriminate.
Qed.

(** X18: in the XML validator the same situation is caught.  When the
    entry [items.item] of the converted tree is iterable but some element
    the loop of rule 4 meets is not a dict (a single [item] child, whose
    conversion is iterated key by key, or an [item] holding only text), the
    rules raise, the outer handler records "XML content validation failed"
    as the last error, and the report is returned with [content_valid] and
    [overall_valid] false. *)
Theorem X_item_not_a_dict_fails_content
  (B : builtins) (W : X.world) (self : X.validator) (root : X.element)
  (items : pyval) (elements : list pyval) :
  X.parse_file W = X.Parsed root ->
  X.get_items (X.xml_to_dict root) = Ok items ->
  py_iter items = Ok elements ->
  Exists (fun v => forall d, v <> PDict d) elements ->
  exists r self' e,
    X.generate_report B W self = (Ok r, self') /\
    X.content_valid r = false /\ X.overall_valid r = false /\
    last (X.report_errors r) [] = [Lit "XML content validation failed: "; FmtExn e].
Proof.
  intros P Hi He Hx. unfold X.generate_report.
  assert (Hs : exists sv s1,
             (if X.LXML_AVAILABLE W then v <- X.validate_schema W ;; ret (Some v)
              else ret None) self = (Ok sv, s1)).
  { destruct (X.LXML_AVAILABLE W).
    - destruct (X_validate_schema_returns W self) as (v & s1 & E).
      exists (Some v), s1. now rewrite (bind_run _ _ _ _ _ E).
    - now exists None, self. }
  destruct Hs as (sv & s1 & Es). rewrite (bind_run _ _ _ _ _ Es).
  destruct (X_rules_raise_on_bad_item B W s1 _ items elements Hi He Hx) as (e & s2 & E).
  assert (Ec : X.validate_xml_content B W s1
               = (Ok false,
                  snd (X.errors_append [Lit "XML content validation failed: "; FmtExn e] s2))).
  { unfold X.validate_xml_content. rewrite P. unfold try_except. now rewrite E. }
  rewrite (bind_run _ _ _ _ _ Ec).
  eexists. eexists. exists e. split; [reflexivity | ]. simpl.
  split; [reflexivity | ]. split; [apply app_cons_length | apply last_last].
Qed.

Lemma X_item_not_a_dict_fails_content_witness :
  let root := Sample.xml_receipt [Sample.xml_item "Milk" "2" "1.50" "3.00" "true"]
                Sample.card "3.00" "3.00" in
  exists r self' e,
    X.generate_report Sample.runtime (Sample.xml_world root)
      (X.__init__ "receipt.xml" "receipt_schema.xsd") = (Ok r, self') /\
    X.content_valid r = false /\ X.overall_valid r = false /\
    last (X.report_errors r) [] = [Lit "XML content validation failed: "; FmtExn e].
Proof.
  intros root.
  eapply (X_item_not_a_dict_fails_content Sample.runtime (Sample.xml_world root)
            (X.__init__ "receipt.xml" "receipt_schema.xsd") root).
  - reflexivity.
  - vm_compute. reflexivity.
  - vm_compute. reflexivity.
  - apply Exists_cons_hd. discriminate.
Defined.

(** ** Rule 4 on an item whose three fields are integers *)

(** An integer magnitude exceeds the tolerance exactly when it is not 0. *)
Lemma gt_tolerance_int (n : Z) :
  0 <= n -> num_ltb (NFloat 0.01%float) (NInt n) = negb (n =? 0).
Proof.
  intros H. unfold num_ltb, compare_int_float.
  replace (Prim2SF 0.01%float) with (S754_finite false 5764607523034235 (-59))
    by (vm_compute; reflexivity).
  cbv beta iota. replace (0 <=? -59) with false by reflexivity.
  replace (- -59) with 59 by reflexivity.
  destruct (n =? 0) eqn:E.
  - apply Z.eqb_eq in E. now subst n.
  - apply Z.eqb_neq in E. simpl negb.
    assert (G : n * 2 ^ 59 > 5764607523034235).
    { assert (2 ^ 59 = 576460752303423488) by reflexivity. nia. }
    unfold Z.gt in G. now rewrite G.
Qed.

(** X19: on an item object whose quantity [q], unit price [u] and subtotal
    [t] are integers the loop body of rule 4 never raises, and the item
    passes exactly when [q > 0], [u >= 0] and [t = q * u]: between integers
    the tolerance of 0.01 allows no difference at all.  An item that passes
    leaves the object unchanged. *)
Theorem J_check_item_on_integers
  (i q u t : Z) (item : pyval) (s : J.validator) :
  py_get item "quantity" (PInt 0) = Ok (PInt q) ->
  py_get item "unit_price" (PInt 0) = Ok (PInt u) ->
  py_get item "subtotal" (PInt 0) = Ok (PInt t) ->
  exists s',
    J.check_item i item s = (Ok ((0 <? q) && (0 <=? u) && (t =? q * u)), s') /\
    ((0 <? q) && (0 <=? u) && (t =? q * u) = true -> s' = s).
Proof.
  intros Hq Hu Ht. unfold J.check_item.
  rewrite (bind_run _ _ s (PInt q) s) by (unfold lift; now rewrite Hq).
  rewrite (bind_run _ _ s (PInt u) s) by (unfold lift; now rewrite Hu).
  rewrite (bind_run _ _ s (PInt t) s) by (unfold lift; now rewrite Ht).
  unfold J.check_quantity, J.check_unit_price, J.check_subtotal, bind, lift.
  cbn [is_int is_number negb py_le py_lt py_gt py_mul py_sub py_abs as_num num_arith
       num_leb].
  change (num_ltb (NInt u) (NInt 0)) with (u <? 0).
  rewrite (gt_tolerance_int (Z.abs (t - q * u))) by apply Z.abs_nonneg.
  replace (q <=? 0) with (negb (0 <? q)) by (destruct (Z.ltb_spec 0 q), (Z.leb_spec q 0); lia || reflexivity).
  replace (u <? 0) with (negb (0 <=? u)) by (destruct (Z.ltb_spec u 0), (Z.leb_spec 0 u); lia || reflexivity).
  replace (Z.abs (t - q * u) =? 0) with (t =? q * u)
    by (destruct (Z.eqb_spec t (q * u)), (Z.eqb_spec (Z.abs (t - q * u)) 0); lia || reflexivity).
  destruct (0 <? q), (0 <=? u), (t =? q * u); simpl;
    eexists; (split; [reflexivity | ]); intros E; try discriminate E; reflexivity.
Qed.

Lemma J_check_item_on_integers_witness :
  let item := PDict [("name", PStr "Tea"); ("quantity", PInt 3); ("unit_price", PInt 2);
                     ("subtotal", PInt 7)] in
  let s := J.__init__ "receipt.json" None in
  exists s',
    J.check_item 3 item s = (Ok ((0 <? 3) && (0 <=? 2) && (7 =? 3 * 2)), s') /\
    ((0 <? 3) && (0 <=? 2) && (7 =? 3 * 2) = true -> s' = s).
Proof.
  intros item s.
  apply (J_check_item_on_integers 3 3 2 7 item s); reflexivity.
Defined.

(** ** Findings are only ever appended *)

(** X20: a call of [generate_report], of either validator and whether it
    returns a report or raises, only appends to the error and warning lists
    of the object: what was there before the call is still there, first and
    in the same order, and the file names are untouched. *)
Theorem generate_report_only_appends
  (B : builtins) (WJ : J.world) (WX : X.world) (sj : J.validator) (sx : X.validator) :
  let sj' := snd (J.generate_report B WJ sj) in
  let sx' := snd (X.generate_report B WX sx) in
  ((exists es, J.errors sj' = J.errors sj ++ es) /\
   (exists ws, J.warnings sj' = J.warnings sj ++ ws) /\
   J.json_file sj' = J.json_file sj /\ J.schema_file sj' = J.schema_file sj) /\
  ((exists es, X.errors sx' = X.errors sx ++ es) /\
   (exists ws, X.warnings sx' = X.warnings sx ++ ws) /\
   X.xml_file sx' = X.xml_file sx /\ X.xsd_file sx' = X.xsd_file sx).
Proof.
  intros sj' sx'. split.
  - subst sj'. destruct (J.generate_report B WJ sj) as [r s'] eqn:E. simpl.
    unfold J.generate_report in E. unfold bind at 1 in E. unfold J.load_json in E.
    destruct (J.file_content WJ) as [data | text | text].
    + simpl in E.
      set (s1 := {| J.json_file := J.json_file sj; J.schema_file := J.schema_file sj;
                    J.errors := J.errors sj; J.warnings := J.warnings sj;
                    J.json_data := data |}) in E.
      assert (G : J_grows s1 s').
      { revert E. generalize s1 r s'.
        match goal with
        | |- forall a b c, ?m a = (b, c) -> _ => change (keeps J_grows m)
        end.
        keeps_with J_grows_refl J_grows_trans. }
      destruct G as (Ge & Gw & _ & Gf & Gs). auto.
    + injection E as _ <-. simpl. repeat split; eauto. exists []. now rewrite app_nil_r.
    + injection E as _ <-. simpl. repeat split; eauto. exists []. now rewrite app_nil_r.
  - subst sx'. destruct (X.generate_report B WX sx) as [r s'] eqn:E. simpl.
    assert (G : X_grows sx s').
    { revert E. generalize sx r s'. unfold X.generate_report.
      match goal with
      | |- forall a b c, ?m a = (b, c) -> _ => change (keeps X_grows m)
      end.
      keeps_with X_grows_refl X_grows_trans. }
    exact G.
Qed.

(** ** Attributes and text in [xml_to_dict] *)

Lemma add_attributes_get a v attrib :
  NoDup (map fst attrib) -> In (a, v) attrib ->
  dict_get ("@" ++ a) (X.add_attributes attrib) = Some (PStr v).
Proof.
  unfold X.add_attributes. generalize (@nil (string * pyval)).
  induction attrib as [ | [a' v'] rest IH]; intros base N I; [destruct I | ].
  simpl in N. inversion N as [ | ? ? Na Nr]; subst. simpl.
  destruct I as [E | I].
  - injection E as -> ->.
    assert (G : forall l base',
               ~ In a (map fst l) ->
               dict_get ("@" ++ a)
                 (fold_left (fun result kv => dict_set ("@" ++ fst kv) (PStr (snd kv)) result)
                    l base')
               = dict_get ("@" ++ a) base').
    { induction l as [ | [b w] l IHl]; intros base' Nl; [reflexivity | ].
      simpl. rewrite IHl by (intros C; apply Nl; now right).
      apply dict_get_set_other. apply String.eqb_neq.
      intros C. simpl in C. injection C as ->. apply Nl. now left. }
    rewrite (G rest _ Na). apply dict_get_set_same.
  - now apply IH.
Qed.

(** X21: what [xml_to_dict] does with text and attributes.  An element
    without children whose text is not blank becomes that text, stripped,
    and its attributes are dropped.  Otherwise the element becomes a dict
    that holds every attribute [a] under the key [@a] and, when the element
    has children and text, the stripped text under [#text], unless a child
    carries that very key as its tag. *)
Theorem xml_to_dict_text_and_attributes
  (t : string) (attrib : list (string * string)) (text : option string)
  (children : list X.element) :
  (forall s, X.stripped_text text = Some s ->
     X.xml_to_dict (X.Element t attrib text []) = PStr s) /\
  (X.stripped_text text = None \/ children <> [] ->
   exists d,
     X.xml_to_dict (X.Element t attrib text children) = PDict d /\
     (forall a v,
        NoDup (map fst attrib) -> In (a, v) attrib ->
        Forall (fun c => String.eqb ("@" ++ a) (X.tag c) = false) children ->
        dict_get ("@" ++ a) d = Some (PStr v)) /\
     (forall s,
        X.stripped_text text = Some s ->
        Forall (fun c => String.eqb "#text" (X.tag c) = false) children ->
        dict_get "#text" d = Some (PStr s))).
Proof.
  split.
  - intros s E. rewrite xml_to_dict_eq. now rewrite E.
  - intros H. rewrite xml_to_dict_eq.
    destruct (X.stripped_text text) as [s | ].
    + destruct children as [ | c children]; [now destruct H | ].
      eexists. split; [reflexivity | ]. split.
      * intros a v N I F. rewrite (children_dict_other _ _ _ F).
        rewrite dict_get_set_other by reflexivity. now apply add_attributes_get.
      * intros s' E F. injection E as <-. rewrite (children_dict_other _ _ _ F).
        apply dict_get_set_same.
    + eexists. split; [reflexivity | ]. split.
      * intros a v N I F. rewrite (children_dict_other _ _ _ F).
        now apply add_attributes_get.
      * discriminate.
Qed.

(** ** Rule 6 and the quantity check of rule 4 of the JSON validator *)

Lemma is_substring_at (e : string) :
  is_substring "@" e = existsb (Ascii.eqb "@") (list_ascii_of_string e).
Proof.
  induction e as [ | c e IH]; [reflexivity | ].
  cbn [is_substring String.prefix list_ascii_of_string existsb].
  destruct (ascii_dec "@" c) as [<- | N].
  - rewrite Ascii.eqb_refl. now destruct e.
  - rewrite IH. apply Ascii.eqb_neq in N. now rewrite N.
Qed.

(** X22: when the customer's [email] is a string, rule 6 never raises and
    rejects it exactly when it is not empty and holds no at sign; the rule
    asks for nothing else, so the one-character string of an at sign
    passes.  A rejected email adds one error naming it, an accepted one
    leaves the object unchanged. *)
Theorem J_rule_email_on_strings (customer : pyval) (e : string) (s : J.validator) :
  py_get customer "email" (PStr "") = Ok (PStr e) ->
  J.rule_email customer s
  = if negb (String.eqb e "") && negb (existsb (Ascii.eqb "@") (list_ascii_of_string e))
    then (Ok false, J_with_errors s [[Lit "Invalid email format: "; Fmt (PStr e)]])
    else (Ok true, s).
Proof.
  intros H. unfold J.rule_email.
  rewrite (bind_run _ _ s (PStr e) s) by (unfold lift; now rewrite H).
  unfold bind, lift. simpl. rewrite <- is_substring_at.
  destruct (negb (String.eqb e "")); simpl; [ | reflexivity].
  now destruct (is_substring "@" e).
Qed.

Lemma J_rule_email_on_strings_witness :
  let customer := PDict [("name", PStr "Amina"); ("email", PStr "amina.example.com")] in
  let s := J.__init__ "receipt.json" None in
  J.rule_email customer s
  = if negb (String.eqb "amina.example.com" "")
       && negb (existsb (Ascii.eqb "@") (list_ascii_of_string "amina.example.com"))
    then (Ok false,
          J_with_errors s [[Lit "Invalid email format: "; Fmt (PStr "amina.example.com")]])
    else (Ok true, s).
Proof.
  intros customer s.
  apply (J_rule_email_on_strings customer "amina.example.com" s). reflexivity.
Defined.

(** X23: the quantity check of rule 4 never raises, whatever the type of
    the value, and accepts exactly the integers above 0 and [True] (a [bool]
    is an [int] in Python); a float such as [2.0], a string or [None] is
    rejected with the "must be positive integer" error.  An accepted
    quantity leaves the object unchanged. *)
Theorem J_check_quantity_accepts (i : Z) (quantity : pyval) (s : J.validator) :
  exists ok s',
    J.check_quantity i quantity s = (Ok ok, s') /\
    (ok = true <-> (exists z, quantity = PInt z /\ 0 < z) \/ quantity = PBool true) /\
    (ok = true -> s' = s) /\
    (ok = false ->
     J.errors s'
     = J.errors s ++ [[Lit "Item "; Fmt (PInt (i + 1));
                       Lit ": Quantity must be positive integer. Found: "; Fmt quantity]]).
Proof.
  unfold J.check_quantity, bind, lift.
  destruct quantity as [ | b | z | f | str | l | d]; simpl;
    try (eexists; eexists; split; [reflexivity | ];
         split; [ | split; [discriminate | reflexivity]];
         split; [discriminate | ];
         intros [(z' & E & _) | E]; discriminate E).
  - destruct b; simpl; eexists; eexists; (split; [reflexivity | ]).
    + split; [split; auto | split; [reflexivity | discriminate]].
    + split; [ | split; [discriminate | reflexivity]].
      split; [discriminate | ]. intros [(z' & E & _) | E]; discriminate E.
  - destruct (Z.leb_spec z 0); simpl; eexists; eexists; (split; [reflexivity | ]).
    + split; [ | split; [discriminate | reflexivity]].
      split; [discriminate | ].
      intros [(z' & E & L) | E]; [ | discriminate E]. injection E as <-. lia.
    + split; [ | split; [reflexivity | discriminate]].
      split; [ | reflexivity]. intros _. left. now exists z.
Qed.
